(** * StoneSearch.Api: the normalization layer of api/app/main.py

    A shallow embedding of the two request handlers of [api/app/main.py]
    ([search_transactions] and [stats_daily]) and of the helpers they share
    ([parse_iso], [_parse_created_at]), followed by the properties the
    specification states about them.

    Python values coming back from the search engine are untyped JSON, so
    the embedding works over a small universe of Python values ([pyval]);
    Python floats are IEEE binary64 numbers, modelled with the Standard
    Library's [spec_float] at precision 53; exceptions are explicit
    ([result]); the engine is a function argument of the handlers, and every
    call made to it is recorded in a trace.  [api/app/es.py] only builds a
    client; its [get_es] is embedded next to the one of [main.py].

    Layout: floats, calendar and datetimes; Python values and builtins; the
    library interface ([Runtime]); the response schemas; the module itself
    ([Section Api]); models of the real libraries ([Reference]); the
    notions of the specification; the properties. *)

From Stdlib Require Import ZArith String Ascii List Bool Lia SpecFloat DecimalString.
Import ListNotations.
Local Open Scope string_scope.
Local Open Scope Z_scope.
Set Warnings "-register-all".

(* ================================================================== *)
(** ** Python floats (IEEE 754 binary64) *)

Module F64.

Definition float := spec_float.
Definition prec : Z := 53.
Definition emax : Z := 1024.

Definition zero : float := S754_zero false.
Definition inf : float := S754_infinity false.
Definition nan : float := S754_nan.

(** Nearest binary64 number to an integer (ties to even); an integer too
    large for the format rounds to an infinity. *)
Definition of_Z (n : Z) : float := binary_normalize prec emax n 0 false.

Definition add : float -> float -> float := SFadd prec emax.
Definition mul : float -> float -> float := SFmul prec emax.
Definition div : float -> float -> float := SFdiv prec emax.
Definition ltb : float -> float -> bool := SFltb.
Definition leb : float -> float -> bool := SFleb.

Definition is_nan (f : float) : bool :=
  match f with S754_nan => true | _ => false end.
Definition is_inf (f : float) : bool :=
  match f with S754_infinity _ => true | _ => false end.
Definition is_finite (f : float) : bool :=
  match f with S754_zero _ | S754_finite _ _ _ => true | _ => false end.
Definition is_zero (f : float) : bool :=
  match f with S754_zero _ => true | _ => false end.

(** C's [modf]: integral part (towards zero) and fractional part; both are
    exact.  Only meaningful on finite numbers. *)
Definition trunc (f : float) : Z :=
  match f with
  | S754_finite s m e =>
      let a := if 0 <=? e then Z.shiftl (Zpos m) e else Z.shiftr (Zpos m) (- e) in
      if s then - a else a
  | _ => 0
  end.

Definition frac (f : float) : float :=
  match f with
  | S754_finite s m e =>
      if 0 <=? e then S754_zero s
      else
        let r := Z.land (Zpos m) (Z.ones (- e)) in
        binary_normalize prec emax (if s then - r else r) e s
  | S754_zero s => S754_zero s
  | _ => f
  end.

(** Round a finite number to the nearest integer, ties to even. *)
Definition round_half_even (f : float) : Z :=
  match f with
  | S754_finite s m e =>
      let a :=
        if 0 <=? e then Z.shiftl (Zpos m) e
        else
          let q := Z.shiftr (Zpos m) (- e) in
          let r := Z.land (Zpos m) (Z.ones (- e)) in
          let half := Z.shiftl 1 (- e - 1) in
          match r ?= half with
          | Lt => q
          | Gt => q + 1
          | Eq => if Z.even q then q else q + 1
          end in
      if s then - a else a
  | _ => 0
  end.

(** Nearest binary64 number to [m * 10 ^ e10], the value of a decimal
    literal. *)
Definition of_decimal (neg : bool) (m : Z) (e10 : Z) : float :=
  match m with
  | Zpos _ =>
      if 0 <=? e10 then
        binary_normalize prec emax ((if neg then - m else m) * 10 ^ e10) 0 neg
      else
        let '(q, e, l) := SFdiv_core_binary prec emax m 0 (10 ^ (- e10)) 0 in
        binary_round_aux prec emax neg q e l
  | _ => S754_zero neg
  end.

End F64.

(* ================================================================== *)
(** ** The proleptic Gregorian calendar of [datetime] *)

Module Calendar.

Definition is_leap (y : Z) : bool :=
  ((y mod 4 =? 0) && negb (y mod 100 =? 0)) || (y mod 400 =? 0).

Definition days_in_month (y m : Z) : Z :=
  if m =? 2 then (if is_leap y then 29 else 28)
  else if (m =? 4) || (m =? 6) || (m =? 9) || (m =? 11) then 30
  else 31.

(** Number of days from 1970-01-01 to the civil date [y]-[m]-[d]. *)
Definition days_from_civil (y m d : Z) : Z :=
  let y' := if m <=? 2 then y - 1 else y in
  let era := y' / 400 in
  let yoe := y' - era * 400 in
  let mp := (m + 9) mod 12 in
  let doy := (153 * mp + 2) / 5 + d - 1 in
  let doe := yoe * 365 + yoe / 4 - yoe / 100 + doy in
  era * 146097 + doe - 719468.

(** The civil date that lies [z] days after 1970-01-01. *)
Definition civil_from_days (z : Z) : Z * Z * Z :=
  let z' := z + 719468 in
  let era := z' / 146097 in
  let doe := z' - era * 146097 in
  let yoe := (doe - doe / 1460 + doe / 36524 - doe / 146096) / 365 in
  let doy := doe - (365 * yoe + yoe / 4 - yoe / 100) in
  let mp := (5 * doy + 2) / 153 in
  let d := doy - (153 * mp + 2) / 5 + 1 in
  let m := if mp <? 10 then mp + 3 else mp - 9 in
  let y := yoe + era * 400 in
  ((if m <=? 2 then y + 1 else y), m, d).

(** ISO weekday of a day number, 1 = Monday ... 7 = Sunday
    (1970-01-01 was a Thursday). *)
Definition isoweekday (z : Z) : Z := (z + 3) mod 7 + 1.

End Calendar.

(** [datetime.datetime].  [tzinfo] is [None] for a naive datetime and
    [Some off] for an aware one, [off] being the UTC offset in seconds
    ([tz.UTC] is [Some 0]). *)
Record datetime := mk_datetime {
  year : Z; month : Z; day : Z;
  hour : Z; minute : Z; second : Z; microsecond : Z;
  tzinfo : option Z
}.

Module Datetime.

Definition MINYEAR : Z := 1.
Definition MAXYEAR : Z := 9999.

(** The range checks of the [datetime(...)] constructor. *)
Definition valid_fields (y mo d h mi s us : Z) : bool :=
  (MINYEAR <=? y) && (y <=? MAXYEAR) && (1 <=? mo) && (mo <=? 12) &&
  (1 <=? d) && (d <=? Calendar.days_in_month y mo) &&
  (0 <=? h) && (h <=? 23) && (0 <=? mi) && (mi <=? 59) &&
  (0 <=? s) && (s <=? 59) && (0 <=? us) && (us <=? 999999).

(** Microseconds between 1970-01-01T00:00:00 and the wall-clock reading of
    a datetime, its [tzinfo] ignored. *)
Definition wall_us (d : datetime) : Z :=
  (((Calendar.days_from_civil (year d) (month d) (day d) * 24 + hour d) * 60
    + minute d) * 60 + second d) * 1000000 + microsecond d.

(** The datetime whose wall clock reads [us] microseconds after
    1970-01-01T00:00:00. *)
Definition of_wall_us (us : Z) (tz : option Z) : datetime :=
  let secs := us / 1000000 in
  let days := secs / 86400 in
  let sod := secs mod 86400 in
  let '(y, m, d) := Calendar.civil_from_days days in
  mk_datetime y m d (sod / 3600) ((sod / 60) mod 60) (sod mod 60)
              (us mod 1000000) tz.

(** First and last second [datetime] can represent, as POSIX timestamps:
    0001-01-01T00:00:00 and 9999-12-31T23:59:59. *)
Definition min_timestamp : Z := -62135596800.
Definition max_timestamp : Z := 253402300799.

(** The instant an aware datetime denotes, in microseconds since the
    epoch; a naive datetime is read as UTC, which is what
    [utcfromtimestamp] produces. *)
Definition utc_instant (d : datetime) : Z :=
  wall_us d - match tzinfo d with Some off => off * 1000000 | None => 0 end.

(** Python's [==] on datetimes: two naive values compare field by field,
    two aware values compare as instants, and a naive value never equals
    an aware one. *)
Definition eqb (a b : datetime) : bool :=
  match tzinfo a, tzinfo b with
  | None, None => wall_us a =? wall_us b
  | Some _, Some _ => utc_instant a =? utc_instant b
  | _, _ => false
  end.

End Datetime.

(* ================================================================== *)
(** ** Python values, exceptions and builtins *)

(** What the engine client hands back is parsed JSON: [None], booleans,
    integers, floats, strings, lists and string-keyed dictionaries.  A
    dictionary is an association list in insertion order, looked up by first
    match.  [PDatetime] is there because [_parse_created_at] also accepts a
    [datetime]. *)
Inductive pyval :=
| PNone
| PBool (b : bool)
| PInt (n : Z)
| PFloat (f : F64.float)
| PStr (s : string)
| PList (l : list pyval)
| PDict (d : list (string * pyval))
| PDatetime (d : datetime).

(** The exceptions that occur.  [TransportError] stands for whatever the
    engine client raises; one constructor per class is enough, since the
    only handlers in the source are [except Exception] and
    [except ValidationError]. *)
Inductive pyexc :=
| AttributeError
| TypeError
| ValueError
| OverflowError
| OSError
| ValidationError
| TransportError
| HTTPException (status_code : Z).

Inductive result (A : Type) :=
| Ok (a : A)
| Raise (e : pyexc).
Arguments Ok {A} a.
Arguments Raise {A} e.

Definition bind {A B} (r : result A) (k : A -> result B) : result B :=
  match r with
  | Ok a => k a
  | Raise e => Raise e
  end.

Notation "x <- c ;; k" := (bind c (fun x => k))
  (at level 61, c at next level, right associativity).

(** [try: c except Exception: d] *)
Definition try_except {A} (c : result A) (d : A) : A :=
  match c with
  | Ok a => a
  | Raise _ => d
  end.

Fixpoint assoc (k : string) (d : list (string * pyval)) : option pyval :=
  match d with
  | [] => None
  | (k', v) :: d' => if String.eqb k k' then Some v else assoc k d'
  end.

(** [d[k] = v] on a dictionary: an existing key keeps its position and gets
    the new value, a new key goes to the end. *)
Fixpoint dict_set {V} (k : string) (v : V) (d : list (string * V)) : list (string * V) :=
  match d with
  | [] => [(k, v)]
  | (k', v') :: d' =>
      if String.eqb k k' then (k', v) :: d' else (k', v') :: dict_set k v d'
  end.

Definition dict_get (d : list (string * pyval)) (k : string) (default : pyval) : pyval :=
  match assoc k d with
  | Some v => v
  | None => default
  end.

(** [o.get(k, default)]: only dictionaries have a [get]. *)
Definition py_get (o : pyval) (k : string) (default : pyval) : result pyval :=
  match o with
  | PDict d => Ok (dict_get d k default)
  | _ => Raise AttributeError
  end.

(** Truth value of an object, as [or] tests it. *)
Definition truthy (v : pyval) : bool :=
  match v with
  | PNone => false
  | PBool b => b
  | PInt n => negb (n =? 0)
  | PFloat f => negb (F64.is_zero f)
  | PStr s => negb (String.eqb s "")
  | PList l => match l with [] => false | _ => true end
  | PDict d => match d with [] => false | _ => true end
  | PDatetime _ => true
  end.

(** [a or b] *)
Definition py_or (a b : pyval) : pyval := if truthy a then a else b.

Fixpoint chars (s : string) : list pyval :=
  match s with
  | EmptyString => []
  | String c s' => PStr (String c EmptyString) :: chars s'
  end.

(** What a [for] loop iterates over: the elements of a list, the keys of a
    dictionary, the characters of a string; other values are not iterable. *)
Definition py_iter (v : pyval) : result (list pyval) :=
  match v with
  | PList l => Ok l
  | PDict d => Ok (map (fun kv => PStr (fst kv)) d)
  | PStr s => Ok (chars s)
  | _ => Raise TypeError
  end.

(** [float(n)] for an integer: [OverflowError] when [n] is too large. *)
Definition float_of_int (n : Z) : result F64.float :=
  let f := F64.of_Z n in
  if F64.is_inf f then Raise OverflowError else Ok f.

Definition decimal (n : Z) : string := NilZero.string_of_int (Z.to_int n).

Fixpoint zeros (n : nat) : string :=
  match n with
  | O => ""
  | S n' => String "0" (zeros n')
  end.

(** ["%0wd" % n] for a non-negative [n]. *)
Definition zpad (w : nat) (n : Z) : string :=
  let s := decimal n in
  (zeros (w - String.length s) ++ s)%string.

Module Import DatetimeOps.

(** [d.isoformat(sep)] *)
Definition isoformat_sep (sep : string) (d : datetime) : string :=
  let fraction :=
    if microsecond d =? 0 then "" else String.append "." (zpad 6 (microsecond d)) in
  let offset :=
    match tzinfo d with
    | None => ""
    | Some off =>
        let a := Z.abs off in
        String.concat ""
          [ if off <? 0 then "-" else "+";
            zpad 2 (a / 3600); ":"; zpad 2 ((a / 60) mod 60);
            if a mod 60 =? 0 then "" else String.append ":" (zpad 2 (a mod 60)) ]
    end in
  String.concat ""
    [ zpad 4 (year d); "-"; zpad 2 (month d); "-"; zpad 2 (day d); sep;
      zpad 2 (hour d); ":"; zpad 2 (minute d); ":"; zpad 2 (second d);
      fraction; offset ].

Definition isoformat : datetime -> string := isoformat_sep "T".

(** The seconds for which the platform's [gmtime] answers: those whose
    year, less 1900, fits a C [int] (glibc with a 64-bit [time_t]). *)
Definition gmtime_min : Z := -67768040609740800.
Definition gmtime_max : Z := 67768036191676799.

(** A timestamp of [sec] seconds and [us] microseconds as a naive UTC
    datetime.  Outside years 1..9999 CPython raises: [ValueError] from the
    constructor of [datetime] when [gmtime] answered, [OSError] when
    [gmtime] failed, [OverflowError] when [sec] does not fit [time_t]. *)
Definition from_timet_and_us (sec us : Z) : result datetime :=
  if (Datetime.min_timestamp <=? sec) && (sec <=? Datetime.max_timestamp)
  then Ok (Datetime.of_wall_us (sec * 1000000 + us) None)
  else if (gmtime_min <=? sec) && (sec <=? gmtime_max) then Raise ValueError
  else if (- 2 ^ 63 <=? sec) && (sec <? 2 ^ 63) then Raise OSError
  else Raise OverflowError.

(** [datetime.utcfromtimestamp(t)].  A float is split by [modf], its
    fraction scaled to microseconds and rounded half to even.  The range
    test on a float is made on doubles, so 2^63 passes it and wraps to
    -2^63 in the conversion to [time_t]. *)
Definition utcfromtimestamp (t : pyval) : result datetime :=
  match t with
  | PInt n => from_timet_and_us n 0
  | PBool b => from_timet_and_us (if b then 1 else 0) 0
  | PFloat f =>
      if F64.is_nan f then Raise ValueError
      else if F64.is_inf f then Raise OverflowError
      else
        let intpart := if F64.trunc f =? 2 ^ 63 then - 2 ^ 63 else F64.trunc f in
        let us := F64.round_half_even (F64.mul (F64.frac f) (F64.of_Z 1000000)) in
        if 1000000 <=? us then from_timet_and_us (intpart + 1) (us - 1000000)
        else if us <? 0 then from_timet_and_us (intpart - 1) (us + 1000000)
        else from_timet_and_us intpart us
  | _ => Raise TypeError
  end.

(** [datetime.utcfromtimestamp(0)] *)
Definition epoch : datetime := mk_datetime 1970 1 1 0 0 0 0 None.

End DatetimeOps.

(* ================================================================== *)
(** ** The libraries the module calls

    [isoparse] comes from dateutil, [float] on a string and [str] on a
    compound value are builtins, and the response models are validated by
    pydantic.  The handlers are written once, over any behaviour of these;
    [Reference] further down gives the behaviour of the real ones. *)

Inductive ftype := TStr | TInt | TFloat | TDatetime.

Class Runtime := {
  (** [dateutil.parser.isoparse]; [None] when it raises. *)
  isoparse : string -> option datetime;
  (** [float(s)] for a string; [None] when it raises [ValueError]. *)
  float_of_str : string -> option F64.float;
  (** [repr] of a float, a list or a dictionary, which is what [str]
      returns for them. *)
  py_repr : pyval -> string;
  (** What pydantic turns a value into when it is not already of the
      field's type; [None] when it reports a validation error. *)
  coerce : ftype -> pyval -> option pyval;
  (** [os.getenv] *)
  getenv : string -> option string
}.

(** [str(v)] *)
Definition py_str {R : Runtime} (v : pyval) : string :=
  match v with
  | PStr s => s
  | PNone => "None"
  | PBool b => if b then "True" else "False"
  | PInt n => decimal n
  | PDatetime d => isoformat_sep " " d
  | _ => py_repr v
  end.

(** [float(v)] *)
Definition py_float {R : Runtime} (v : pyval) : result F64.float :=
  match v with
  | PFloat f => Ok f
  | PInt n => float_of_int n
  | PBool b => Ok (F64.of_Z (if b then 1 else 0))
  | PStr s => match float_of_str s with Some f => Ok f | None => Raise ValueError end
  | _ => Raise TypeError
  end.

(** *** pydantic field validation *)

Definition validate_str {R : Runtime} (v : pyval) : result string :=
  match v with
  | PStr s => Ok s
  | _ => match coerce TStr v with Some (PStr s) => Ok s | _ => Raise ValidationError end
  end.

Definition validate_int {R : Runtime} (v : pyval) : result Z :=
  match v with
  | PInt n => Ok n
  | _ => match coerce TInt v with Some (PInt n) => Ok n | _ => Raise ValidationError end
  end.

Definition validate_float {R : Runtime} (v : pyval) : result F64.float :=
  match v with
  | PFloat f => Ok f
  | _ => match coerce TFloat v with Some (PFloat f) => Ok f | _ => Raise ValidationError end
  end.

Definition validate_datetime {R : Runtime} (v : pyval) : result datetime :=
  match v with
  | PDatetime d => Ok d
  | _ => match coerce TDatetime v with Some (PDatetime d) => Ok d | _ => Raise ValidationError end
  end.

(* ================================================================== *)
(** ** Response schemas (the pydantic models of the module) *)

Module Transaction.
Record t := make {
  id : string;
  type : string;
  created_at : datetime;
  client_id : string;
  payer_id : string;
  amount : F64.float
}.

(** [Transaction(id=..., type=..., ...)]: each argument is validated
    against the annotation of its field. *)
Definition new {R : Runtime} (id type created_at client_id payer_id amount : pyval)
  : result t :=
  i <- validate_str id ;;
  ty <- validate_str type ;;
  c <- validate_datetime created_at ;;
  cl <- validate_str client_id ;;
  p <- validate_str payer_id ;;
  a <- validate_float amount ;;
  Ok (make i ty c cl p a).
End Transaction.

Module TransactionSearchItem.
Record t := make {
  id : string;
  score : F64.float;
  source : Transaction.t
}.

Definition new {R : Runtime} (id score : pyval) (source : Transaction.t) : result t :=
  i <- validate_str id ;;
  s <- validate_float score ;;
  Ok (make i s source).
End TransactionSearchItem.

Module TransactionSearchResponse.
Record t := make {
  total : Z;
  page : Z;
  size : Z;
  items : list TransactionSearchItem.t
}.

Definition new {R : Runtime} (total page size : pyval)
           (items : list TransactionSearchItem.t) : result t :=
  n <- validate_int total ;;
  p <- validate_int page ;;
  s <- validate_int size ;;
  Ok (make n p s items).
End TransactionSearchResponse.

Module DailyTotalsBucket.
Record t := make {
  date : datetime;
  totalsByType : list (string * F64.float);
  totalAllTypes : F64.float
}.

Definition new {R : Runtime} (date : pyval) (totalsByType : list (string * F64.float))
           (totalAllTypes : pyval) : result t :=
  d <- validate_datetime date ;;
  a <- validate_float totalAllTypes ;;
  Ok (make d totalsByType a).
End DailyTotalsBucket.

Module DailyTotalsResponse.
Record t := make {
  clientId : string;
  startDate : datetime;
  endDate : datetime;
  buckets : list DailyTotalsBucket.t
}.

Definition new {R : Runtime} (clientId startDate endDate : pyval)
           (buckets : list DailyTotalsBucket.t) : result t :=
  c <- validate_str clientId ;;
  s <- validate_datetime startDate ;;
  e <- validate_datetime endDate ;;
  Ok (make c s e buckets).
End DailyTotalsResponse.

(* ================================================================== *)
(** ** The engine client *)

(** The keyword arguments of one [es.search(...)] call; an argument that is
    not passed is [None]. *)
Record es_request := mk_request {
  rq_index : string;
  rq_from_ : option Z;
  rq_size : Z;
  rq_query : pyval;
  rq_sort : option pyval;
  rq_aggs : option pyval
}.

(** What an [Elasticsearch(...)] client is constructed with. *)
Record client_config := mk_client {
  cc_hosts : list string;
  cc_basic_auth : option (string * string);
  cc_request_timeout : option Z
}.

(** The client: a response body, or the exception the call raised. *)
Definition engine := es_request -> result pyval.

(** A handler computes a result and leaves the list of the engine calls it
    made, oldest first. *)
Definition io (A : Type) : Type := list es_request -> list es_request * result A.

Definition io_bind {A B} (c : io A) (k : A -> io B) : io B :=
  fun tr =>
    match c tr with
    | (tr', Ok a) => k a tr'
    | (tr', Raise e) => (tr', Raise e)
    end.

Definition lift {A} (r : result A) : io A := fun tr => (tr, r).

Definition es_search (es : engine) (rq : es_request) : io pyval :=
  fun tr => (app tr [rq], es rq).

(** [try: c except Exception as e: raise HTTPException(status_code=code)] *)
Definition reraise_http {A} (code : Z) (c : io A) : io A :=
  fun tr =>
    match c tr with
    | (tr', Raise _) => (tr', Raise (HTTPException code))
    | r => r
    end.

Definition run {A} (c : io A) : list es_request * result A := c [].

Notation "x <~ c ;; k" := (io_bind c (fun x => k))
  (at level 61, c at next level, right associativity).

(** The status a request ends with: the handler's [HTTPException], or the
    framework's 500 for any other exception. *)
Definition http_status {A} (r : result A) : Z :=
  match r with
  | Ok _ => 200
  | Raise (HTTPException c) => c
  | Raise _ => 500
  end.

(* ================================================================== *)
(** ** api/app/main.py *)

Section Api.

Context {R : Runtime}.

Definition ES_HOST : string :=
  match getenv "ES_HOST" with Some v => v | None => "http://elasticsearch:9200" end.

Definition ES_INDEX : string :=
  match getenv "ES_INDEX" with Some v => v | None => "transactions" end.

(** [get_es] builds a client for [ES_HOST]; the client itself is the
    [engine] the handlers are given. *)
Definition get_es : client_config := mk_client [ES_HOST] None None.

(** [parse_iso]: any exception of [isoparse] becomes an
    [HTTPException] with status 400 (its [detail] text is not modelled). *)
Definition parse_iso (s : string) : result datetime :=
  match isoparse s with
  | Some d => Ok d
  | None => Raise (HTTPException 400)
  end.

(** [value > 10_000_000_000] for a number.  The bound is exactly
    representable in binary64, so comparing floats compares the values. *)
Definition above_ms_threshold (value : pyval) : bool :=
  match value with
  | PInt n => 10000000000 <? n
  | PFloat f => F64.ltb (F64.of_Z 10000000000) f
  | _ => false
  end.

(** [value / 1000.0] for a number: an integer is first converted to
    float. *)
Definition div_1000 (value : pyval) : result F64.float :=
  f <- py_float value ;;
  Ok (F64.div f (F64.of_Z 1000)).

(** [_parse_created_at].  [Ok None] is the [None] the docstring
    announces for unparseable input; [bool] is a subclass of [int], so a
    boolean takes the numeric branch. *)
Definition _parse_created_at (value : pyval) : result (option datetime) :=
  match value with
  | PNone => Ok None
  | PDatetime d => Ok (Some d)
  | PInt _ | PBool _ | PFloat _ =>
      if above_ms_threshold value then
        q <- div_1000 value ;;
        d <- utcfromtimestamp (PFloat q) ;;
        Ok (Some d)
      else
        d <- utcfromtimestamp value ;;
        Ok (Some d)
  | PStr s => Ok (isoparse s)
  | _ => Ok None
  end.

(** *** /api/transactions/search *)

(** The body of the loop over the hits: [Ok None] is the [continue] taken
    on a [ValidationError] of [Transaction]; every other exception leaves
    the loop and the handler. *)
Definition map_hit (h : pyval) : result (option TransactionSearchItem.t) :=
  src0 <- py_get h "_source" (PDict []) ;;
  let src := py_or src0 (PDict []) in
  id0 <- py_get src "id" PNone ;;
  id1 <- (if truthy id0 then Ok id0 else py_get h "_id" (PStr "")) ;;
  let tx_id := py_str id1 in
  ty <- py_get src "type" (PStr "") ;;
  let tx_type := py_str ty in
  cl <- py_get src "client_id" (PStr "") ;;
  let tx_client := py_str cl in
  pa <- py_get src "payer_id" (PStr "") ;;
  let tx_payer := py_str pa in
  tx_amount_raw <- py_get src "amount" (PFloat F64.zero) ;;
  let tx_amount := try_except (py_float tx_amount_raw) F64.zero in
  cr <- py_get src "created_at" PNone ;;
  parsed <- _parse_created_at cr ;;
  tx_created <- match parsed with
                | Some d => Ok d
                | None => utcfromtimestamp (PInt 0)
                end ;;
  match Transaction.new (PStr tx_id) (PStr tx_type) (PDatetime tx_created)
                        (PStr tx_client) (PStr tx_payer) (PFloat tx_amount) with
  | Raise ValidationError => Ok None
  | Raise e => Raise e
  | Ok tx =>
      sc <- py_get h "_score" PNone ;;
      item <- TransactionSearchItem.new (PStr (Transaction.id tx))
                (py_or sc (PFloat F64.zero)) tx ;;
      Ok (Some item)
  end.

Fixpoint map_hits (hs : list pyval) : result (list TransactionSearchItem.t) :=
  match hs with
  | [] => Ok []
  | h :: rest =>
      r <- map_hit h ;;
      items <- map_hits rest ;;
      Ok (match r with Some item => item :: items | None => items end)
  end.

(** [page] and [size] arrive already checked by the framework
    ([ge=1], [le=100]); that check is not part of the function. *)
Definition search_transactions (es : engine)
           (client_id startDate endDate : string) (page size : Z)
  : io TransactionSearchResponse.t :=
  start <~ lift (parse_iso startDate) ;;
  end_ <~ lift (parse_iso endDate) ;;
  let from_ := (page - 1) * size in
  let query :=
    PDict [("bool", PDict [("filter", PList [
      PDict [("term", PDict [("client_id", PStr client_id)])];
      PDict [("range", PDict [("created_at",
        PDict [("gte", PStr (isoformat start)); ("lte", PStr (isoformat end_))])])]
    ])])] in
  let sort := PList [PDict [("created_at", PDict [("order", PStr "desc")])]] in
  resp <~ reraise_http 500
    (es_search es (mk_request ES_INDEX (Some from_) size query (Some sort) None)) ;;
  lift (
    hits <- py_get resp "hits" (PDict []) ;;
    tot <- py_get hits "total" (PDict []) ;;
    total <- py_get tot "value" (PInt 0) ;;
    hl <- py_get hits "hits" (PList []) ;;
    hs <- py_iter hl ;;
    items <- map_hits hs ;;
    TransactionSearchResponse.new total (PInt page) (PInt size) items).

(** *** /api/transactions/stats/daily *)

(** One turn of the loop over the per-type sub-buckets, on the pair
    ([totals_by_type], [total_all]). *)
Definition by_type_step (acc : list (string * F64.float) * F64.float) (tb : pyval)
  : result (list (string * F64.float) * F64.float) :=
  k <- py_get tb "key" (PStr "") ;;
  let tkey := py_str k in
  s <- py_get tb "total_amount" (PDict []) ;;
  v <- py_get s "value" (PFloat F64.zero) ;;
  let val := py_or v (PFloat F64.zero) in
  let val := try_except (py_float val) F64.zero in
  Ok (dict_set tkey val (fst acc), F64.add (snd acc) val).

Fixpoint by_type_loop (acc : list (string * F64.float) * F64.float) (tbs : list pyval)
  : result (list (string * F64.float) * F64.float) :=
  match tbs with
  | [] => Ok acc
  | tb :: rest => acc' <- by_type_step acc tb ;; by_type_loop acc' rest
  end.

(** The body of the loop over the day buckets. *)
Definition map_bucket (b : pyval) : result DailyTotalsBucket.t :=
  ks <- py_get b "key_as_string" PNone ;;
  parsed <- _parse_created_at ks ;;
  day <- match parsed with
         | Some d => Ok d
         | None => utcfromtimestamp (PInt 0)
         end ;;
  bt <- py_get b "by_type" (PDict []) ;;
  bl <- py_get bt "buckets" (PList []) ;;
  tbs <- py_iter (py_or bl (PList [])) ;;
  acc <- by_type_loop ([], F64.zero) tbs ;;
  DailyTotalsBucket.new (PDatetime day) (fst acc) (PFloat (snd acc)).

Fixpoint map_buckets (bs : list pyval) : result (list DailyTotalsBucket.t) :=
  match bs with
  | [] => Ok []
  | b :: rest =>
      x <- map_bucket b ;;
      xs <- map_buckets rest ;;
      Ok (x :: xs)
  end.

Definition stats_daily (es : engine) (client_id startDate endDate : string)
  : io DailyTotalsResponse.t :=
  start <~ lift (parse_iso startDate) ;;
  end_ <~ lift (parse_iso endDate) ;;
  let query :=
    PDict [("bool", PDict [("filter", PList [
      PDict [("term", PDict [("client_id", PStr client_id)])];
      PDict [("range", PDict [("created_at",
        PDict [("gte", PStr (isoformat start)); ("lte", PStr (isoformat end_))])])]
    ])])] in
  let aggs :=
    PDict [("per_day", PDict [
      ("date_histogram", PDict [("field", PStr "created_at");
                                ("fixed_interval", PStr "1d");
                                ("min_doc_count", PInt 0)]);
      ("aggs", PDict [("by_type", PDict [
        ("terms", PDict [("field", PStr "type"); ("size", PInt 20)]);
        ("aggs", PDict [("total_amount",
                         PDict [("sum", PDict [("field", PStr "amount")])])])
      ])])
    ])] in
  resp <~ reraise_http 500
    (es_search es (mk_request ES_INDEX None 0 query None (Some aggs))) ;;
  lift (
    result0 <- DailyTotalsResponse.new (PStr client_id) (PDatetime start)
                 (PDatetime end_) [] ;;
    ag <- py_get resp "aggregations" (PDict []) ;;
    pd <- py_get ag "per_day" (PDict []) ;;
    bl <- py_get pd "buckets" (PList []) ;;
    per_day <- py_iter (py_or bl (PList [])) ;;
    bs <- map_buckets per_day ;;
    Ok (DailyTotalsResponse.make (DailyTotalsResponse.clientId result0)
          (DailyTotalsResponse.startDate result0)
          (DailyTotalsResponse.endDate result0)
          (app (DailyTotalsResponse.buckets result0) bs))).

End Api.

(** ** api/app/es.py *)

Module Es.

(** The other [get_es]: URL and optional credentials from the environment,
    a 30 s request timeout.  An unset or empty user or password means no
    authentication. *)
Definition get_es {R : Runtime} : client_config :=
  let url := match getenv "ELASTIC_URL" with
             | Some v => v
             | None => "http://elasticsearch:9200"
             end in
  match getenv "ELASTIC_USER", getenv "ELASTIC_PASS" with
  | Some user, Some pwd =>
      if negb (String.eqb user "") && negb (String.eqb pwd "")
      then mk_client [url] (Some (user, pwd)) (Some 30)
      else mk_client [url] None (Some 30)
  | _, _ => mk_client [url] None (Some 30)
  end.

End Es.

(* ================================================================== *)
(** ** The real libraries

    Models of the library functions the module calls, precise enough to
    evaluate the handlers on concrete inputs. *)

Definition obind {A B} (o : option A) (k : A -> option B) : option B :=
  match o with
  | Some a => k a
  | None => None
  end.

Notation "x <-? c ;; k" := (obind c (fun x => k))
  (at level 61, c at next level, right associativity).

Module PyText.

Definition is_digit (c : ascii) : bool :=
  let n := nat_of_ascii c in (Nat.leb 48 n && Nat.leb n 57)%bool.

Definition digit_val (c : ascii) : Z := Z.of_nat (nat_of_ascii c) - 48.

(** ASCII white space: space, \t, \n, \v, \f, \r. *)
Definition is_space (c : ascii) : bool :=
  let n := nat_of_ascii c in (Nat.eqb n 32 || (Nat.leb 9 n && Nat.leb n 13))%bool.

Fixpoint lstrip (l : list ascii) : list ascii :=
  match l with
  | c :: l' => if is_space c then lstrip l' else l
  | [] => []
  end.

Definition strip (l : list ascii) : list ascii := rev (lstrip (rev (lstrip l))).

(** A run of decimal digits in which single underscores may separate
    digits; [seen] tells whether the previous character was a digit.
    Returns the value and the number of digits. *)
Fixpoint digits (l : list ascii) (acc : Z) (n : Z) (seen : bool) : option (Z * Z) :=
  match l with
  | [] => if seen then Some (acc, n) else None
  | c :: l' =>
      if is_digit c then digits l' (10 * acc + digit_val c) (n + 1) true
      else if (Ascii.eqb c "_" && seen)%bool then digits l' acc n false
      else None
  end.

Definition split_sign (l : list ascii) : bool * list ascii :=
  match l with
  | c :: l' =>
      if Ascii.eqb c "-" then (true, l')
      else if Ascii.eqb c "+" then (false, l')
      else (false, l)
  | [] => (false, [])
  end.

(** [int(b)] for a byte string, base 10. *)
Definition int_of_bytes (s : string) : option Z :=
  let '(neg, l) := split_sign (strip (list_ascii_of_string s)) in
  v <-? digits l 0 0 false ;;
  Some (if neg then - fst v else fst v).

Definition is_ascii (s : string) : bool :=
  forallb (fun c => Nat.ltb (nat_of_ascii c) 128) (list_ascii_of_string s).

(** [s[a:b]] and [s[a:]] *)
Definition slice (s : string) (a b : nat) : string := substring a (b - a) s.
Definition slice_from (s : string) (a : nat) : string :=
  substring a (String.length s - a) s.

Definition lower (c : ascii) : ascii :=
  let n := nat_of_ascii c in
  if (Nat.leb 65 n && Nat.leb n 90)%bool then ascii_of_nat (n + 32) else c.

End PyText.

(** dateutil's [isoparser], with the default separator setting (any single
    character separates date from time). *)
Module Dateutil.
Import PyText.

Definition min_ordinal : Z := Calendar.days_from_civil 1 1 1.
Definition max_ordinal : Z := Calendar.days_from_civil 9999 12 31.

(** A [date] as a day number, when it is in range. *)
Definition date (y m d : Z) : option Z :=
  if ((1 <=? y) && (y <=? 9999) && (1 <=? m) && (m <=? 12) &&
      (1 <=? d) && (d <=? Calendar.days_in_month y m))%bool
  then Some (Calendar.days_from_civil y m d) else None.

Definition date_plus (z n : Z) : option Z :=
  let r := z + n in
  if ((min_ordinal <=? r) && (r <=? max_ordinal))%bool then Some r else None.

Definition _parse_isodate_common (dt_str : string) : option (Z * Z * Z * nat) :=
  let len_str := String.length dt_str in
  if Nat.ltb len_str 4 then None else
  y <-? int_of_bytes (slice dt_str 0 4) ;;
  if Nat.leb len_str 4 then Some (y, 1, 1, 4%nat) else
  let has_sep := String.eqb (slice dt_str 4 5) "-" in
  let pos := if has_sep then 5%nat else 4%nat in
  if Nat.ltb (len_str - pos) 2 then None else
  m <-? int_of_bytes (slice dt_str pos (pos + 2)) ;;
  let pos := (pos + 2)%nat in
  if Nat.leb len_str pos then (if has_sep then Some (y, m, 1, pos) else None) else
  if (has_sep && negb (String.eqb (slice dt_str pos (pos + 1)) "-"))%bool then None else
  let pos := if has_sep then (pos + 1)%nat else pos in
  if Nat.ltb (len_str - pos) 2 then None else
  d <-? int_of_bytes (slice dt_str pos (pos + 2)) ;;
  Some (y, m, d, (pos + 2)%nat).

Definition _calculate_weekdate (year week day : Z) : option Z :=
  if negb ((0 <? week) && (week <? 54)) then None else
  if negb ((0 <? day) && (day <? 8)) then None else
  jan_4 <-? date year 1 4 ;;
  week_1 <-? date_plus jan_4 (- (Calendar.isoweekday jan_4 - 1)) ;;
  date_plus week_1 ((week - 1) * 7 + (day - 1)).

Definition _parse_isodate_uncommon (dt_str : string) : option (Z * Z * Z * nat) :=
  let len_str := String.length dt_str in
  if Nat.ltb len_str 4 then None else
  year <-? int_of_bytes (slice dt_str 0 4) ;;
  let has_sep := String.eqb (slice dt_str 4 5) "-" in
  let pos := if has_sep then 5%nat else 4%nat in
  if String.eqb (slice dt_str pos (pos + 1)) "W" then
    let pos := (pos + 1)%nat in
    weekno <-? int_of_bytes (slice dt_str pos (pos + 2)) ;;
    let pos := (pos + 2)%nat in
    r <-? (if Nat.ltb pos len_str then
             if negb (Bool.eqb (String.eqb (slice dt_str pos (pos + 1)) "-") has_sep)
             then None
             else
               let pos := if has_sep then (pos + 1)%nat else pos in
               dayno <-? int_of_bytes (slice dt_str pos (pos + 1)) ;;
               Some (dayno, (pos + 1)%nat)
           else Some (1, pos)) ;;
    base <-? _calculate_weekdate year weekno (fst r) ;;
    let '(y, m, d) := Calendar.civil_from_days base in
    Some (y, m, d, snd r)
  else
    if Nat.ltb (len_str - pos) 3 then None else
    ordinal_day <-? int_of_bytes (slice dt_str pos (pos + 3)) ;;
    let pos := (pos + 3)%nat in
    if ((ordinal_day <? 1) ||
        (365 + (if Calendar.is_leap year then 1 else 0) <? ordinal_day))%bool
    then None else
    jan_1 <-? date year 1 1 ;;
    base <-? date_plus jan_1 (ordinal_day - 1) ;;
    let '(y, m, d) := Calendar.civil_from_days base in
    Some (y, m, d, pos).

Definition _parse_isodate (dt_str : string) : option (Z * Z * Z * nat) :=
  match _parse_isodate_common dt_str with
  | Some r => Some r
  | None => _parse_isodate_uncommon dt_str
  end.

Definition _parse_tzstr (tzstr : string) : option Z :=
  if (String.eqb tzstr "Z" || String.eqb tzstr "z")%bool then Some 0 else
  let n := String.length tzstr in
  if negb (Nat.eqb n 3 || Nat.eqb n 5 || Nat.eqb n 6) then None else
  mult <-? (if String.eqb (slice tzstr 0 1) "-" then Some (-1)
            else if String.eqb (slice tzstr 0 1) "+" then Some 1
            else None) ;;
  hours <-? int_of_bytes (slice tzstr 1 3) ;;
  minutes <-? (if Nat.eqb n 3 then Some 0
               else int_of_bytes
                      (slice_from tzstr
                         (if String.eqb (slice tzstr 3 4) ":" then 4 else 3))) ;;
  if ((hours =? 0) && (minutes =? 0))%bool then Some 0
  else if 59 <? minutes then None
  else if 23 <? hours then None
  else Some (mult * (hours * 60 + minutes) * 60).

(** The match of [[\.,]([0-9]+)] at the start of a string: the digits
    found, or nothing. *)
Fixpoint leading_digits (l : list ascii) : list ascii :=
  match l with
  | c :: l' => if is_digit c then c :: leading_digits l' else []
  | [] => []
  end.

Definition fraction_match (s : string) : option (list ascii) :=
  match list_ascii_of_string s with
  | c :: l =>
      if (Ascii.eqb c "." || Ascii.eqb c ",")%bool then
        match leading_digits l with
        | [] => None
        | ds => Some ds
        end
      else None
  | [] => None
  end.

Record time_components := mk_tc {
  tc_hour : Z; tc_minute : Z; tc_second : Z; tc_us : Z; tc_tz : option Z
}.

Definition set_component (c : time_components) (comp : Z) (v : Z) : time_components :=
  if comp =? 0 then mk_tc v (tc_minute c) (tc_second c) (tc_us c) (tc_tz c)
  else if comp =? 1 then mk_tc (tc_hour c) v (tc_second c) (tc_us c) (tc_tz c)
  else if comp =? 2 then mk_tc (tc_hour c) (tc_minute c) v (tc_us c) (tc_tz c)
  else mk_tc (tc_hour c) (tc_minute c) (tc_second c) v (tc_tz c).

(** The [while pos < len_str and comp < 5] loop of [_parse_isotime]; it
    runs at most six times.  Returns the components and the final
    position. *)
Fixpoint isotime_loop (fuel : nat) (timestr : string) (comp : Z) (pos : nat)
         (has_sep : bool) (c : time_components) : option (time_components * nat) :=
  let len_str := String.length timestr in
  match fuel with
  | O => Some (c, pos)
  | S fuel' =>
      if negb (Nat.ltb pos len_str && (comp <? 5)) then Some (c, pos) else
      let comp := comp + 1 in
      let here := slice timestr pos (pos + 1) in
      if (String.eqb here "-" || String.eqb here "+" ||
          String.eqb here "Z" || String.eqb here "z")%bool then
        tz <-? _parse_tzstr (slice_from timestr pos) ;;
        Some (mk_tc (tc_hour c) (tc_minute c) (tc_second c) (tc_us c) (Some tz), len_str)
      else
        st <-? (if ((comp =? 1) && String.eqb here ":")%bool then Some (true, (pos + 1)%nat)
                else if ((comp =? 2) && has_sep)%bool then
                       if negb (String.eqb here ":") then None
                       else Some (has_sep, (pos + 1)%nat)
                else Some (has_sep, pos)) ;;
        let '(has_sep, pos) := st in
        if comp <? 3 then
          v <-? int_of_bytes (slice timestr pos (pos + 2)) ;;
          isotime_loop fuel' timestr comp (pos + 2)%nat has_sep (set_component c comp v)
        else if comp =? 3 then
          match fraction_match (slice_from timestr pos) with
          | None => isotime_loop fuel' timestr comp pos has_sep c
          | Some ds =>
              let us_str := firstn 6 ds in
              v <-? digits us_str 0 0 false ;;
              isotime_loop fuel' timestr comp (pos + 1 + List.length ds)%nat has_sep
                (set_component c comp (fst v * 10 ^ (6 - Z.of_nat (List.length us_str))))
          end
        else isotime_loop fuel' timestr comp pos has_sep c
  end.

Definition _parse_isotime (timestr : string) : option time_components :=
  let len_str := String.length timestr in
  if Nat.ltb len_str 2 then None else
  r <-? isotime_loop 6 timestr (-1) 0 false (mk_tc 0 0 0 0 None) ;;
  let '(c, pos) := r in
  if Nat.ltb pos len_str then None else
  if ((tc_hour c =? 24) &&
      negb ((tc_minute c =? 0) && (tc_second c =? 0) && (tc_us c =? 0)))%bool
  then None
  else Some c.

(** [datetime(y, m, d, h, mi, s, us, tz)] with its range checks. *)
Definition make_datetime (y m d h mi s us : Z) (tz : option Z) : option datetime :=
  if Datetime.valid_fields y m d h mi s us
  then Some (mk_datetime y m d h mi s us tz) else None.

(** [dt + timedelta(days=1)] *)
Definition plus_one_day (dt : datetime) : option datetime :=
  let us := Datetime.wall_us dt + 86400 * 1000000 in
  if us <=? Datetime.max_timestamp * 1000000 + 999999
  then Some (Datetime.of_wall_us us (tzinfo dt)) else None.

Definition isoparse (dt_str : string) : option datetime :=
  if negb (is_ascii dt_str) then None else
  r <-? _parse_isodate dt_str ;;
  let '(y, m, d, pos) := r in
  if Nat.ltb pos (String.length dt_str) then
    c <-? _parse_isotime (slice_from dt_str (pos + 1)) ;;
    if tc_hour c =? 24 then
      dt <-? make_datetime y m d 0 (tc_minute c) (tc_second c) (tc_us c) (tc_tz c) ;;
      plus_one_day dt
    else make_datetime y m d (tc_hour c) (tc_minute c) (tc_second c) (tc_us c) (tc_tz c)
  else make_datetime y m d 0 0 0 0 None.

End Dateutil.

(** The builtins [float] (on a string) and [repr]. *)
Module Builtins.
Import PyText.

(** The longest prefix made of digits and underscores, and the rest. *)
Fixpoint span_num (l : list ascii) : list ascii * list ascii :=
  match l with
  | c :: l' =>
      if (is_digit c || Ascii.eqb c "_")%bool
      then let '(a, b) := span_num l' in (c :: a, b)
      else ([], l)
  | [] => ([], [])
  end.

Definition opt_digits (l : list ascii) : option (Z * Z) :=
  match l with
  | [] => Some (0, 0)
  | _ => digits l 0 0 false
  end.

Definition exponent (l : list ascii) : option Z :=
  match l with
  | [] => Some 0
  | c :: r =>
      if (Ascii.eqb c "e" || Ascii.eqb c "E")%bool then
        let '(neg, ds) := split_sign r in
        v <-? digits ds 0 0 false ;;
        Some (if neg then - fst v else fst v)
      else None
  end.

(** [float(s)]: surrounding white space is dropped; then a sign, and
    either [inf], [infinity] or [nan] in any case, or a decimal literal
    with an optional fraction and exponent, rounded to the nearest
    binary64 number.  Digits and white space are the ASCII ones. *)
Definition float_of_str (s : string) : option F64.float :=
  let '(neg, l) := split_sign (strip (list_ascii_of_string s)) in
  let low := string_of_list_ascii (map lower l) in
  if (String.eqb low "inf" || String.eqb low "infinity")%bool then Some (S754_infinity neg)
  else if String.eqb low "nan" then Some S754_nan
  else
    let '(ip, rest) := span_num l in
    let '(fp, rest) :=
      match rest with
      | c :: r => if Ascii.eqb c "." then span_num r else ([], rest)
      | [] => ([], rest)
      end in
    match ip, fp with
    | [], [] => None
    | _, _ =>
        i <-? opt_digits ip ;;
        f <-? opt_digits fp ;;
        e <-? exponent rest ;;
        Some (F64.of_decimal neg (fst i * 10 ^ snd f + fst f) (e - snd f))
    end.

(** [int(s)] for a string, as pydantic applies it. *)
Definition int_of_str : string -> option Z := int_of_bytes.

End Builtins.

(** [repr], which is what [str] returns for floats, lists and
    dictionaries. *)
Module Repr.
Import PyText.

Definition quote1 : ascii := "'".
Definition quote2 : ascii := ascii_of_nat 34.
Definition backslash : ascii := "\".

Definition hex_digit (n : nat) : ascii :=
  if Nat.ltb n 10 then ascii_of_nat (48 + n) else ascii_of_nat (87 + n).

Definition str1 (c : ascii) : string := String c EmptyString.

Definition escape (q : ascii) (c : ascii) : string :=
  let n := nat_of_ascii c in
  if (Ascii.eqb c q || Ascii.eqb c backslash)%bool then String backslash (str1 c)
  else if Nat.eqb n 10 then String backslash "n"
  else if Nat.eqb n 13 then String backslash "r"
  else if Nat.eqb n 9 then String backslash "t"
  else if (Nat.ltb n 32 || Nat.eqb n 127)%bool then
    String backslash (String "x" (String (hex_digit (n / 16)) (str1 (hex_digit (n mod 16)))))
  else str1 c.

(** [repr] of a string: single quotes unless the string has a single
    quote and no double quote.  Characters outside ASCII are taken to be
    printable and are left as they are. *)
Definition repr_str (s : string) : string :=
  let l := list_ascii_of_string s in
  let q := if (existsb (Ascii.eqb quote1) l && negb (existsb (Ascii.eqb quote2) l))%bool
           then quote2 else quote1 in
  String q (String.concat "" (map (escape q) l) ++ str1 q).

(** *** Shortest decimal that reads back as the same float *)

(** [10 ^ k <= num / den] *)
Definition pow10_le (k num den : Z) : bool :=
  if 0 <=? k then 10 ^ k * den <=? num else den <=? num * 10 ^ (- k).

Fixpoint adjust_exp (fuel : nat) (k num den : Z) : Z :=
  match fuel with
  | O => k
  | S fuel' =>
      if pow10_le (k + 1) num den then adjust_exp fuel' (k + 1) num den
      else if negb (pow10_le k num den) then adjust_exp fuel' (k - 1) num den
      else k
  end.

(** The [k] with [10 ^ k <= num / den < 10 ^ (k + 1)]. *)
Definition exp10 (num den : Z) : Z :=
  adjust_exp 8 ((Z.log2 num - Z.log2 den) * 30103 / 100000) num den.

(** Among the decimals with [n] significant digits next to [num / den],
    the nearest one that reads back as [f], as digits and exponent. *)
Definition candidate (f : F64.float) (num den k : Z) (n : Z) : option (Z * Z) :=
  let sh := n - 1 - k in
  let a := if 0 <=? sh then num * 10 ^ sh else num in
  let b := if 0 <=? sh then den else den * 10 ^ (- sh) in
  let lo := a / b in
  let r := a mod b in
  let ok d := SFeqb (F64.of_decimal false d (- sh)) f in
  let hi_nearer :=
    match 2 * r ?= b with
    | Lt => false
    | Gt => true
    | Eq => Z.odd lo
    end in
  match ok lo, ok (lo + 1) with
  | true, true => Some (if hi_nearer then lo + 1 else lo, - sh)
  | true, false => Some (lo, - sh)
  | false, true => Some (lo + 1, - sh)
  | false, false => None
  end.

Fixpoint shortest (fuel : nat) (f : F64.float) (num den k n : Z) : Z * Z :=
  match fuel with
  | O => (0, 0)
  | S fuel' =>
      match candidate f num den k n with
      | Some r => r
      | None => shortest fuel' f num den k (n + 1)
      end
  end.

Fixpoint strip_zeros (fuel : nat) (d e : Z) : Z * Z :=
  match fuel with
  | O => (d, e)
  | S fuel' => if (d mod 10 =? 0) && negb (d =? 0)
               then strip_zeros fuel' (d / 10) (e + 1) else (d, e)
  end.

(** [repr] of a positive finite float given as [m * 2 ^ e]. *)
Definition repr_finite (m : positive) (e : Z) : string :=
  let num := if 0 <=? e then Zpos m * 2 ^ e else Zpos m in
  let den := if 0 <=? e then 1 else 2 ^ (- e) in
  let k := exp10 num den in
  let '(d, e10) := shortest 17 (S754_finite false m e) num den k 1 in
  let '(d, e10) := strip_zeros 18 d e10 in
  let ds := decimal d in
  let nd := String.length ds in
  let decpt := Z.of_nat nd + e10 in
  if (decpt <=? -4) || (16 <? decpt) then
    let x := decpt - 1 in
    String.concat ""
      [ substring 0 1 ds;
        if Nat.ltb 1 nd then String.append "." (substring 1 (nd - 1) ds) else "";
        "e"; if x <? 0 then "-" else "+"; zpad 2 (Z.abs x) ]
  else if decpt <=? 0 then
    String.concat "" [ "0."; zeros (Z.to_nat (- decpt)); ds ]
  else if decpt <? Z.of_nat nd then
    String.concat ""
      [ substring 0 (Z.to_nat decpt) ds; ".";
        substring (Z.to_nat decpt) (nd - Z.to_nat decpt) ds ]
  else
    String.concat "" [ ds; zeros (Z.to_nat decpt - nd); ".0" ].

Definition repr_float (f : F64.float) : string :=
  match f with
  | S754_nan => "nan"
  | S754_infinity s => if s then "-inf" else "inf"
  | S754_zero s => if s then "-0.0" else "0.0"
  | S754_finite s m e =>
      String.append (if s then "-" else "") (repr_finite m e)
  end.

Definition repr_datetime (d : datetime) : string :=
  String.concat ""
    [ "datetime.datetime(";
      String.concat ", "
        (app [decimal (year d); decimal (month d); decimal (day d);
              decimal (hour d); decimal (minute d)]
          (app (if (second d =? 0) && (microsecond d =? 0) then []
                else if microsecond d =? 0 then [decimal (second d)]
                else [decimal (second d); decimal (microsecond d)])
               match tzinfo d with
               | None => []
               | Some 0 => ["tzinfo=tzutc()"]
               | Some off =>
                   [String.concat "" ["tzinfo=tzoffset(None, "; decimal off; ")"]]
               end));
      ")" ].

Fixpoint repr (v : pyval) : string :=
  match v with
  | PNone => "None"
  | PBool b => if b then "True" else "False"
  | PInt n => decimal n
  | PFloat f => repr_float f
  | PStr s => repr_str s
  | PList l => String.concat "" ["["; String.concat ", " (map repr l); "]"]
  | PDict d =>
      String.concat ""
        [ "{";
          String.concat ", "
            (map (fun kv => let '(k, x) := kv in
                            String.concat "" [repr_str k; ": "; repr x]) d);
          "}" ]
  | PDatetime d => repr_datetime d
  end.

End Repr.

(** The text before the first "." of a string, when only zeros follow
    the ".". *)
Fixpoint strip_decimal_zeros (l : list ascii) : option (list ascii) :=
  match l with
  | [] => None
  | c :: l' =>
      if Ascii.eqb c "."
      then if forallb (Ascii.eqb "0") l' then Some [] else None
      else option_map (cons c) (strip_decimal_zeros l')
  end.

(** pydantic in its default (lax) mode, for the JSON scalars: an integer
    field takes a boolean, an integral float strictly between -2^63 and
    2^63, or a numeric string (an integer literal, or one followed by a
    zero fraction such as "25.0"); a float field takes an integer, a
    boolean or a numeric string; a string field takes nothing but a
    string.  A datetime field is only ever given a datetime by this
    module, and nothing else is converted here. *)
Definition pydantic_coerce (t : ftype) (v : pyval) : option pyval :=
  match t, v with
  | TInt, PBool b => Some (PInt (if b then 1 else 0))
  | TInt, PFloat f =>
      if F64.is_finite f && F64.is_zero (F64.frac f)
         && (- 2 ^ 63 <? F64.trunc f) && (F64.trunc f <? 2 ^ 63)
      then Some (PInt (F64.trunc f)) else None
  | TInt, PStr s =>
      match Builtins.int_of_str s with
      | Some n => Some (PInt n)
      | None =>
          match strip_decimal_zeros (PyText.strip (list_ascii_of_string s)) with
          | Some a => option_map PInt (Builtins.int_of_str (string_of_list_ascii a))
          | None => None
          end
      end
  | TFloat, PInt n =>
      match float_of_int n with Ok f => Some (PFloat f) | Raise _ => None end
  | TFloat, PBool b => Some (PFloat (F64.of_Z (if b then 1 else 0)))
  | TFloat, PStr s => option_map PFloat (Builtins.float_of_str s)
  | _, _ => None
  end.

(** The real libraries, in a process started without [ES_HOST] and
    [ES_INDEX] in its environment. *)
Definition Reference : Runtime := {|
  isoparse := Dateutil.isoparse;
  float_of_str := Builtins.float_of_str;
  py_repr := Repr.repr;
  coerce := pydantic_coerce;
  getenv := fun _ => None
|}.

(* ================================================================== *)
(** ** Notions of the specification *)

Arguments utcfromtimestamp : simpl never.
Arguments isoformat : simpl never.

(** What the values of a Python dictionary add up to: the plain float
    sum, left to right from 0.0, in insertion order.  (From CPython 3.12 on
    the builtin [sum] compensates rounding errors and may differ from it in
    the last bits.) *)
Definition sum_values (d : list (string * F64.float)) : F64.float :=
  fold_left F64.add (map snd d) F64.zero.

(** A value of a type other than datetime, number and string, [None] set
    apart: among parsed JSON, a list or a dictionary.  Python counts [bool]
    among the integers ([isinstance(True, int)] holds). *)
Definition other_type (v : pyval) : Prop :=
  match v with
  | PNone | PDatetime _ | PInt _ | PBool _ | PFloat _ | PStr _ => False
  | PList _ | PDict _ => True
  end.

Definition unparseable {R : Runtime} (v : pyval) : Prop :=
  v = PNone \/ (exists s, v = PStr s /\ isoparse s = None) \/ other_type v.

(** The hits and the match count of a response body, read the way
    [search_transactions] reads them. *)
Definition response_hits (body : pyval) : result (list pyval) :=
  hits <- py_get body "hits" (PDict []) ;;
  hl <- py_get hits "hits" (PList []) ;;
  py_iter hl.

Definition response_total (body : pyval) : result pyval :=
  hits <- py_get body "hits" (PDict []) ;;
  tot <- py_get hits "total" (PDict []) ;;
  py_get tot "value" (PInt 0).

(** The per-type sub-buckets of a day bucket, read the way [stats_daily]
    reads them, and the key [stats_daily] files a sub-bucket under. *)
Definition by_type_buckets (b : pyval) : result (list pyval) :=
  bt <- py_get b "by_type" (PDict []) ;;
  bl <- py_get bt "buckets" (PList []) ;;
  py_iter (py_or bl (PList [])).

Definition tb_key {R : Runtime} (tb : pyval) : string :=
  match tb with
  | PDict d => py_str (dict_get d "key" (PStr ""))
  | _ => ""
  end.

(** The Transaction invariant in the words of the specification: on top of
    the field types, a non-empty [id] and a finite [amount]. *)
Definition Transaction_invariant (tx : Transaction.t) : Prop :=
  Transaction.id tx <> "" /\ F64.is_finite (Transaction.amount tx) = true.

(** The filter of the specification's Query Builder: the conjunction of an
    exact match on the client identifier and an inclusive range on the
    timestamp, the bounds in ISO-8601 form. *)
Definition buildFilter (clientId : string) (start end_ : datetime) : pyval :=
  let exact_match := PDict [("term", PDict [("client_id", PStr clientId)])] in
  let inclusive_range :=
    PDict [("range", PDict [("created_at",
      PDict [("gte", PStr (isoformat start)); ("lte", PStr (isoformat end_))])])] in
  PDict [("bool", PDict [("filter", PList [exact_match; inclusive_range])])].

(** The stored document of a hit, as the loop of [search_transactions]
    takes it: [h.get("_source", {}) or {}]. *)
Definition hit_source (hd : list (string * pyval)) : pyval :=
  py_or (dict_get hd "_source" (PDict [])) (PDict []).

(** The fields of a hit after defaulting, for a hit [hd] whose stored
    document is [sd] and whose [created_at] the normalizer turned into
    [parsed]. *)
Definition default_id {R : Runtime} (hd sd : list (string * pyval)) : string :=
  py_str (py_or (dict_get sd "id" PNone) (dict_get hd "_id" (PStr ""))).

Definition default_amount {R : Runtime} (sd : list (string * pyval)) : F64.float :=
  try_except (py_float (dict_get sd "amount" (PFloat F64.zero))) F64.zero.

Definition default_created (parsed : option datetime) : datetime :=
  match parsed with
  | Some d => d
  | None => epoch
  end.

Definition mapped_transaction {R : Runtime} (hd sd : list (string * pyval))
           (parsed : option datetime) : Transaction.t :=
  Transaction.make (default_id hd sd)
                   (py_str (dict_get sd "type" (PStr "")))
                   (default_created parsed)
                   (py_str (dict_get sd "client_id" (PStr "")))
                   (py_str (dict_get sd "payer_id" (PStr "")))
                   (default_amount sd).

(** A transaction passes the schema of [Transaction]: the constructor
    accepts its six fields. *)
Definition passes_schema {R : Runtime} (tx : Transaction.t) : Prop :=
  Transaction.new (PStr (Transaction.id tx)) (PStr (Transaction.type tx))
                  (PDatetime (Transaction.created_at tx))
                  (PStr (Transaction.client_id tx)) (PStr (Transaction.payer_id tx))
                  (PFloat (Transaction.amount tx)) = Ok tx.

(** The day buckets of an aggregation response, read the way
    [stats_daily] reads them. *)
Definition response_day_buckets (body : pyval) : result (list pyval) :=
  ag <- py_get body "aggregations" (PDict []) ;;
  pd <- py_get ag "per_day" (PDict []) ;;
  bl <- py_get pd "buckets" (PList []) ;;
  py_iter (py_or bl (PList [])).

(** What [search_transactions] makes of a response body. *)
Definition search_response {R : Runtime} (body : pyval) (page size : Z)
  : result TransactionSearchResponse.t :=
  total <- response_total body ;;
  hs <- response_hits body ;;
  items <- map_hits hs ;;
  TransactionSearchResponse.new total (PInt page) (PInt size) items.

(** What [stats_daily] makes of a response body. *)
Definition daily_response {R : Runtime} (body : pyval) (client_id : string)
           (start end_ : datetime) : result DailyTotalsResponse.t :=
  per_day <- response_day_buckets body ;;
  bs <- map_buckets per_day ;;
  Ok (DailyTotalsResponse.make client_id start end_ bs).

(** The one call each handler makes to the engine, for parsed bounds
    [start] and [end_]. *)
Definition search_request {R : Runtime} (client_id : string) (start end_ : datetime)
           (page size : Z) : es_request :=
  mk_request ES_INDEX (Some ((page - 1) * size)) size
             (buildFilter client_id start end_)
             (Some (PList [PDict [("created_at", PDict [("order", PStr "desc")])]]))
             None.

Definition daily_aggs : pyval :=
  PDict [("per_day", PDict [
    ("date_histogram", PDict [("field", PStr "created_at");
                              ("fixed_interval", PStr "1d");
                              ("min_doc_count", PInt 0)]);
    ("aggs", PDict [("by_type", PDict [
      ("terms", PDict [("field", PStr "type"); ("size", PInt 20)]);
      ("aggs", PDict [("total_amount",
                       PDict [("sum", PDict [("field", PStr "amount")])])])
    ])])
  ])].

Definition daily_request {R : Runtime} (client_id : string) (start end_ : datetime)
  : es_request :=
  mk_request ES_INDEX None 0 (buildFilter client_id start end_) None (Some daily_aggs).

(** The items a list of loop outcomes leaves: an outcome [None] (a
    skipped hit) leaves nothing. *)
Definition kept {A} (rs : list (option A)) : list A :=
  flat_map (fun r => match r with Some x => [x] | None => [] end) rs.

(** The [totals_by_type] and [total_all] the inner loop of [stats_daily]
    computes for a day bucket. *)
Definition bucket_totals {R : Runtime} (b : pyval)
  : result (list (string * F64.float) * F64.float) :=
  tbs <- by_type_buckets b ;;
  by_type_loop ([], F64.zero) tbs.

(** A hit the loop body of [search_transactions] gets through: a
    dictionary whose stored document is a dictionary (or missing, or
    empty), whose [created_at] the normalizer answers, and whose [_score]
    the item model accepts. *)
Definition well_formed_hit {R : Runtime} (h : pyval) : Prop :=
  exists hd sd parsed s,
    h = PDict hd /\ hit_source hd = PDict sd /\
    _parse_created_at (dict_get sd "created_at" PNone) = Ok parsed /\
    validate_float (py_or (dict_get hd "_score" PNone) (PFloat F64.zero)) = Ok s.

(** A sub-bucket the inner loop of [stats_daily] gets through: a
    dictionary whose ["total_amount"], when present, is a dictionary. *)
Definition well_formed_type_bucket (tb : pyval) : Prop :=
  exists d sd, tb = PDict d /\ dict_get d "total_amount" (PDict []) = PDict sd.

(** *** Sample engine data *)

(** A stored document with a non-numeric amount and no client, the
    malformed document of the specification. *)
Definition malformed_hit : pyval :=
  PDict [("_id", PStr "doc-7"); ("_score", PFloat (F64.of_Z 1));
         ("_source", PDict [("type", PStr "pix"); ("payer_id", PStr "p-1");
                            ("amount", PStr "abc"); ("created_at", PStr "not-a-date")])].

(** A stored document whose amount is the string "inf". *)
Definition infinite_amount_hit : pyval :=
  PDict [("_id", PStr "doc-8"); ("_score", PFloat (F64.of_Z 1));
         ("_source", PDict [("id", PStr "tx-8"); ("type", PStr "pix");
                            ("created_at", PStr "2024-01-01T00:00:00Z");
                            ("client_id", PStr "c-1"); ("payer_id", PStr "p-1");
                            ("amount", PStr "inf")])].

(** A hit that carries no identifier at all. *)
Definition anonymous_hit : pyval :=
  PDict [("_score", PFloat (F64.of_Z 1));
         ("_source", PDict [("type", PStr "pix"); ("amount", PFloat (F64.of_Z 5))])].

Definition plain_hit (i : string) : pyval :=
  PDict [("_id", PStr i); ("_score", PFloat (F64.of_Z 1));
         ("_source", PDict [("id", PStr i); ("type", PStr "pix");
                            ("client_id", PStr "c-1"); ("payer_id", PStr "p-1");
                            ("amount", PFloat (F64.of_Z 5))])].

(** A stored document that is sound but for its [created_at]. *)
Definition dated_hit (created_at : pyval) : pyval :=
  PDict [("_id", PStr "doc-1"); ("_score", PFloat (F64.of_Z 1));
         ("_source", PDict [("id", PStr "tx-1"); ("type", PStr "pix");
                            ("created_at", created_at);
                            ("client_id", PStr "c-1"); ("payer_id", PStr "p-1");
                            ("amount", PFloat (F64.of_Z 5))])].

(** A response body with the given match count and hits. *)
Definition search_body (total : Z) (hits : list pyval) : pyval :=
  PDict [("hits", PDict [("total", PDict [("value", PInt total)]);
                         ("hits", PList hits)])].

(** The last page of 25 matches, for pages of 10. *)
Definition third_page_body : pyval :=
  search_body 25 [plain_hit "tx-21"; plain_hit "tx-22"; plain_hit "tx-23";
                  plain_hit "tx-24"; plain_hit "tx-25"].

(** An engine that answers every call with the same body, and one that
    is down. *)
Definition constant_engine (body : pyval) : engine := fun _ => Ok body.
Definition failing_engine : engine := fun _ => Raise TransportError.

Definition type_bucket (key : string) (value : Z) : pyval :=
  PDict [("key", PStr key); ("doc_count", PInt 1);
         ("total_amount", PDict [("value", PFloat (F64.of_Z value))])].

(** A day bucket that carries the numeric [key] of the day but no
    [key_as_string]. *)
Definition keyed_bucket : pyval :=
  PDict [("key", PInt 1704067200000); ("doc_count", PInt 1);
         ("by_type", PDict [("buckets", PList [type_bucket "pix" 5])])].

(** A day bucket in which the type "pix" comes twice. *)
Definition repeated_type_bucket : pyval :=
  PDict [("key_as_string", PStr "2024-01-01T00:00:00.000Z");
         ("key", PInt 1704067200000); ("doc_count", PInt 2);
         ("by_type", PDict [("buckets", PList [type_bucket "pix" 1;
                                               type_bucket "pix" 2])])].

Definition regular_bucket : pyval :=
  PDict [("key_as_string", PStr "2024-01-01T00:00:00.000Z");
         ("key", PInt 1704067200000); ("doc_count", PInt 2);
         ("by_type", PDict [("buckets", PList [type_bucket "pix" 1;
                                               type_bucket "boleto" 2])])].

Definition aggregation_body (buckets : list pyval) : pyval :=
  PDict [("aggregations", PDict [("per_day", PDict [("buckets", PList buckets)])])].

(** *** Notions for the further properties *)

(** [d.get(k)] on a dictionary with values of any type. *)
Fixpoint lookup {V} (k : string) (d : list (string * V)) : option V :=
  match d with
  | [] => None
  | (k', v) :: d' => if String.eqb k k' then Some v else lookup k d'
  end.

Definition not_dict (v : pyval) : Prop :=
  match v with
  | PDict _ => False
  | _ => True
  end.

(** The [val] the inner loop of [stats_daily] computes for a sub-bucket it
    gets through. *)
Definition tb_value {R : Runtime} (tb : pyval) : F64.float :=
  match tb with
  | PDict d =>
      match dict_get d "total_amount" (PDict []) with
      | PDict sd =>
          try_except
            (py_float (py_or (dict_get sd "value" (PFloat F64.zero)) (PFloat F64.zero)))
            F64.zero
      | _ => F64.zero
      end
  | _ => F64.zero
  end.

(** The bounds [search_transactions] declares for its paging parameters:
    [page: Query(1, ge=1)], [size: Query(10, ge=1, le=100)]. *)
Definition declared_paging (page size : Z) : Prop :=
  1 <= page /\ 1 <= size <= 100.

(** A result that is not an [HTTPException]. *)
Definition not_http {A} (r : result A) : Prop :=
  match r with
  | Raise (HTTPException _) => False
  | _ => True
  end.

(** The real libraries in a process with the given environment. *)
Definition Reference_in (env : string -> option string) : Runtime := {|
  isoparse := Dateutil.isoparse;
  float_of_str := Builtins.float_of_str;
  py_repr := Repr.repr;
  coerce := pydantic_coerce;
  getenv := env
|}.

Definition sample_env (k : string) : option string :=
  if String.eqb k "ELASTIC_USER" then Some "elastic"
  else if String.eqb k "ELASTIC_PASS" then Some "changeme"
  else if String.eqb k "ELASTIC_URL" then Some "https://es.internal:9200"
  else None.

(* ================================================================== *)
(** ** Properties *)

Lemma bind_Ok_inv {A B} (c : result A) (k : A -> result B) (b : B) :
  bind c k = Ok b -> exists a, c = Ok a /\ k a = Ok b.
Proof.
  destruct c as [a | e]; simpl; intros H.
  - exists a; split; [reflexivity | exact H].
  - discriminate H.
Qed.

Section Normalizer.

Context {R : Runtime}.

Lemma parse_created_at_none (v : pyval) :
  unparseable v -> _parse_created_at v = Ok None.
Proof.
  intros [-> | [(s & -> & Hs) | Ho]].
  - reflexivity.
  - simpl. now rewrite Hs.
  - destruct v; simpl in Ho; try contradiction; reflexivity.
Qed.

(** C8.  The normalizer answers "unparseable" ([None]) for [None], for
    every string [isoparse] rejects, and for every value that is neither
    a datetime, a number nor a string, that is a list or a dictionary. *)
Theorem parse_created_at_unparseable (v : pyval) :
  v = PNone \/ (exists s, v = PStr s /\ isoparse s = None) \/ other_type v ->
  _parse_created_at v = Ok None.
Proof.
  intros [Hnone | [(s & Hstr & Hrej) | Hother]].
  - subst v. reflexivity.
  - subst v. unfold _parse_created_at. rewrite Hrej. reflexivity.
  - destruct v as [| b | n | f | s | l | d | dt]; simpl in Hother;
      try contradiction; reflexivity.
Qed.

(** The normalizer returns a datetime unchanged. *)
Lemma parse_created_at_datetime (d : datetime) :
  _parse_created_at (PDatetime d) = Ok (Some d).
Proof. reflexivity. Qed.

(** A boolean is taken as the integer 0 or 1, a number of seconds. *)
Lemma parse_created_at_bool (b : bool) :
  _parse_created_at (PBool b) =
    Ok (Some (mk_datetime 1970 1 1 0 0 (if b then 1 else 0) 0 None)).
Proof. destruct b; reflexivity. Qed.

(** What the numeric branch does with an integer on either side of the
    millisecond threshold. *)
Lemma parse_created_at_seconds (n : Z) :
  n <= 10000000000 ->
  _parse_created_at (PInt n) = (d <- utcfromtimestamp (PInt n) ;; Ok (Some d)).
Proof.
  intros Hn. unfold _parse_created_at, above_ms_threshold.
  destruct (Z.ltb_spec 10000000000 n); [lia | reflexivity].
Qed.

Lemma parse_created_at_millis (n : Z) :
  10000000000 < n ->
  _parse_created_at (PInt n) =
    (f <- float_of_int n ;;
     d <- utcfromtimestamp (PFloat (F64.div f (F64.of_Z 1000))) ;;
     Ok (Some d)).
Proof.
  intros Hn. unfold _parse_created_at, above_ms_threshold, div_1000.
  destruct (Z.ltb_spec 10000000000 n); [| lia].
  simpl. destruct (float_of_int n); reflexivity.
Qed.

End Normalizer.

Section NormalizerExamples.

Context {R : Runtime}.

(** C2 (amended).  The ISO string "2024-01-01T00:00:00Z", the epoch seconds
    1704067200 and the epoch milliseconds 1704067200000 are all mapped to
    a datetime, and the three denote one and the same UTC instant
    (1704067200 seconds after the epoch) once a naive datetime is read as
    UTC; the two numeric inputs give the very same naive value, and the
    string gives an aware one.  [isoparse] is dateutil's: all that is used
    of it is that it reads the string as midnight, 1 January 2024, UTC. *)
Theorem normalize_2024_identical_instant :
  isoparse "2024-01-01T00:00:00Z" = Some (mk_datetime 2024 1 1 0 0 0 0 (Some 0)) ->
  exists a b c,
    _parse_created_at (PStr "2024-01-01T00:00:00Z") = Ok (Some a) /\
    _parse_created_at (PInt 1704067200) = Ok (Some b) /\
    _parse_created_at (PInt 1704067200000) = Ok (Some c) /\
    Datetime.utc_instant a = 1704067200 * 1000000 /\
    Datetime.utc_instant b = Datetime.utc_instant a /\
    Datetime.utc_instant c = Datetime.utc_instant a /\
    b = c /\ tzinfo b = None /\ tzinfo a = Some 0.
Proof.
  intros Hiso.
  exists (mk_datetime 2024 1 1 0 0 0 0 (Some 0)),
         (mk_datetime 2024 1 1 0 0 0 0 None),
         (mk_datetime 2024 1 1 0 0 0 0 None).
  split; [simpl; now rewrite Hiso |].
  repeat split; vm_compute; reflexivity.
Qed.

(** C3 (the code departs from it).  The numeric branch of the normalizer
    has no [try]: a number whose date falls outside the years 1..9999
    makes [utcfromtimestamp] raise, and the exception leaves
    [_parse_created_at] and then the loop over the hits. *)
Theorem parse_created_at_raises_on_extreme_numbers :
  _parse_created_at (PInt (10 ^ 18)) = Raise ValueError /\
  _parse_created_at (PInt (- 10 ^ 11)) = Raise ValueError /\
  _parse_created_at (PInt (10 ^ 400)) = Raise OverflowError /\
  map_hit (PDict [("_id", PStr "doc-1");
                  ("_source", PDict [("created_at", PInt (10 ^ 18))])])
    = Raise ValueError.
Proof. repeat split; vm_compute; reflexivity. Qed.

End NormalizerExamples.

(** C2 (amended), on the real [isoparse]. *)
Lemma normalize_2024_identical_instant_reference :
  exists a b c,
    _parse_created_at (R := Reference) (PStr "2024-01-01T00:00:00Z") = Ok (Some a) /\
    _parse_created_at (R := Reference) (PInt 1704067200) = Ok (Some b) /\
    _parse_created_at (R := Reference) (PInt 1704067200000) = Ok (Some c) /\
    Datetime.utc_instant a = 1704067200 * 1000000 /\
    Datetime.utc_instant b = Datetime.utc_instant a /\
    Datetime.utc_instant c = Datetime.utc_instant a /\
    b = c /\ tzinfo b = None /\ tzinfo a = Some 0.
Proof.
  apply (@normalize_2024_identical_instant Reference).
  vm_compute; reflexivity.
Defined.

(** C2 as first stated fails: the normalizer does not return one and the
    same value for the string and for the numbers.  The string gives an
    aware datetime (UTC), the numbers a naive one, and Python's [==] never
    holds between the two kinds. *)
Lemma iso_and_epoch_results_differ :
  exists a b,
    _parse_created_at (R := Reference) (PStr "2024-01-01T00:00:00Z") = Ok (Some a) /\
    _parse_created_at (R := Reference) (PInt 1704067200) = Ok (Some b) /\
    a <> b /\ Datetime.eqb a b = false /\
    isoformat a = "2024-01-01T00:00:00+00:00" /\ isoformat b = "2024-01-01T00:00:00".
Proof.
  exists (mk_datetime 2024 1 1 0 0 0 0 (Some 0)), (mk_datetime 2024 1 1 0 0 0 0 None).
  split; [vm_compute; reflexivity |].
  split; [vm_compute; reflexivity |].
  split; [discriminate |].
  split; [vm_compute; reflexivity |].
  split; vm_compute; reflexivity.
Qed.

(** C3, seen from a caller: one stored document dated 10^18 makes the
    whole search request fail with status 500. *)
Remark extreme_created_at_fails_request :
  run (search_transactions (R := Reference)
         (constant_engine
            (search_body 2 [plain_hit "tx-1";
                            PDict [("_id", PStr "doc-1");
                                   ("_source", PDict [("created_at", PInt (10 ^ 18))])]]))
         "c-1" "2024-01-01" "2024-01-31" 1 10)
  = ([search_request (R := Reference) "c-1" (mk_datetime 2024 1 1 0 0 0 0 None)
                     (mk_datetime 2024 1 31 0 0 0 0 None) 1 10],
     Raise ValueError) /\
  http_status (A := TransactionSearchResponse.t) (Raise ValueError) = 500.
Proof. split; vm_compute; reflexivity. Qed.

(** C8 on the three inputs the specification lists. *)
Lemma parse_created_at_unparseable_reference :
  _parse_created_at (R := Reference) PNone = Ok None /\
  _parse_created_at (R := Reference) (PStr "not-a-date") = Ok None /\
  _parse_created_at (R := Reference) (PList []) = Ok None.
Proof.
  split; [| split].
  - apply (@parse_created_at_unparseable Reference). left; reflexivity.
  - apply (@parse_created_at_unparseable Reference). right; left.
    exists "not-a-date". split; [reflexivity | vm_compute; reflexivity].
  - apply (@parse_created_at_unparseable Reference). right; right. exact I.
Defined.

Section ResultMapper.

Context {R : Runtime}.

(** Every transaction built from typed fields passes the schema: the
    schema constrains types only, neither the length of [id] nor the
    magnitude of [amount]. *)
Lemma passes_schema_any (tx : Transaction.t) : passes_schema tx.
Proof. destruct tx; reflexivity. Qed.

(** The loop body on a hit that is a dictionary with a dictionary (or
    nothing) as stored document. *)
Lemma map_hit_dict (hd sd : list (string * pyval)) :
  hit_source hd = PDict sd ->
  map_hit (PDict hd) =
    (parsed <- _parse_created_at (dict_get sd "created_at" PNone) ;;
     s <- validate_float (py_or (dict_get hd "_score" PNone) (PFloat F64.zero)) ;;
     Ok (Some (TransactionSearchItem.make (default_id hd sd) s
                 (mapped_transaction hd sd parsed)))).
Proof.
  intros Hsrc. unfold map_hit, hit_source in *. simpl. rewrite Hsrc. simpl.
  assert (Hid : (if truthy (dict_get sd "id" PNone)
                 then Ok (dict_get sd "id" PNone)
                 else Ok (dict_get hd "_id" (PStr "")))
                = Ok (py_or (dict_get sd "id" PNone) (dict_get hd "_id" (PStr "")))).
  { unfold py_or. now destruct (truthy _). }
  rewrite Hid. simpl.
  destruct (_parse_created_at (dict_get sd "created_at" PNone)) as [[d |] | e];
    simpl; try reflexivity;
    unfold TransactionSearchItem.new; simpl;
    destruct (validate_float _); reflexivity.
Qed.

(** A hit on which the loop body does not raise yields an item: the
    [continue] of the source is never taken, because the defaulting step
    hands [Transaction] values that already have the declared types. *)
Lemma map_hit_never_skips (h : pyval) : map_hit h <> Ok None.
Proof.
  destruct h as [| | | | | | hd |]; try discriminate.
  destruct (hit_source hd) as [| | | | | | sd |] eqn:Hsrc;
    try (unfold map_hit; simpl; unfold hit_source in Hsrc; rewrite Hsrc;
         simpl; discriminate).
  rewrite (map_hit_dict hd sd Hsrc).
  destruct (_parse_created_at _) as [p | e]; simpl; [| discriminate].
  destruct (validate_float _); simpl; discriminate.
Qed.

(** An item comes from a hit that is a dictionary, and carries the
    defaulted fields of that hit. *)
Lemma map_hit_Some_inv (h : pyval) (item : TransactionSearchItem.t) :
  map_hit h = Ok (Some item) ->
  exists hd sd parsed,
    h = PDict hd /\ hit_source hd = PDict sd /\
    _parse_created_at (dict_get sd "created_at" PNone) = Ok parsed /\
    TransactionSearchItem.source item = mapped_transaction hd sd parsed.
Proof.
  destruct h as [| | | | | | hd |]; try discriminate.
  destruct (hit_source hd) as [| | | | | | sd |] eqn:Hsrc;
    try (unfold map_hit; simpl; unfold hit_source in Hsrc; rewrite Hsrc;
         simpl; discriminate).
  rewrite (map_hit_dict hd sd Hsrc). intros H.
  apply bind_Ok_inv in H as (parsed & Hp & H).
  apply bind_Ok_inv in H as (s & _ & H).
  injection H as <-.
  exists hd, sd, parsed. repeat split; [exact Hsrc | exact Hp].
Qed.

(** X26.  The defaults of the Result Mapper, where they apply.  For a
    hit whose stored document is a dictionary, whose [created_at] the
    normalizer answers ([parsed] is its answer) and whose [_score] the
    item model accepts, the mapper produces exactly the item made of the
    defaulted fields, and in its transaction: a missing [id] is replaced by
    the engine's [_id]; a missing [type], [client_id] or [payer_id] is the
    empty string; an [amount] that [float] refuses is 0.0; a [created_at]
    for which the normalizer returns [None] is the Unix epoch. *)
Theorem map_hit_defaults
        (hd sd : list (string * pyval)) (parsed : option datetime) (s : F64.float) :
  hit_source hd = PDict sd ->
  _parse_created_at (dict_get sd "created_at" PNone) = Ok parsed ->
  validate_float (py_or (dict_get hd "_score" PNone) (PFloat F64.zero)) = Ok s ->
  exists item,
    map_hit (PDict hd) = Ok (Some item) /\
    item = TransactionSearchItem.make (default_id hd sd) s
                                      (mapped_transaction hd sd parsed) /\
    let tx := TransactionSearchItem.source item in
    (assoc "id" sd = None ->
       Transaction.id tx = py_str (dict_get hd "_id" (PStr ""))) /\
    (assoc "type" sd = None -> Transaction.type tx = "") /\
    (assoc "client_id" sd = None -> Transaction.client_id tx = "") /\
    (assoc "payer_id" sd = None -> Transaction.payer_id tx = "") /\
    ((exists e, py_float (dict_get sd "amount" (PFloat F64.zero)) = Raise e) ->
       Transaction.amount tx = F64.zero) /\
    (parsed = None -> Transaction.created_at tx = mk_datetime 1970 1 1 0 0 0 0 None).
Proof.
  intros Hsrc Hcr Hsc.
  eexists. split; [| split; [reflexivity |]].
  - rewrite (map_hit_dict hd sd Hsrc), Hcr. simpl. rewrite Hsc. simpl. reflexivity.
  - simpl. unfold default_id, default_amount, dict_get.
    repeat split.
    + intros ->. reflexivity.
    + intros ->. reflexivity.
    + intros ->. reflexivity.
    + intros ->. reflexivity.
    + intros (e & He). unfold dict_get in He. now rewrite He.
    + intros ->. reflexivity.
Qed.

(** C7 (the code departs from it).  The epoch stands in only for an
    answer of [None].  When the normalizer raises on the stored
    [created_at], the loop body raises the same exception: nothing is
    defaulted and no item is made.  So it is for a document, sound in
    every other field, dated 10^18, -10^11 or one second before the
    year 1. *)
Theorem map_hit_raises_where_epoch_is_due :
  (forall hd sd e,
      hit_source hd = PDict sd ->
      _parse_created_at (dict_get sd "created_at" PNone) = Raise e ->
      map_hit (PDict hd) = Raise e) /\
  map_hit (dated_hit (PInt (10 ^ 18))) = Raise ValueError /\
  map_hit (dated_hit (PInt (- 10 ^ 11))) = Raise ValueError /\
  map_hit (dated_hit (PInt (- 62135596801))) = Raise ValueError /\
  (forall v item,
      In v [PInt (10 ^ 18); PInt (- 10 ^ 11); PInt (- 62135596801)] ->
      map_hit (dated_hit v) <> Ok (Some item)).
Proof.
  assert (H1 : map_hit (dated_hit (PInt (10 ^ 18))) = Raise ValueError)
    by (vm_compute; reflexivity).
  assert (H2 : map_hit (dated_hit (PInt (- 10 ^ 11))) = Raise ValueError)
    by (vm_compute; reflexivity).
  assert (H3 : map_hit (dated_hit (PInt (- 62135596801))) = Raise ValueError)
    by (vm_compute; reflexivity).
  split; [| split; [exact H1 | split; [exact H2 | split; [exact H3 |]]]].
  - intros hd sd e Hsrc He.
    rewrite (map_hit_dict hd sd Hsrc), He. reflexivity.
  - intros v item [<- | [<- | [<- | []]]].
    + rewrite H1. discriminate.
    + rewrite H2. discriminate.
    + rewrite H3. discriminate.
Qed.

End ResultMapper.

Section Handlers.

Context {R : Runtime}.

Variable es : engine.
Variables client_id startDate endDate : string.

Lemma search_bad_start (page size : Z) :
  isoparse startDate = None ->
  run (search_transactions es client_id startDate endDate page size)
  = ([], Raise (HTTPException 400)).
Proof.
  intros H. unfold run, search_transactions, io_bind, lift, parse_iso.
  now rewrite H.
Qed.

Lemma search_bad_end (page size : Z) :
  isoparse endDate = None ->
  run (search_transactions es client_id startDate endDate page size)
  = ([], Raise (HTTPException 400)).
Proof.
  intros H. unfold run, search_transactions, io_bind, lift, parse_iso.
  rewrite H. now destruct (isoparse startDate).
Qed.

Lemma stats_bad_start :
  isoparse startDate = None ->
  run (stats_daily es client_id startDate endDate) = ([], Raise (HTTPException 400)).
Proof.
  intros H. unfold run, stats_daily, io_bind, lift, parse_iso.
  now rewrite H.
Qed.

Lemma stats_bad_end :
  isoparse endDate = None ->
  run (stats_daily es client_id startDate endDate) = ([], Raise (HTTPException 400)).
Proof.
  intros H. unfold run, stats_daily, io_bind, lift, parse_iso.
  rewrite H. now destruct (isoparse startDate).
Qed.

Lemma search_response_eq (body : pyval) (page size : Z) :
  (hits <- py_get body "hits" (PDict []) ;;
   tot <- py_get hits "total" (PDict []) ;;
   total <- py_get tot "value" (PInt 0) ;;
   hl <- py_get hits "hits" (PList []) ;;
   hs <- py_iter hl ;;
   items <- map_hits hs ;;
   TransactionSearchResponse.new total (PInt page) (PInt size) items)
  = search_response body page size.
Proof.
  unfold search_response, response_total, response_hits.
  destruct body as [| | | | | | bd |]; try reflexivity. simpl.
  destruct (dict_get bd "hits" (PDict [])) as [| | | | | | hd |]; reflexivity.
Qed.

(** With both dates accepted, each handler makes exactly one engine
    call, and answers 500 or what it makes of the body. *)
Lemma search_parsed (page size : Z) (start end_ : datetime) :
  isoparse startDate = Some start ->
  isoparse endDate = Some end_ ->
  run (search_transactions es client_id startDate endDate page size)
  = ([search_request client_id start end_ page size],
     match es (search_request client_id start end_ page size) with
     | Ok body => search_response body page size
     | Raise _ => Raise (HTTPException 500)
     end).
Proof.
  intros Hs He.
  unfold run, search_transactions, io_bind, lift, parse_iso, reraise_http, es_search.
  rewrite Hs, He. simpl.
  fold (buildFilter client_id start end_).
  fold (search_request client_id start end_ page size).
  destruct (es (search_request client_id start end_ page size)) as [body | e].
  - rewrite search_response_eq. reflexivity.
  - reflexivity.
Qed.

Lemma stats_parsed (start end_ : datetime) :
  isoparse startDate = Some start ->
  isoparse endDate = Some end_ ->
  run (stats_daily es client_id startDate endDate)
  = ([daily_request client_id start end_],
     match es (daily_request client_id start end_) with
     | Ok body => daily_response body client_id start end_
     | Raise _ => Raise (HTTPException 500)
     end).
Proof.
  intros Hs He.
  unfold run, stats_daily, io_bind, lift, parse_iso, reraise_http, es_search.
  rewrite Hs, He. simpl.
  fold (buildFilter client_id start end_). fold daily_aggs.
  fold (daily_request client_id start end_).
  destruct (es (daily_request client_id start end_)) as [body | e].
  - unfold daily_response, response_day_buckets.
    destruct (py_get body "aggregations" (PDict [])) as [ag |]; [| reflexivity].
    simpl. destruct (py_get ag "per_day" (PDict [])) as [pd |]; [| reflexivity].
    simpl. destruct (py_get pd "buckets" (PList [])) as [bl |]; [| reflexivity].
    simpl. destruct (py_iter _) as [per_day |]; [| reflexivity].
    simpl. destruct (map_buckets per_day); reflexivity.
  - reflexivity.
Qed.

End Handlers.

Section SearchResponse.

Context {R : Runtime}.

Lemma map_hits_Forall2 (hs : list pyval) :
  forall items, map_hits hs = Ok items ->
    Forall2 (fun h item => map_hit h = Ok (Some item)) hs items.
Proof.
  induction hs as [| h hs IH]; simpl; intros items H.
  - injection H as <-. constructor.
  - apply bind_Ok_inv in H as (r & Hh & H).
    apply bind_Ok_inv in H as (rest & Hrest & H).
    injection H as <-.
    destruct r as [item |]; [| now destruct (map_hit_never_skips h)].
    constructor; [exact Hh | now apply IH].
Qed.

Lemma map_hits_kept (hs : list pyval) :
  forall items, map_hits hs = Ok items ->
    exists rs, Forall2 (fun h r => map_hit h = Ok r) hs rs /\ items = kept rs.
Proof.
  induction hs as [| h hs IH]; simpl; intros items H.
  - injection H as <-. exists []. split; [constructor | reflexivity].
  - apply bind_Ok_inv in H as (r & Hh & H).
    apply bind_Ok_inv in H as (rest & Hrest & H).
    injection H as <-.
    destruct (IH rest Hrest) as (rs & Hrs & ->).
    exists (r :: rs). split; [now constructor |].
    destruct r; reflexivity.
Qed.

Lemma kept_length {A} (rs : list (option A)) : (length (kept rs) <= length rs)%nat.
Proof.
  induction rs as [| [x |] rs IH]; simpl; lia.
Qed.

Lemma search_response_inv (body : pyval) (page size : Z)
      (resp : TransactionSearchResponse.t) :
  search_response body page size = Ok resp ->
  exists tv hs,
    response_total body = Ok tv /\
    response_hits body = Ok hs /\
    validate_int tv = Ok (TransactionSearchResponse.total resp) /\
    map_hits hs = Ok (TransactionSearchResponse.items resp) /\
    TransactionSearchResponse.page resp = page /\
    TransactionSearchResponse.size resp = size.
Proof.
  unfold search_response. intros H.
  apply bind_Ok_inv in H as (tv & Htv & H).
  apply bind_Ok_inv in H as (hs & Hhs & H).
  apply bind_Ok_inv in H as (items & Hitems & H).
  unfold TransactionSearchResponse.new in H.
  apply bind_Ok_inv in H as (n & Hn & H). simpl in H.
  injection H as <-. simpl.
  exists tv, hs. repeat split; assumption.
Qed.

Lemma search_Ok_inv (es : engine) (client_id startDate endDate : string)
      (page size : Z) tr (resp : TransactionSearchResponse.t) :
  run (search_transactions es client_id startDate endDate page size) = (tr, Ok resp) ->
  exists start end_ body,
    isoparse startDate = Some start /\
    isoparse endDate = Some end_ /\
    tr = [search_request client_id start end_ page size] /\
    es (search_request client_id start end_ page size) = Ok body /\
    search_response body page size = Ok resp.
Proof.
  intros H.
  destruct (isoparse startDate) as [start |] eqn:Hs;
    [| rewrite (search_bad_start _ _ _ _ _ _ Hs) in H; discriminate].
  destruct (isoparse endDate) as [end_ |] eqn:He;
    [| rewrite (search_bad_end _ _ _ _ _ _ He) in H; discriminate].
  rewrite (search_parsed _ _ _ _ _ _ _ _ Hs He) in H.
  injection H as <- H.
  destruct (es _) as [body | e] eqn:Hes; [| discriminate].
  exists start, end_, body. repeat split; assumption.
Qed.

Lemma map_hit_well_formed (h : pyval) :
  well_formed_hit h -> exists item, map_hit h = Ok (Some item).
Proof.
  intros (hd & sd & parsed & sc & -> & Hsrc & Hp & Hsc).
  rewrite (map_hit_dict hd sd Hsrc), Hp. simpl. rewrite Hsc. simpl.
  eexists. reflexivity.
Qed.

Lemma map_hits_well_formed (hs : list pyval) :
  Forall well_formed_hit hs ->
  exists items, map_hits hs = Ok items /\ length items = length hs.
Proof.
  induction 1 as [| h hs Hh _ IH]; simpl.
  - exists []. split; reflexivity.
  - destruct (map_hit_well_formed h Hh) as (item & ->).
    destruct IH as (items & -> & Hlen). simpl.
    exists (item :: items). split; [reflexivity | simpl; now rewrite Hlen].
Qed.

(** The search handler does return, with one item per hit, when the dates
    parse, the engine answers, the body carries an integer match count and
    every hit is well formed. *)
Lemma search_returns (es : engine) (client_id startDate endDate : string)
      (page size : Z) (start end_ : datetime) (body tv : pyval) (n : Z)
      (hs : list pyval) :
  isoparse startDate = Some start ->
  isoparse endDate = Some end_ ->
  es (search_request client_id start end_ page size) = Ok body ->
  response_total body = Ok tv ->
  validate_int tv = Ok n ->
  response_hits body = Ok hs ->
  Forall well_formed_hit hs ->
  exists items,
    run (search_transactions es client_id startDate endDate page size)
    = ([search_request client_id start end_ page size],
       Ok (TransactionSearchResponse.make n page size items)) /\
    length items = length hs.
Proof.
  intros Hs He Hes Htv Hn Hhs Hwf.
  destruct (map_hits_well_formed hs Hwf) as (items & Hitems & Hlen).
  exists items. split; [| exact Hlen].
  rewrite (search_parsed es _ _ _ page size _ _ Hs He), Hes.
  unfold search_response. rewrite Htv, Hhs. simpl. rewrite Hitems. simpl.
  unfold TransactionSearchResponse.new. rewrite Hn. reflexivity.
Qed.

(** C5.  A request whose [startDate] or [endDate] [isoparse] rejects is
    answered with [HTTPException 400] by both handlers, with no call to the
    engine on the trace; with both dates accepted each handler makes one
    engine call, and when a call on the trace raised, the answer is
    [HTTPException 500]. *)
Theorem bad_dates_400_engine_failure_500
        (es : engine) (client_id startDate endDate : string) (page size : Z) :
  (isoparse startDate = None \/ isoparse endDate = None ->
     run (search_transactions es client_id startDate endDate page size)
       = ([], Raise (HTTPException 400)) /\
     run (stats_daily es client_id startDate endDate)
       = ([], Raise (HTTPException 400)))
  /\
  (isoparse startDate <> None -> isoparse endDate <> None ->
     length (fst (run (search_transactions es client_id startDate endDate page size)))
       = 1%nat /\
     length (fst (run (stats_daily es client_id startDate endDate))) = 1%nat)
  /\
  (forall rq e, es rq = Raise e ->
     (In rq (fst (run (search_transactions es client_id startDate endDate page size))) ->
        snd (run (search_transactions es client_id startDate endDate page size))
          = Raise (HTTPException 500)) /\
     (In rq (fst (run (stats_daily es client_id startDate endDate))) ->
        snd (run (stats_daily es client_id startDate endDate))
          = Raise (HTTPException 500))).
Proof.
  split; [| split].
  - intros [H | H].
    + split; [now apply search_bad_start | now apply stats_bad_start].
    + split; [now apply search_bad_end | now apply stats_bad_end].
  - intros Hs He.
    destruct (isoparse startDate) as [start |] eqn:Es; [| contradiction].
    destruct (isoparse endDate) as [end_ |] eqn:Ee; [| contradiction].
    rewrite (search_parsed es _ _ _ page size _ _ Es Ee).
    rewrite (stats_parsed es _ _ _ _ _ Es Ee). split; reflexivity.
  - intros rq e Hrq.
    destruct (isoparse startDate) as [start |] eqn:Es.
    2: { rewrite (search_bad_start es _ _ _ page size Es), (stats_bad_start es _ _ _ Es).
         split; intros []. }
    destruct (isoparse endDate) as [end_ |] eqn:Ee.
    2: { rewrite (search_bad_end es _ _ _ page size Ee), (stats_bad_end es _ _ _ Ee).
         split; intros []. }
    rewrite (search_parsed es _ _ _ page size _ _ Es Ee).
    rewrite (stats_parsed es _ _ _ _ _ Es Ee). simpl.
    split; intros [<- | []]; now rewrite Hrq.
Qed.

(** C9.  For the same client and the same bounds, the query the search
    handler sends and the query the aggregation handler sends are one and
    the same filter, [buildFilter]: the conjunction of an exact match on
    [client_id] and an inclusive ([gte], [lte]) range on [created_at] whose
    bounds are the [isoformat] of the parsed dates. *)
Theorem same_filter_in_both_handlers
        (es1 es2 : engine) (client_id startDate endDate : string) (page size : Z)
        (start end_ : datetime) :
  isoparse startDate = Some start ->
  isoparse endDate = Some end_ ->
  map rq_query (fst (run (search_transactions es1 client_id startDate endDate page size)))
    = [buildFilter client_id start end_] /\
  map rq_query (fst (run (stats_daily es2 client_id startDate endDate)))
    = [buildFilter client_id start end_].
Proof.
  intros Hs He.
  rewrite (search_parsed es1 _ _ _ page size _ _ Hs He).
  rewrite (stats_parsed es2 _ _ _ _ _ Hs He).
  split; reflexivity.
Qed.

(** C1 (amended).  Whenever the search handler returns, its items are the
    engine's hits mapped one for one, in order; the transaction in each
    item is made of the hit's defaulted fields and passes the
    [Transaction] schema.  That schema checks the types of the six fields
    and nothing more, so an item may carry an empty [id] or an infinite or
    NaN [amount]. *)
Theorem search_items_pass_schema
        (es : engine) (client_id startDate endDate : string) (page size : Z)
        tr (resp : TransactionSearchResponse.t) :
  run (search_transactions es client_id startDate endDate page size) = (tr, Ok resp) ->
  exists rq body hs,
    tr = [rq] /\ es rq = Ok body /\ response_hits body = Ok hs /\
    Forall2 (fun h item =>
               map_hit h = Ok (Some item) /\
               passes_schema (TransactionSearchItem.source item) /\
               exists hd sd parsed,
                 h = PDict hd /\ hit_source hd = PDict sd /\
                 _parse_created_at (dict_get sd "created_at" PNone) = Ok parsed /\
                 TransactionSearchItem.source item = mapped_transaction hd sd parsed)
            hs (TransactionSearchResponse.items resp).
Proof.
  intros H.
  apply search_Ok_inv in H as (start & end_ & body & _ & _ & -> & Hes & H).
  apply search_response_inv in H as (tv & hs & _ & Hhs & _ & Hitems & _).
  eexists _, body, hs. repeat split; [exact Hes | exact Hhs |].
  eapply Forall2_impl; [| exact (map_hits_Forall2 _ _ Hitems)].
  intros h item Hm.
  split; [exact Hm |]. split; [apply passes_schema_any |].
  now apply map_hit_Some_inv.
Qed.

End SearchResponse.

Section DailyTotals.

Context {R : Runtime}.

Lemma dict_set_fresh {V} (k : string) (v : V) (d : list (string * V)) :
  ~ In k (map fst d) -> dict_set k v d = app d [(k, v)].
Proof.
  induction d as [| [k' v'] d IH]; simpl; intros Hk.
  - reflexivity.
  - destruct (String.eqb_spec k k') as [-> | Hne].
    + exfalso. apply Hk. now left.
    + rewrite IH; [reflexivity |]. intros Hin. apply Hk. now right.
Qed.

Lemma sum_values_snoc (d : list (string * F64.float)) (k : string) (v : F64.float) :
  sum_values (app d [(k, v)]) = F64.add (sum_values d) v.
Proof.
  unfold sum_values. rewrite map_app, fold_left_app. reflexivity.
Qed.

Lemma by_type_step_inv acc tb acc' :
  by_type_step acc tb = Ok acc' ->
  exists val, acc' = (dict_set (tb_key tb) val (fst acc), F64.add (snd acc) val).
Proof.
  unfold by_type_step. intros H.
  destruct tb as [| | | | | | d |]; try discriminate. simpl in H.
  apply bind_Ok_inv in H as (v & _ & H).
  injection H as <-. eexists. reflexivity.
Qed.

(** The invariant of the inner loop when no key comes twice: the running
    total is the sum of the dictionary's values, and the dictionary holds
    one entry per sub-bucket seen, in order. *)
Lemma by_type_loop_distinct (tbs : list pyval) :
  forall acc acc',
    by_type_loop acc tbs = Ok acc' ->
    NoDup (app (map fst (fst acc)) (map tb_key tbs)) ->
    snd acc = sum_values (fst acc) ->
    snd acc' = sum_values (fst acc') /\
    map fst (fst acc') = app (map fst (fst acc)) (map tb_key tbs).
Proof.
  induction tbs as [| tb tbs IH]; simpl; intros acc acc' H Hnd Hsum.
  - injection H as <-. split; [exact Hsum | now rewrite app_nil_r].
  - apply bind_Ok_inv in H as (acc1 & Hstep & H).
    apply by_type_step_inv in Hstep as (val & ->).
    assert (Hfresh : ~ In (tb_key tb) (map fst (fst acc))).
    { apply NoDup_remove_2 in Hnd. intros Hin. apply Hnd.
      apply in_or_app. now left. }
    rewrite (dict_set_fresh _ val _ Hfresh) in H.
    apply IH in H; simpl in *.
    + destruct H as [H1 H2]. split; [exact H1 |].
      rewrite H2, map_app, <- app_assoc. reflexivity.
    + rewrite map_app, <- app_assoc. exact Hnd.
    + rewrite sum_values_snoc, Hsum. reflexivity.
Qed.

Lemma map_bucket_dict (bd : list (string * pyval)) :
  map_bucket (PDict bd) =
    (parsed <- _parse_created_at (dict_get bd "key_as_string" PNone) ;;
     acc <- bucket_totals (PDict bd) ;;
     Ok (DailyTotalsBucket.make (default_created parsed) (fst acc) (snd acc))).
Proof.
  unfold map_bucket, bucket_totals, by_type_buckets. simpl.
  destruct (_parse_created_at (dict_get bd "key_as_string" PNone)) as [[d |] | e];
    simpl; try reflexivity;
    destruct (py_get (dict_get bd "by_type" (PDict [])) "buckets" (PList []));
    simpl; try reflexivity;
    destruct (py_iter _); simpl; try reflexivity;
    destruct (by_type_loop _ _); reflexivity.
Qed.

Lemma map_bucket_inv (b : pyval) (x : DailyTotalsBucket.t) :
  map_bucket b = Ok x ->
  exists acc, bucket_totals b = Ok acc /\
              DailyTotalsBucket.totalsByType x = fst acc /\
              DailyTotalsBucket.totalAllTypes x = snd acc.
Proof.
  destruct b as [| | | | | | bd |]; try discriminate.
  rewrite map_bucket_dict. intros H.
  apply bind_Ok_inv in H as (parsed & _ & H).
  apply bind_Ok_inv in H as (acc & Hacc & H).
  injection H as <-. exists acc. repeat split. exact Hacc.
Qed.

Lemma map_buckets_Forall2 (bs : list pyval) :
  forall xs, map_buckets bs = Ok xs -> Forall2 (fun b x => map_bucket b = Ok x) bs xs.
Proof.
  induction bs as [| b bs IH]; simpl; intros xs H.
  - injection H as <-. constructor.
  - apply bind_Ok_inv in H as (x & Hx & H).
    apply bind_Ok_inv in H as (rest & Hrest & H).
    injection H as <-. constructor; [exact Hx | now apply IH].
Qed.

Lemma stats_Ok_inv (es : engine) (client_id startDate endDate : string)
      tr (resp : DailyTotalsResponse.t) :
  run (stats_daily es client_id startDate endDate) = (tr, Ok resp) ->
  exists start end_ body per_day,
    isoparse startDate = Some start /\
    isoparse endDate = Some end_ /\
    tr = [daily_request client_id start end_] /\
    es (daily_request client_id start end_) = Ok body /\
    response_day_buckets body = Ok per_day /\
    Forall2 (fun b x => map_bucket b = Ok x) per_day (DailyTotalsResponse.buckets resp).
Proof.
  intros H.
  destruct (isoparse startDate) as [start |] eqn:Hs;
    [| rewrite (stats_bad_start _ _ _ _ Hs) in H; discriminate].
  destruct (isoparse endDate) as [end_ |] eqn:He;
    [| rewrite (stats_bad_end _ _ _ _ He) in H; discriminate].
  rewrite (stats_parsed _ _ _ _ _ _ Hs He) in H.
  injection H as <- H.
  destruct (es _) as [body | e] eqn:Hes; [| discriminate].
  unfold daily_response in H.
  apply bind_Ok_inv in H as (per_day & Hpd & H).
  apply bind_Ok_inv in H as (bs & Hbs & H).
  injection H as <-. simpl.
  exists start, end_, body, per_day. repeat split; try assumption.
  now apply map_buckets_Forall2.
Qed.

Lemma by_type_loop_well_formed (tbs : list pyval) :
  Forall well_formed_type_bucket tbs ->
  forall acc, exists acc', by_type_loop acc tbs = Ok acc'.
Proof.
  induction 1 as [| tb tbs (d & sd & -> & Hsd) _ IH]; simpl; intros acc.
  - exists acc. reflexivity.
  - unfold by_type_step. simpl. rewrite Hsd. simpl. apply IH.
Qed.

(** A day bucket is mapped, whatever its keys, when the normalizer
    answers for its ["key_as_string"] and its sub-buckets are well
    formed. *)
Lemma map_bucket_returns (bd : list (string * pyval)) (parsed : option datetime)
      (tbs : list pyval) :
  _parse_created_at (dict_get bd "key_as_string" PNone) = Ok parsed ->
  by_type_buckets (PDict bd) = Ok tbs ->
  Forall well_formed_type_bucket tbs ->
  exists x, map_bucket (PDict bd) = Ok x /\
            DailyTotalsBucket.date x = default_created parsed.
Proof.
  intros Hp Htbs Hwf.
  destruct (by_type_loop_well_formed tbs Hwf ([], F64.zero)) as (acc & Hacc).
  rewrite map_bucket_dict, Hp. unfold bucket_totals. rewrite Htbs. simpl.
  rewrite Hacc. simpl. eexists. split; reflexivity.
Qed.

(** C6 (amended).  In every bucket the aggregation handler returns whose
    sub-buckets have pairwise distinct keys (after [str]),
    [totalAllTypes] is the sum of the values of [totalsByType], added in
    the same order, so the two are the same float. *)
Theorem daily_total_is_sum_when_keys_distinct
        (es : engine) (client_id startDate endDate : string)
        tr (resp : DailyTotalsResponse.t) :
  run (stats_daily es client_id startDate endDate) = (tr, Ok resp) ->
  exists rq body per_day,
    tr = [rq] /\ es rq = Ok body /\ response_day_buckets body = Ok per_day /\
    Forall2 (fun b x =>
               map_bucket b = Ok x /\
               forall tbs, by_type_buckets b = Ok tbs ->
                           NoDup (map tb_key tbs) ->
                           DailyTotalsBucket.totalAllTypes x
                           = sum_values (DailyTotalsBucket.totalsByType x))
            per_day (DailyTotalsResponse.buckets resp).
Proof.
  intros H.
  apply stats_Ok_inv in H as (start & end_ & body & per_day & _ & _ & -> & Hes & Hpd & Hall).
  eexists _, body, per_day. repeat split; [exact Hes | exact Hpd |].
  eapply Forall2_impl; [| exact Hall].
  intros b x Hb. split; [exact Hb |].
  intros tbs Htbs Hnd.
  apply map_bucket_inv in Hb as (acc & Hacc & -> & ->).
  unfold bucket_totals in Hacc. rewrite Htbs in Hacc. simpl in Hacc.
  apply by_type_loop_distinct in Hacc; [tauto | exact Hnd | reflexivity].
Qed.

(** C10.  The date of a day bucket comes from ["key_as_string"] alone.
    For every bucket: (1) it is mapped exactly as the normalizer's
    answer for that entry ([None] when it is absent), the Unix epoch
    standing in for an answer of [None], beside its per-type totals;
    (2) when the entry is a string [isoparse] reads, the bucket that is
    produced bears that very datetime, and one is produced as soon as
    the sub-buckets are well formed; (3) two buckets that agree on
    ["key_as_string"] get the same date, whatever else they hold;
    (4) when the entry is absent, or is [None], a string [isoparse]
    rejects, a list or a dictionary, the bucket is mapped as its
    per-type totals with the Unix epoch as date, a numeric ["key"]
    notwithstanding.  And (5) so it is for every bucket the handler
    returns: its date is the normalizer's answer for the
    ["key_as_string"] of the engine's day bucket in the same place, or
    the epoch. *)
Theorem bucket_date_from_key_as_string_only :
  (forall bd : list (string * pyval),
      map_bucket (PDict bd) =
        (parsed <- _parse_created_at (dict_get bd "key_as_string" PNone) ;;
         acc <- bucket_totals (PDict bd) ;;
         Ok (DailyTotalsBucket.make
               (match parsed with
                | Some d => d
                | None => mk_datetime 1970 1 1 0 0 0 0 None
                end)
               (fst acc) (snd acc)))
      /\
      (forall s d,
          assoc "key_as_string" bd = Some (PStr s) -> isoparse s = Some d ->
          (forall x, map_bucket (PDict bd) = Ok x -> DailyTotalsBucket.date x = d) /\
          (forall tbs, by_type_buckets (PDict bd) = Ok tbs ->
                       Forall well_formed_type_bucket tbs ->
                       exists x, map_bucket (PDict bd) = Ok x /\
                                 DailyTotalsBucket.date x = d))
      /\
      (forall bd' x x',
          assoc "key_as_string" bd' = assoc "key_as_string" bd ->
          map_bucket (PDict bd) = Ok x -> map_bucket (PDict bd') = Ok x' ->
          DailyTotalsBucket.date x' = DailyTotalsBucket.date x)
      /\
      (assoc "key_as_string" bd = None \/
       (exists v, assoc "key_as_string" bd = Some v /\ unparseable v) ->
       map_bucket (PDict bd) =
         (acc <- bucket_totals (PDict bd) ;;
          Ok (DailyTotalsBucket.make (mk_datetime 1970 1 1 0 0 0 0 None)
                                     (fst acc) (snd acc)))
       /\
       forall x, map_bucket (PDict bd) = Ok x ->
                 DailyTotalsBucket.date x = mk_datetime 1970 1 1 0 0 0 0 None))
  /\
  (forall (es : engine) (client_id startDate endDate : string)
          tr (resp : DailyTotalsResponse.t),
      run (stats_daily es client_id startDate endDate) = (tr, Ok resp) ->
      exists rq body per_day,
        tr = [rq] /\ es rq = Ok body /\ response_day_buckets body = Ok per_day /\
        Forall2 (fun b x =>
                   exists bd parsed,
                     b = PDict bd /\
                     _parse_created_at (dict_get bd "key_as_string" PNone) = Ok parsed /\
                     DailyTotalsBucket.date x
                     = match parsed with
                       | Some d => d
                       | None => mk_datetime 1970 1 1 0 0 0 0 None
                       end)
                per_day (DailyTotalsResponse.buckets resp)).
Proof.
  assert (Hdate : forall bd x,
             map_bucket (PDict bd) = Ok x ->
             exists parsed,
               _parse_created_at (dict_get bd "key_as_string" PNone) = Ok parsed /\
               DailyTotalsBucket.date x = default_created parsed).
  { intros bd x Hx. rewrite map_bucket_dict in Hx.
    apply bind_Ok_inv in Hx as (parsed & Hp & Hx).
    apply bind_Ok_inv in Hx as (acc & _ & Hx).
    injection Hx as <-. exists parsed. split; [exact Hp | reflexivity]. }
  split.
  - intros bd. split; [exact (map_bucket_dict bd) |].
    split; [| split].
    + intros s d Hks Hiso.
      assert (Hp : _parse_created_at (dict_get bd "key_as_string" PNone) = Ok (Some d)).
      { unfold dict_get. rewrite Hks. simpl. now rewrite Hiso. }
      split.
      * intros x Hx. destruct (Hdate bd x Hx) as (parsed & Hp' & ->).
        rewrite Hp in Hp'. now injection Hp' as <-.
      * intros tbs Htbs Hwf.
        exact (map_bucket_returns bd (Some d) tbs Hp Htbs Hwf).
    + intros bd' x x' Hsame Hx Hx'.
      destruct (Hdate bd x Hx) as (parsed & Hp & ->).
      destruct (Hdate bd' x' Hx') as (parsed' & Hp' & ->).
      unfold dict_get in Hp, Hp'. rewrite Hsame, Hp in Hp'.
      now injection Hp' as <-.
    + intros H.
      assert (Hp : _parse_created_at (dict_get bd "key_as_string" PNone) = Ok None).
      { unfold dict_get. destruct H as [-> | (v & -> & Hv)].
        - reflexivity.
        - now apply parse_created_at_none. }
      assert (Heq : map_bucket (PDict bd) =
                    (acc <- bucket_totals (PDict bd) ;;
                     Ok (DailyTotalsBucket.make (mk_datetime 1970 1 1 0 0 0 0 None)
                                                (fst acc) (snd acc)))).
      { rewrite map_bucket_dict, Hp. reflexivity. }
      split; [exact Heq |].
      intros x Hx. rewrite Heq in Hx.
      apply bind_Ok_inv in Hx as (acc & _ & Hx). injection Hx as <-. reflexivity.
  - intros es client_id startDate endDate tr resp H.
    apply stats_Ok_inv in H
      as (start & end_ & body & per_day & _ & _ & -> & Hes & Hpd & Hall).
    eexists _, body, per_day. repeat split; [exact Hes | exact Hpd |].
    eapply Forall2_impl; [| exact Hall].
    intros b x Hb.
    destruct b as [| | | | | | bd |]; try discriminate.
    destruct (Hdate bd x Hb) as (parsed & Hp & Hd).
    exists bd, parsed. repeat split; [exact Hp | exact Hd].
Qed.

End DailyTotals.

(** C4 (amended).  Whenever the search handler returns: [total] is what
    the engine reported as match count (validated as an integer), read
    from the body independently of the hits; [items] holds the outcomes of
    the loop body over the engine's hits in order, a skipped hit leaving
    nothing, so [items] is at most as long as the list of hits, and at most
    [size] long whenever the engine returned at most [size] hits.  And
    [total] can exceed the number of items. *)
Theorem search_total_and_items :
  (forall (R : Runtime) (es : engine) (client_id startDate endDate : string)
          (page size : Z) tr (resp : TransactionSearchResponse.t),
      run (search_transactions es client_id startDate endDate page size) = (tr, Ok resp) ->
      exists rq body hs tv rs,
        tr = [rq] /\ rq_size rq = size /\ es rq = Ok body /\
        response_hits body = Ok hs /\
        response_total body = Ok tv /\
        validate_int tv = Ok (TransactionSearchResponse.total resp) /\
        (forall n, tv = PInt n -> TransactionSearchResponse.total resp = n) /\
        Forall2 (fun h r => map_hit h = Ok r) hs rs /\
        TransactionSearchResponse.items resp = kept rs /\
        (length (TransactionSearchResponse.items resp) <= length hs)%nat /\
        (Z.of_nat (length hs) <= size ->
         Z.of_nat (length (TransactionSearchResponse.items resp)) <= size))
  /\
  (exists (es : engine) tr (resp : TransactionSearchResponse.t),
      run (search_transactions (R := Reference) es "c-1" "2024-01-01" "2024-01-31" 3 10)
        = (tr, Ok resp) /\
      Z.of_nat (length (TransactionSearchResponse.items resp))
        < TransactionSearchResponse.total resp).
Proof.
  split.
  - intros R es client_id startDate endDate page size tr resp H.
    apply search_Ok_inv in H as (start & end_ & body & _ & _ & -> & Hes & H).
    apply search_response_inv in H as (tv & hs & Htv & Hhs & Hn & Hitems & _).
    destruct (map_hits_kept _ _ Hitems) as (rs & Hrs & Hkept).
    assert (Hlen : (length (TransactionSearchResponse.items resp) <= length hs)%nat).
    { rewrite Hkept, (Forall2_length Hrs). apply kept_length. }
    exists (search_request client_id start end_ page size), body, hs, tv, rs.
    split; [reflexivity |]. split; [reflexivity |].
    split; [exact Hes |]. split; [exact Hhs |]. split; [exact Htv |].
    split; [exact Hn |].
    split; [intros n ->; simpl in Hn; congruence |].
    split; [exact Hrs |]. split; [exact Hkept |]. split; [exact Hlen | lia].
  - exists (constant_engine third_page_body).
    eexists _, _. split; [vm_compute; reflexivity | vm_compute; reflexivity].
Qed.

(** C4 as first stated fails on an engine that returns more hits than
    asked for: the handler does not cut the list. *)
Lemma items_can_outnumber_size :
  exists tr (resp : TransactionSearchResponse.t),
    run (search_transactions (R := Reference)
           (constant_engine (search_body 2 [plain_hit "tx-1"; plain_hit "tx-2"]))
           "c-1" "2024-01-01" "2024-01-31" 1 1) = (tr, Ok resp) /\
    TransactionSearchResponse.size resp = 1 /\
    length (TransactionSearchResponse.items resp) = 2%nat /\
    ~ Z.of_nat (length (TransactionSearchResponse.items resp))
      <= TransactionSearchResponse.size resp.
Proof.
  eexists _, _. split; [vm_compute; reflexivity |].
  split; [reflexivity |]. split; [reflexivity |]. simpl. lia.
Qed.

(** C4 on the third page of 25 matches: [total] is 25 and the five items
    fit the page size of 10. *)
Lemma search_total_and_items_page :
  exists tr (resp : TransactionSearchResponse.t),
    run (search_transactions (R := Reference) (constant_engine third_page_body)
           "c-1" "2024-01-01" "2024-01-31" 3 10) = (tr, Ok resp) /\
    TransactionSearchResponse.total resp = 25 /\
    Z.of_nat (length (TransactionSearchResponse.items resp)) <= 10.
Proof.
  eexists _, _. split; [vm_compute; reflexivity |].
  destruct (proj1 search_total_and_items Reference (constant_engine third_page_body)
              "c-1" "2024-01-01" "2024-01-31" 3 10 _ _ eq_refl)
    as (rq & body & hs & tv & rs & _ & _ & Hes & Hhs & Htv & _ & Htot & _ & _ & _ & Hsize).
  injection Hes as <-.
  split.
  - apply Htot. vm_compute in Htv. now injection Htv as <-.
  - apply Hsize. vm_compute in Hhs. injection Hhs as <-. simpl. lia.
Defined.

(** C1 as first stated fails: the handler returns an item whose amount is
    infinite and an item whose id is empty. *)
Lemma returned_items_break_invariant :
  exists tr (resp : TransactionSearchResponse.t) i1 i2,
    run (search_transactions (R := Reference)
           (constant_engine (search_body 2 [infinite_amount_hit; anonymous_hit]))
           "c-1" "2024-01-01" "2024-01-31" 1 10) = (tr, Ok resp) /\
    TransactionSearchResponse.items resp = [i1; i2] /\
    Transaction.amount (TransactionSearchItem.source i1) = F64.inf /\
    Transaction.id (TransactionSearchItem.source i2) = "" /\
    ~ Transaction_invariant (TransactionSearchItem.source i1) /\
    ~ Transaction_invariant (TransactionSearchItem.source i2).
Proof.
  eexists _, _, _, _. split; [vm_compute; reflexivity |].
  split; [reflexivity |]. split; [reflexivity |]. split; [reflexivity |].
  split; intros [Hid Hfin].
  - vm_compute in Hfin. discriminate.
  - apply Hid. reflexivity.
Qed.

(** C1 (amended) on those two hits. *)
Lemma search_items_pass_schema_sample :
  exists tr (resp : TransactionSearchResponse.t),
    run (search_transactions (R := Reference)
           (constant_engine (search_body 2 [infinite_amount_hit; anonymous_hit]))
           "c-1" "2024-01-01" "2024-01-31" 1 10) = (tr, Ok resp) /\
    exists rq body hs,
      tr = [rq] /\
      constant_engine (search_body 2 [infinite_amount_hit; anonymous_hit]) rq = Ok body /\
      response_hits body = Ok hs /\
      Forall2 (fun h item =>
                 map_hit (R := Reference) h = Ok (Some item) /\
                 passes_schema (R := Reference) (TransactionSearchItem.source item) /\
                 exists hd sd parsed,
                   h = PDict hd /\ hit_source hd = PDict sd /\
                   _parse_created_at (R := Reference) (dict_get sd "created_at" PNone)
                     = Ok parsed /\
                   TransactionSearchItem.source item
                     = mapped_transaction (R := Reference) hd sd parsed)
              hs (TransactionSearchResponse.items resp).
Proof.
  eexists _, _. split; [vm_compute; reflexivity |].
  apply (@search_items_pass_schema Reference
           (constant_engine (search_body 2 [infinite_amount_hit; anonymous_hit]))
           "c-1" "2024-01-01" "2024-01-31" 1 10).
  vm_compute. reflexivity.
Defined.

(** C5 on the request of the specification, [startDate = "not-a-date"],
    and on an engine that is down. *)
Lemma bad_dates_400_engine_failure_500_sample :
  run (search_transactions (R := Reference) failing_engine
         "c-1" "not-a-date" "2024-01-31" 1 10) = ([], Raise (HTTPException 400)) /\
  run (stats_daily (R := Reference) failing_engine "c-1" "not-a-date" "2024-01-31")
    = ([], Raise (HTTPException 400)) /\
  snd (run (search_transactions (R := Reference) failing_engine
              "c-1" "2024-01-01" "2024-01-31" 1 10)) = Raise (HTTPException 500) /\
  snd (run (stats_daily (R := Reference) failing_engine "c-1" "2024-01-01" "2024-01-31"))
    = Raise (HTTPException 500).
Proof.
  destruct (@bad_dates_400_engine_failure_500 Reference failing_engine
              "c-1" "not-a-date" "2024-01-31" 1 10) as (Hbad & _ & _).
  destruct (@bad_dates_400_engine_failure_500 Reference failing_engine
              "c-1" "2024-01-01" "2024-01-31" 1 10) as (_ & _ & Hdown).
  destruct Hbad as [H1 H2]; [left; vm_compute; reflexivity |].
  split; [exact H1 |]. split; [exact H2 |].
  split.
  - apply (proj1 (Hdown (search_request (R := Reference) "c-1"
                           (mk_datetime 2024 1 1 0 0 0 0 None)
                           (mk_datetime 2024 1 31 0 0 0 0 None) 1 10)
                        TransportError eq_refl)).
    vm_compute. left. reflexivity.
  - apply (proj2 (Hdown (daily_request (R := Reference) "c-1"
                           (mk_datetime 2024 1 1 0 0 0 0 None)
                           (mk_datetime 2024 1 31 0 0 0 0 None))
                        TransportError eq_refl)).
    vm_compute. left. reflexivity.
Defined.

(** C9 on a concrete request. *)
Lemma same_filter_in_both_handlers_sample :
  map rq_query
      (fst (run (search_transactions (R := Reference) failing_engine
                   "c-1" "2024-01-01T00:00:00Z" "2024-01-31T23:59:59Z" 3 10)))
  = [buildFilter "c-1" (mk_datetime 2024 1 1 0 0 0 0 (Some 0))
                 (mk_datetime 2024 1 31 23 59 59 0 (Some 0))] /\
  map rq_query
      (fst (run (stats_daily (R := Reference)
                   (constant_engine (aggregation_body []))
                   "c-1" "2024-01-01T00:00:00Z" "2024-01-31T23:59:59Z")))
  = [buildFilter "c-1" (mk_datetime 2024 1 1 0 0 0 0 (Some 0))
                 (mk_datetime 2024 1 31 23 59 59 0 (Some 0))].
Proof.
  apply (@same_filter_in_both_handlers Reference).
  - vm_compute. reflexivity.
  - vm_compute. reflexivity.
Defined.

(** The bounds reach the engine as "2024-01-01T00:00:00+00:00" and
    "2024-01-31T23:59:59+00:00". *)
Example filter_bounds_text :
  buildFilter "c-1" (mk_datetime 2024 1 1 0 0 0 0 (Some 0))
              (mk_datetime 2024 1 31 23 59 59 0 (Some 0))
  = PDict [("bool", PDict [("filter", PList [
      PDict [("term", PDict [("client_id", PStr "c-1")])];
      PDict [("range", PDict [("created_at",
        PDict [("gte", PStr "2024-01-01T00:00:00+00:00");
               ("lte", PStr "2024-01-31T23:59:59+00:00")])])]])])].
Proof. vm_compute. reflexivity. Qed.

(** X26 on the malformed document of the specification: [amount] "abc", no
    [client_id], no [id], a [created_at] that is not a date. *)
Lemma map_hit_defaults_malformed :
  exists item,
    map_hit (R := Reference) malformed_hit = Ok (Some item) /\
    Transaction.id (TransactionSearchItem.source item) = "doc-7" /\
    Transaction.client_id (TransactionSearchItem.source item) = "" /\
    Transaction.amount (TransactionSearchItem.source item) = F64.zero /\
    Transaction.created_at (TransactionSearchItem.source item)
      = mk_datetime 1970 1 1 0 0 0 0 None.
Proof.
  destruct (@map_hit_defaults Reference
              [("_id", PStr "doc-7"); ("_score", PFloat (F64.of_Z 1));
               ("_source", PDict [("type", PStr "pix"); ("payer_id", PStr "p-1");
                                  ("amount", PStr "abc");
                                  ("created_at", PStr "not-a-date")])]
              [("type", PStr "pix"); ("payer_id", PStr "p-1");
               ("amount", PStr "abc"); ("created_at", PStr "not-a-date")]
              None (F64.of_Z 1))
    as (item & Hitem & _ & Hid & _ & Hcl & _ & Ham & Hcr).
  - vm_compute. reflexivity.
  - vm_compute. reflexivity.
  - vm_compute. reflexivity.
  - exists item. split; [exact Hitem |].
    split; [apply Hid; reflexivity |].
    split; [apply Hcl; reflexivity |].
    split; [apply Ham; exists ValueError; vm_compute; reflexivity |].
    apply Hcr. reflexivity.
Defined.

(** C6 as first stated fails when a type comes twice among the
    sub-buckets: [totalsByType] keeps the last value (2.0), [totalAllTypes]
    adds both (3.0). *)
Lemma repeated_type_breaks_sum :
  exists tr (resp : DailyTotalsResponse.t) x,
    run (stats_daily (R := Reference)
           (constant_engine (aggregation_body [repeated_type_bucket]))
           "c-1" "2024-01-01" "2024-01-31") = (tr, Ok resp) /\
    DailyTotalsResponse.buckets resp = [x] /\
    DailyTotalsBucket.totalsByType x = [("pix", F64.of_Z 2)] /\
    DailyTotalsBucket.totalAllTypes x = F64.of_Z 3 /\
    sum_values (DailyTotalsBucket.totalsByType x) = F64.of_Z 2 /\
    DailyTotalsBucket.totalAllTypes x <> sum_values (DailyTotalsBucket.totalsByType x).
Proof.
  eexists _, _, _. split; [vm_compute; reflexivity |].
  split; [reflexivity |].
  split; [vm_compute; reflexivity |].
  split; [vm_compute; reflexivity |].
  split; [vm_compute; reflexivity |].
  vm_compute. discriminate.
Qed.

(** C6 (amended) on a day with two different types. *)
Lemma daily_total_is_sum_sample :
  exists tr (resp : DailyTotalsResponse.t) x,
    run (stats_daily (R := Reference)
           (constant_engine (aggregation_body [regular_bucket]))
           "c-1" "2024-01-01" "2024-01-31") = (tr, Ok resp) /\
    DailyTotalsResponse.buckets resp = [x] /\
    DailyTotalsBucket.totalAllTypes x = sum_values (DailyTotalsBucket.totalsByType x) /\
    DailyTotalsBucket.totalAllTypes x = F64.of_Z 3.
Proof.
  eexists _, _, _. split; [vm_compute; reflexivity |].
  split; [reflexivity |].
  destruct (@daily_total_is_sum_when_keys_distinct Reference
              (constant_engine (aggregation_body [regular_bucket]))
              "c-1" "2024-01-01" "2024-01-31" _ _ eq_refl)
    as (rq & body & per_day & _ & Hes & Hpd & Hall).
  injection Hes as <-. vm_compute in Hpd. injection Hpd as <-.
  inversion Hall as [| b x bs xs [_ Hsum] _]; subst.
  split; [| vm_compute; reflexivity].
  apply (Hsum [type_bucket "pix" 1; type_bucket "boleto" 2]).
  - vm_compute. reflexivity.
  - simpl. repeat constructor; simpl; intuition discriminate.
Defined.

(** C10 on two buckets that both carry the numeric ["key"] of
    2024-01-01: the one whose ["key_as_string"] is
    "2024-01-01T00:00:00.000Z" is dated by it, the one without
    ["key_as_string"] is dated at the epoch all the same. *)
Lemma bucket_date_from_key_as_string_only_sample :
  (exists x,
      map_bucket (R := Reference) regular_bucket = Ok x /\
      DailyTotalsBucket.date x = mk_datetime 2024 1 1 0 0 0 0 (Some 0)) /\
  assoc "key" [("key", PInt 1704067200000); ("doc_count", PInt 1);
               ("by_type", PDict [("buckets", PList [type_bucket "pix" 5])])]
    = Some (PInt 1704067200000) /\
  exists x,
    map_bucket (R := Reference) keyed_bucket = Ok x /\
    DailyTotalsBucket.date x = mk_datetime 1970 1 1 0 0 0 0 None.
Proof.
  split; [| split; [reflexivity |]].
  - destruct (proj1 (@bucket_date_from_key_as_string_only Reference)
                [("key_as_string", PStr "2024-01-01T00:00:00.000Z");
                 ("key", PInt 1704067200000); ("doc_count", PInt 2);
                 ("by_type", PDict [("buckets", PList [type_bucket "pix" 1;
                                                       type_bucket "boleto" 2])])])
      as (_ & Hparsed & _).
    destruct (Hparsed "2024-01-01T00:00:00.000Z" (mk_datetime 2024 1 1 0 0 0 0 (Some 0)))
      as (_ & Hex).
    + reflexivity.
    + vm_compute. reflexivity.
    + apply (Hex [type_bucket "pix" 1; type_bucket "boleto" 2]).
      * vm_compute. reflexivity.
      * repeat constructor;
          (eexists _, [("value", PFloat (F64.of_Z _))]; split; reflexivity).
  - eexists. split; [vm_compute; reflexivity |].
    destruct (proj1 (@bucket_date_from_key_as_string_only Reference)
                [("key", PInt 1704067200000); ("doc_count", PInt 1);
                 ("by_type", PDict [("buckets", PList [type_bucket "pix" 5])])])
      as (_ & _ & _ & Hfall).
    apply (proj2 (Hfall (or_introl eq_refl))).
    vm_compute. reflexivity.
Defined.

(* ================================================================== *)
(** ** Further properties of the module *)

Ltac bool_hyps :=
  repeat match goal with
         | H : (_ && _)%bool = true |- _ => apply andb_true_iff in H; destruct H
         | H : (_ && _)%bool = false |- _ => apply andb_false_iff in H; destruct H
         | H : (_ || _)%bool = true |- _ => apply orb_true_iff in H; destruct H
         | H : (_ || _)%bool = false |- _ => apply orb_false_iff in H; destruct H
         | H : negb _ = true |- _ => apply negb_true_iff in H
         | H : negb _ = false |- _ => apply negb_false_iff in H
         | H : (_ <? _) = true |- _ => apply Z.ltb_lt in H
         | H : (_ <? _) = false |- _ => apply Z.ltb_ge in H
         | H : (_ <=? _) = true |- _ => apply Z.leb_le in H
         | H : (_ <=? _) = false |- _ => apply Z.leb_gt in H
         | H : (_ =? _) = true |- _ => apply Z.eqb_eq in H
         | H : (_ =? _) = false |- _ => apply Z.eqb_neq in H
         end.

Ltac split_ifs :=
  repeat match goal with
         | |- context [if ?b then _ else _] => destruct b eqn:?
         end;
  bool_hyps.

(** *** The calendar behind [utcfromtimestamp] *)

Lemma days_round_trip (z : Z) :
  -719468 <= z <= 3000000 ->
  let '(y, m, d) := Calendar.civil_from_days z in
  Calendar.days_from_civil y m d = z.
Proof.
  intros Hz. unfold Calendar.civil_from_days, Calendar.days_from_civil. cbv zeta.
  split_ifs; Z.div_mod_to_equations; lia.
Qed.

Lemma civil_in_range (z : Z) :
  -719162 <= z <= 2932896 ->
  let '(y, m, d) := Calendar.civil_from_days z in
  1 <= y <= 9999 /\ 1 <= m <= 12 /\ 1 <= d <= Calendar.days_in_month y m.
Proof.
  intros Hz.
  unfold Calendar.civil_from_days, Calendar.days_in_month, Calendar.is_leap. cbv zeta.
  split_ifs; Z.div_mod_to_equations; lia.
Qed.

Lemma tzinfo_of_wall_us (us : Z) (tz : option Z) :
  tzinfo (Datetime.of_wall_us us tz) = tz.
Proof.
  unfold Datetime.of_wall_us.
  destruct (Calendar.civil_from_days _) as [[y m] d]. reflexivity.
Qed.

(** Reading the wall clock of the datetime made from a number of
    microseconds gives the number back, over the whole range of
    [datetime]. *)
Lemma wall_us_of_wall_us (us : Z) (tz : option Z) :
  Datetime.min_timestamp * 1000000 <= us <= Datetime.max_timestamp * 1000000 + 999999 ->
  Datetime.wall_us (Datetime.of_wall_us us tz) = us.
Proof.
  intros Hus.
  unfold Datetime.wall_us, Datetime.of_wall_us,
    Datetime.min_timestamp, Datetime.max_timestamp in *.
  set (secs := us / 1000000). set (days := secs / 86400).
  assert (Hd : -719468 <= days <= 3000000).
  { subst days secs. Z.div_mod_to_equations. lia. }
  pose proof (days_round_trip days Hd) as Hc.
  destruct (Calendar.civil_from_days days) as [[y m] d]. simpl.
  rewrite Hc. subst days secs. Z.div_mod_to_equations. lia.
Qed.

Lemma of_wall_us_valid (us : Z) (tz : option Z) :
  Datetime.min_timestamp * 1000000 <= us <= Datetime.max_timestamp * 1000000 + 999999 ->
  let d := Datetime.of_wall_us us tz in
  Datetime.valid_fields (year d) (month d) (day d) (hour d) (minute d) (second d)
                        (microsecond d) = true.
Proof.
  intros Hus.
  unfold Datetime.of_wall_us, Datetime.min_timestamp, Datetime.max_timestamp in *.
  set (secs := us / 1000000). set (days := secs / 86400).
  assert (Hd : -719162 <= days <= 2932896).
  { subst days secs. Z.div_mod_to_equations. lia. }
  pose proof (civil_in_range days Hd) as Hc.
  destruct (Calendar.civil_from_days days) as [[y m] d]. simpl.
  destruct Hc as (Hy & Hm & Hday).
  unfold Datetime.valid_fields, Datetime.MINYEAR, Datetime.MAXYEAR.
  repeat (apply andb_true_iff; split); apply Z.leb_le; try lia;
    subst secs; Z.div_mod_to_equations; lia.
Qed.

(** The bounds of [gmtime] are the first second of the year
    1900 - 2^31 and the last second of the year 1900 + 2^31 - 1. *)
Example gmtime_bounds_years :
  Calendar.civil_from_days (gmtime_min / 86400) = (1900 - 2 ^ 31, 1, 1) /\
  gmtime_min mod 86400 = 0 /\
  Calendar.civil_from_days (gmtime_max / 86400) = (1900 + 2 ^ 31 - 1, 12, 31) /\
  gmtime_max mod 86400 = 86399.
Proof. repeat split; vm_compute; reflexivity. Qed.

Section NormalizerNumbers.

Context {R : Runtime}.

Lemma from_timet_and_us_naive (sec us : Z) (d : datetime) :
  from_timet_and_us sec us = Ok d -> tzinfo d = None.
Proof.
  unfold from_timet_and_us. intros H.
  destruct ((Datetime.min_timestamp <=? sec) && (sec <=? Datetime.max_timestamp))%bool.
  - injection H as <-. apply tzinfo_of_wall_us.
  - destruct ((gmtime_min <=? sec) && (sec <=? gmtime_max))%bool; [discriminate |].
    destruct ((- 2 ^ 63 <=? sec) && (sec <? 2 ^ 63))%bool; discriminate.
Qed.

Lemma utcfromtimestamp_naive (t : pyval) (d : datetime) :
  utcfromtimestamp t = Ok d -> tzinfo d = None.
Proof.
  unfold utcfromtimestamp. destruct t; try discriminate.
  - apply from_timet_and_us_naive.
  - apply from_timet_and_us_naive.
  - destruct (F64.is_nan f); [discriminate |].
    destruct (F64.is_inf f); [discriminate |].
    destruct (1000000 <=? _); [apply from_timet_and_us_naive |].
    destruct (_ <? 0); apply from_timet_and_us_naive.
Qed.

Lemma parse_created_at_int_seconds (n : Z) :
  n <= 10000000000 ->
  _parse_created_at (PInt n) = (d <- from_timet_and_us n 0 ;; Ok (Some d)).
Proof.
  intros Hn. unfold _parse_created_at, above_ms_threshold.
  destruct (Z.ltb_spec 10000000000 n); [lia | reflexivity].
Qed.

(** X1.  An integer number of seconds between 0001-01-01T00:00:00 and the
    millisecond threshold (10^10) is turned into a naive datetime with
    legal fields whose wall clock, read as UTC, is exactly that many
    seconds after the epoch. *)
Theorem parse_created_at_epoch_seconds (n : Z) :
  Datetime.min_timestamp <= n <= 10000000000 ->
  exists d,
    _parse_created_at (PInt n) = Ok (Some d) /\
    tzinfo d = None /\
    Datetime.utc_instant d = n * 1000000 /\
    Datetime.valid_fields (year d) (month d) (day d) (hour d) (minute d) (second d)
                          (microsecond d) = true.
Proof.
  intros [Hlo Hhi].
  assert (Hrange : Datetime.min_timestamp * 1000000 <= n * 1000000 + 0
                   <= Datetime.max_timestamp * 1000000 + 999999).
  { unfold Datetime.min_timestamp, Datetime.max_timestamp in *. lia. }
  exists (Datetime.of_wall_us (n * 1000000 + 0) None).
  split.
  - rewrite parse_created_at_int_seconds by exact Hhi.
    unfold from_timet_and_us.
    destruct (Z.leb_spec Datetime.min_timestamp n); [| lia].
    destruct (Z.leb_spec n Datetime.max_timestamp);
      [reflexivity | unfold Datetime.max_timestamp in *; lia].
  - split; [apply tzinfo_of_wall_us |]. split.
    + unfold Datetime.utc_instant. rewrite tzinfo_of_wall_us.
      rewrite wall_us_of_wall_us by exact Hrange. lia.
    + apply (of_wall_us_valid _ None Hrange).
Qed.

(** X2.  At or below the threshold, an integer makes the normalizer raise
    exactly when it lies before 0001-01-01T00:00:00
    (-62135596800 seconds). *)
Theorem parse_created_at_seconds_raise_iff (n : Z) :
  n <= 10000000000 ->
  ((exists e, _parse_created_at (PInt n) = Raise e) <-> n < Datetime.min_timestamp).
Proof.
  intros Hhi. rewrite parse_created_at_int_seconds by exact Hhi.
  unfold from_timet_and_us.
  destruct (Z.leb_spec Datetime.min_timestamp n) as [Hlo | Hlo]; cbn [andb].
  - destruct (Z.leb_spec n Datetime.max_timestamp) as [Hmax | Hmax].
    + split; [intros (e & He); discriminate | lia].
    + unfold Datetime.max_timestamp in Hmax. lia.
  - split; [intros _; exact Hlo | intros _].
    repeat match goal with
           | |- context [if ?c then Raise _ else _] => destruct c
           end; eexists; reflexivity.
Qed.

(** X3.  A float that is not finite (NaN, +inf, -inf) always makes the
    normalizer raise. *)
Theorem parse_created_at_non_finite (f : F64.float) :
  F64.is_finite f = false ->
  exists e, _parse_created_at (PFloat f) = Raise e.
Proof.
  destruct f as [s | s | | s m e]; simpl; try discriminate; intros _.
  - destruct s; eexists; vm_compute; reflexivity.
  - eexists; vm_compute; reflexivity.
Qed.

(** X4.  What a datetime answer of the normalizer can be: for a string,
    exactly what [isoparse] returned; for a datetime, the argument itself;
    for a number or a boolean, a naive datetime; and never anything for
    [None], a list or a dictionary. *)
Theorem parse_created_at_some_inv (v : pyval) (d : datetime) :
  _parse_created_at v = Ok (Some d) ->
  match v with
  | PStr s => isoparse s = Some d
  | PDatetime d' => d' = d
  | PInt _ | PBool _ | PFloat _ => tzinfo d = None
  | PNone | PList _ | PDict _ => False
  end.
Proof.
  assert (Hnum : forall value,
             (if above_ms_threshold value
              then q <- div_1000 value ;; d <- utcfromtimestamp (PFloat q) ;; Ok (Some d)
              else d <- utcfromtimestamp value ;; Ok (Some d)) = Ok (Some d) ->
             tzinfo d = None).
  { intros value H. destruct (above_ms_threshold value).
    - apply bind_Ok_inv in H as (q & _ & H).
      apply bind_Ok_inv in H as (d' & Hd & H).
      injection H as <-. exact (utcfromtimestamp_naive _ _ Hd).
    - apply bind_Ok_inv in H as (d' & Hd & H).
      injection H as <-. exact (utcfromtimestamp_naive _ _ Hd). }
  destruct v as [| b | n | f | s | l | dd | d'];
    unfold _parse_created_at; intros H; try discriminate.
  - exact (Hnum (PBool b) H).
  - exact (Hnum (PInt n) H).
  - exact (Hnum (PFloat f) H).
  - now injection H.
  - now injection H.
Qed.

End NormalizerNumbers.

(** X1 on 1704067200: midnight, 1 January 2024. *)
Lemma parse_created_at_epoch_seconds_sample :
  exists d,
    _parse_created_at (R := Reference) (PInt 1704067200) = Ok (Some d) /\
    tzinfo d = None /\
    Datetime.utc_instant d = 1704067200 * 1000000 /\
    Datetime.valid_fields (year d) (month d) (day d) (hour d) (minute d) (second d)
                          (microsecond d) = true.
Proof.
  apply (@parse_created_at_epoch_seconds Reference 1704067200).
  unfold Datetime.min_timestamp. lia.
Defined.

(** X2 on the second before 0001-01-01. *)
Lemma parse_created_at_seconds_raise_sample :
  exists e, _parse_created_at (R := Reference) (PInt (-62135596801)) = Raise e.
Proof.
  apply (proj2 (@parse_created_at_seconds_raise_iff Reference (-62135596801)
                  ltac:(lia))).
  unfold Datetime.min_timestamp. lia.
Defined.

(** X3 on NaN. *)
Lemma parse_created_at_non_finite_sample :
  exists e, _parse_created_at (R := Reference) (PFloat F64.nan) = Raise e.
Proof.
  apply (@parse_created_at_non_finite Reference F64.nan). reflexivity.
Defined.

(** X4 on the boolean [True]. *)
Lemma parse_created_at_some_inv_sample :
  tzinfo (mk_datetime 1970 1 1 0 0 1 0 None) = None.
Proof.
  apply (@parse_created_at_some_inv Reference (PBool true)
           (mk_datetime 1970 1 1 0 0 1 0 None)).
  vm_compute. reflexivity.
Defined.

Section SearchFurther.

Context {R : Runtime}.

(** X5.  With both dates accepted, the search handler makes one engine
    call: on [ES_INDEX], from offset [(page - 1) * size], for [size] hits,
    sorted by [created_at] descending, without aggregations.  Under the
    declared bounds of [page] and [size] the offset is non-negative, and
    the window of the next page starts where this one ends. *)
Theorem search_request_paging
        (es : engine) (client_id startDate endDate : string) (page size : Z)
        (start end_ : datetime) :
  isoparse startDate = Some start ->
  isoparse endDate = Some end_ ->
  exists rq off,
    fst (run (search_transactions es client_id startDate endDate page size)) = [rq] /\
    rq_index rq = ES_INDEX /\
    rq_from_ rq = Some off /\ off = (page - 1) * size /\
    rq_size rq = size /\
    rq_sort rq = Some (PList [PDict [("created_at", PDict [("order", PStr "desc")])]]) /\
    rq_aggs rq = None /\
    (declared_paging page size ->
       0 <= off /\
       rq_from_ (search_request client_id start end_ (page + 1) size) = Some (off + size)).
Proof.
  intros Hs He.
  exists (search_request client_id start end_ page size), ((page - 1) * size).
  rewrite (search_parsed es _ _ _ page size _ _ Hs He).
  repeat (split; [reflexivity |]).
  intros (Hp & Hsz & _). split; [nia |].
  unfold search_request. simpl. f_equal. lia.
Qed.

(** X6.  The hits are all or nothing: when the loop body raises on a hit,
    the hits before it being well formed, the handler ends with that
    exception, whatever the match count and the hits after it. *)
Theorem search_fails_on_first_bad_hit
        (es : engine) (client_id startDate endDate : string) (page size : Z)
        (start end_ : datetime) (body tv : pyval) (good rest : list pyval)
        (h : pyval) (e : pyexc) :
  isoparse startDate = Some start ->
  isoparse endDate = Some end_ ->
  es (search_request client_id start end_ page size) = Ok body ->
  response_total body = Ok tv ->
  response_hits body = Ok (app good (h :: rest)) ->
  Forall well_formed_hit good ->
  map_hit h = Raise e ->
  run (search_transactions es client_id startDate endDate page size)
  = ([search_request client_id start end_ page size], Raise e).
Proof.
  intros Hs He Hes Htv Hhs Hgood Hh.
  rewrite (search_parsed es _ _ _ page size _ _ Hs He), Hes.
  unfold search_response. rewrite Htv, Hhs. simpl.
  assert (Hm : map_hits (app good (h :: rest)) = Raise e).
  { clear Hhs. induction Hgood as [| g good Hg _ IH]; simpl.
    - rewrite Hh. reflexivity.
    - destruct (map_hit_well_formed g Hg) as (item & ->). simpl.
      rewrite IH. reflexivity. }
  rewrite Hm. reflexivity.
Qed.

(** X7.  A body whose ["hits"] object has neither ["total"] nor ["hits"]
    (in particular a body without ["hits"]) is answered with [total = 0]
    and no items. *)
Theorem search_without_hits
        (es : engine) (client_id startDate endDate : string) (page size : Z)
        (start end_ : datetime) (bd hd : list (string * pyval)) :
  isoparse startDate = Some start ->
  isoparse endDate = Some end_ ->
  es (search_request client_id start end_ page size) = Ok (PDict bd) ->
  dict_get bd "hits" (PDict []) = PDict hd ->
  assoc "total" hd = None ->
  assoc "hits" hd = None ->
  run (search_transactions es client_id startDate endDate page size)
  = ([search_request client_id start end_ page size],
     Ok (TransactionSearchResponse.make 0 page size [])).
Proof.
  intros Hs He Hes Hhits Htot Hh.
  rewrite (search_parsed es _ _ _ page size _ _ Hs He), Hes.
  unfold search_response, response_total, response_hits. simpl.
  rewrite Hhits. simpl. unfold dict_get. rewrite Htot, Hh. reflexivity.
Qed.

(** X8.  The match count must come as an object: when ["total"] is present
    in ["hits"] and is not a dictionary (a bare integer, as older engines
    send it), the handler ends with [AttributeError]. *)
Theorem search_total_must_be_object
        (es : engine) (client_id startDate endDate : string) (page size : Z)
        (start end_ : datetime) (bd hd : list (string * pyval)) (t : pyval) :
  isoparse startDate = Some start ->
  isoparse endDate = Some end_ ->
  es (search_request client_id start end_ page size) = Ok (PDict bd) ->
  dict_get bd "hits" (PDict []) = PDict hd ->
  assoc "total" hd = Some t ->
  not_dict t ->
  run (search_transactions es client_id startDate endDate page size)
  = ([search_request client_id start end_ page size], Raise AttributeError).
Proof.
  intros Hs He Hes Hhits Htot Ht.
  rewrite (search_parsed es _ _ _ page size _ _ Hs He), Hes.
  unfold search_response, response_total. simpl.
  rewrite Hhits. simpl. unfold dict_get. rewrite Htot.
  destruct t; simpl in Ht; try contradiction; reflexivity.
Qed.

(** X9.  The [id] of an item is the [id] of its transaction, not the
    engine's [_id]: the two differ whenever the stored document has an
    [id] of its own. *)
Theorem item_id_is_transaction_id (h : pyval) (item : TransactionSearchItem.t) :
  map_hit h = Ok (Some item) ->
  TransactionSearchItem.id item = Transaction.id (TransactionSearchItem.source item).
Proof.
  intros H.
  destruct (map_hit_Some_inv h item H) as (hd & sd & parsed & -> & Hsrc & Hp & _).
  rewrite (map_hit_dict hd sd Hsrc), Hp in H. simpl in H.
  apply bind_Ok_inv in H as (s & _ & H).
  injection H as <-. reflexivity.
Qed.

(** X10.  The stored [id] is used when it is truthy; a stored [id] that is
    missing, null, empty, zero or false gives way to the engine's [_id]
    (or to the empty string when there is none). *)
Theorem hit_id_fallback (hd sd : list (string * pyval)) (item : TransactionSearchItem.t) :
  hit_source hd = PDict sd ->
  map_hit (PDict hd) = Ok (Some item) ->
  Transaction.id (TransactionSearchItem.source item)
  = if truthy (dict_get sd "id" PNone)
    then py_str (dict_get sd "id" PNone)
    else py_str (dict_get hd "_id" (PStr "")).
Proof.
  intros Hsrc H.
  rewrite (map_hit_dict hd sd Hsrc) in H.
  apply bind_Ok_inv in H as (parsed & _ & H).
  apply bind_Ok_inv in H as (s & _ & H).
  injection H as <-. simpl. unfold default_id, py_or.
  destruct (truthy _); reflexivity.
Qed.

(** X11.  A [type], [client_id] or [payer_id] that is present is passed
    through [str], whatever it is: the empty-string default is for a
    missing key only, and a stored null becomes the text "None". *)
Theorem hit_text_fields_are_str
        (hd sd : list (string * pyval)) (item : TransactionSearchItem.t) :
  hit_source hd = PDict sd ->
  map_hit (PDict hd) = Ok (Some item) ->
  let tx := TransactionSearchItem.source item in
  (forall v, assoc "type" sd = Some v -> Transaction.type tx = py_str v) /\
  (forall v, assoc "client_id" sd = Some v -> Transaction.client_id tx = py_str v) /\
  (forall v, assoc "payer_id" sd = Some v -> Transaction.payer_id tx = py_str v) /\
  (assoc "type" sd = Some PNone -> Transaction.type tx = "None") /\
  (assoc "client_id" sd = Some PNone -> Transaction.client_id tx = "None") /\
  (assoc "payer_id" sd = Some PNone -> Transaction.payer_id tx = "None").
Proof.
  intros Hsrc H.
  rewrite (map_hit_dict hd sd Hsrc) in H.
  apply bind_Ok_inv in H as (parsed & _ & H).
  apply bind_Ok_inv in H as (s & _ & H).
  injection H as <-. simpl. unfold dict_get.
  repeat split; intros; try match goal with Hv : assoc _ sd = Some _ |- _ => rewrite Hv end;
    reflexivity.
Qed.

(** X12.  A hit whose ["_source"] is missing or falsy (null, an empty
    dictionary, an empty string, zero) is mapped like an empty document:
    [id] from the engine's [_id], empty [type], [client_id] and [payer_id],
    amount 0.0 and the Unix epoch as date. *)
Theorem falsy_source_is_empty_document (hd : list (string * pyval)) (s : F64.float) :
  truthy (dict_get hd "_source" (PDict [])) = false ->
  validate_float (py_or (dict_get hd "_score" PNone) (PFloat F64.zero)) = Ok s ->
  map_hit (PDict hd)
  = Ok (Some (TransactionSearchItem.make
                (py_str (dict_get hd "_id" (PStr ""))) s
                (Transaction.make (py_str (dict_get hd "_id" (PStr ""))) ""
                                  (mk_datetime 1970 1 1 0 0 0 0 None) "" ""
                                  F64.zero))).
Proof.
  intros Hf Hsc.
  assert (Hsrc : hit_source hd = PDict []).
  { unfold hit_source, py_or. now rewrite Hf. }
  rewrite (map_hit_dict hd [] Hsrc). simpl. rewrite Hsc. reflexivity.
Qed.

(** X13.  The score of an item is the engine's [_score] when that is a
    non-zero float, and 0.0 when [_score] is missing, null or zero. *)
Theorem hit_score_default
        (hd sd : list (string * pyval)) (item : TransactionSearchItem.t) :
  hit_source hd = PDict sd ->
  map_hit (PDict hd) = Ok (Some item) ->
  (truthy (dict_get hd "_score" PNone) = false ->
     TransactionSearchItem.score item = F64.zero) /\
  (forall f, dict_get hd "_score" PNone = PFloat f -> F64.is_zero f = false ->
             TransactionSearchItem.score item = f).
Proof.
  intros Hsrc H.
  rewrite (map_hit_dict hd sd Hsrc) in H.
  apply bind_Ok_inv in H as (parsed & _ & H).
  apply bind_Ok_inv in H as (s & Hs & H).
  injection H as <-. simpl. unfold py_or in Hs. split.
  - intros Hf. rewrite Hf in Hs. simpl in Hs. now injection Hs.
  - intros f Hv Hz. rewrite Hv in Hs. simpl in Hs. rewrite Hz in Hs.
    simpl in Hs. now injection Hs.
Qed.

(** X14.  A hit that is not a dictionary, or whose ["_source"] is truthy
    and not a dictionary, makes the loop body raise [AttributeError]. *)
Theorem map_hit_needs_dictionaries :
  (forall h, not_dict h -> map_hit h = Raise AttributeError) /\
  (forall hd, truthy (dict_get hd "_source" (PDict [])) = true ->
              not_dict (dict_get hd "_source" (PDict [])) ->
              map_hit (PDict hd) = Raise AttributeError).
Proof.
  split.
  - intros h Hh. destruct h; simpl in Hh; try contradiction; reflexivity.
  - intros hd Ht Hn. unfold map_hit. simpl. unfold py_or. rewrite Ht.
    destruct (dict_get hd "_source" (PDict [])); simpl in Hn; try contradiction;
      reflexivity.
Qed.

(** X15.  How a stored [amount] that is a number, a boolean or not a
    scalar comes out: a float is kept as it is (infinities and NaN
    included), a boolean becomes 1.0 or 0.0, an integer becomes the nearest
    float, and null, a list or a dictionary become 0.0, as does an integer
    too large for a float. *)
Theorem hit_amount_by_kind
        (hd sd : list (string * pyval)) (item : TransactionSearchItem.t) :
  hit_source hd = PDict sd ->
  map_hit (PDict hd) = Ok (Some item) ->
  let amount := Transaction.amount (TransactionSearchItem.source item) in
  (forall f, assoc "amount" sd = Some (PFloat f) -> amount = f) /\
  (forall b, assoc "amount" sd = Some (PBool b) ->
             amount = F64.of_Z (if b then 1 else 0)) /\
  (forall n, assoc "amount" sd = Some (PInt n) ->
             amount = if F64.is_inf (F64.of_Z n) then F64.zero else F64.of_Z n) /\
  (forall v, assoc "amount" sd = Some v -> v = PNone \/ other_type v ->
             amount = F64.zero).
Proof.
  intros Hsrc H.
  rewrite (map_hit_dict hd sd Hsrc) in H.
  apply bind_Ok_inv in H as (parsed & _ & H).
  apply bind_Ok_inv in H as (s & _ & H).
  injection H as <-. simpl. unfold default_amount, dict_get.
  repeat split.
  - intros f ->. reflexivity.
  - intros b ->. reflexivity.
  - intros n ->. simpl. unfold float_of_int. destruct (F64.is_inf _); reflexivity.
  - intros v -> [-> | Hv]; [reflexivity |].
    destruct v; simpl in Hv; try contradiction; reflexivity.
Qed.

End SearchFurther.

Section DailyFurther.

Context {R : Runtime}.

Lemma by_type_step_Ok acc tb acc' :
  by_type_step acc tb = Ok acc' ->
  acc' = (dict_set (tb_key tb) (tb_value tb) (fst acc),
          F64.add (snd acc) (tb_value tb)).
Proof.
  unfold by_type_step, tb_value. intros H.
  destruct tb as [| | | | | | d |]; try discriminate. simpl in H.
  destruct (dict_get d "total_amount" (PDict [])) as [| | | | | | sd |];
    try discriminate.
  simpl in H. injection H as <-. reflexivity.
Qed.

Lemma by_type_step_bad acc tb :
  not_dict tb \/
  (exists d v, tb = PDict d /\ assoc "total_amount" d = Some v /\ not_dict v) ->
  by_type_step acc tb = Raise AttributeError.
Proof.
  intros [Hn | (d & v & -> & Hv & Hn)].
  - destruct tb; simpl in Hn; try contradiction; reflexivity.
  - assert (Hd : dict_get d "total_amount" (PDict []) = v)
      by (unfold dict_get; now rewrite Hv).
    unfold by_type_step. simpl. rewrite Hd.
    destruct v; simpl in Hn; try contradiction; reflexivity.
Qed.

(** The inner loop, as a fold over the sub-buckets. *)
Lemma by_type_loop_Ok (tbs : list pyval) :
  forall acc acc',
    by_type_loop acc tbs = Ok acc' ->
    fst acc' = fold_left (fun d tb => dict_set (tb_key tb) (tb_value tb) d) tbs (fst acc) /\
    snd acc' = fold_left F64.add (map tb_value tbs) (snd acc).
Proof.
  induction tbs as [| tb tbs IH]; simpl; intros acc acc' H.
  - injection H as <-. split; reflexivity.
  - apply bind_Ok_inv in H as (acc1 & Hstep & H).
    apply by_type_step_Ok in Hstep. subst acc1.
    apply IH in H. exact H.
Qed.

Lemma map_bucket_totals (b : pyval) (tbs : list pyval) (x : DailyTotalsBucket.t) :
  by_type_buckets b = Ok tbs ->
  map_bucket b = Ok x ->
  DailyTotalsBucket.totalsByType x
    = fold_left (fun d tb => dict_set (tb_key tb) (tb_value tb) d) tbs [] /\
  DailyTotalsBucket.totalAllTypes x = fold_left F64.add (map tb_value tbs) F64.zero.
Proof.
  intros Htbs Hx.
  apply map_bucket_inv in Hx as (acc & Hacc & -> & ->).
  unfold bucket_totals in Hacc. rewrite Htbs in Hacc. simpl in Hacc.
  exact (by_type_loop_Ok tbs _ _ Hacc).
Qed.

Lemma map_fst_dict_set_in {V} (k : string) (v : V) (d : list (string * V)) :
  In k (map fst d) -> map fst (dict_set k v d) = map fst d.
Proof.
  induction d as [| [k' v'] d IH]; simpl; intros Hin; [contradiction |].
  destruct (String.eqb_spec k k') as [-> | Hne]; [reflexivity |].
  simpl. rewrite IH; [reflexivity |]. destruct Hin as [Heq | Hin]; [congruence | exact Hin].
Qed.

Lemma dict_set_keys_NoDup {V} (k : string) (v : V) (d : list (string * V)) :
  NoDup (map fst d) -> NoDup (map fst (dict_set k v d)).
Proof.
  induction d as [| [k' v'] d IH]; simpl; intros Hnd.
  - constructor; [intros [] | constructor].
  - inversion Hnd as [| ? ? Hout Hnd']; subst.
    destruct (String.eqb_spec k k') as [-> | Hne]; simpl; [exact Hnd |].
    constructor; [| exact (IH Hnd')].
    destruct (in_dec string_dec k (map fst d)) as [Hin | Hfresh].
    + now rewrite map_fst_dict_set_in.
    + rewrite dict_set_fresh by exact Hfresh. rewrite map_app. simpl.
      intros Hin. apply in_app_or in Hin as [Hin | [Heq | []]];
        [exact (Hout Hin) | congruence].
Qed.

Lemma lookup_dict_set_same {V} (k : string) (v : V) (d : list (string * V)) :
  lookup k (dict_set k v d) = Some v.
Proof.
  induction d as [| [k' v'] d IH]; simpl.
  - now rewrite String.eqb_refl.
  - destruct (String.eqb_spec k k') as [-> | Hne]; simpl.
    + now rewrite String.eqb_refl.
    + destruct (String.eqb_spec k k'); [contradiction | exact IH].
Qed.

Lemma lookup_dict_set_other {V} (k k' : string) (v : V) (d : list (string * V)) :
  k <> k' -> lookup k (dict_set k' v d) = lookup k d.
Proof.
  intros Hne. induction d as [| [k0 v0] d IH]; simpl.
  - destruct (String.eqb_spec k k'); [contradiction | reflexivity].
  - destruct (String.eqb_spec k' k0) as [-> | Hne0]; simpl.
    + destruct (String.eqb_spec k k0); [contradiction | reflexivity].
    + destruct (String.eqb_spec k k0); [reflexivity | exact IH].
Qed.

(** X16.  With both dates accepted, the aggregation handler makes one
    engine call, for no hits ([size = 0]) and without paging or sort, with
    the fixed per-day, per-type aggregation; and when it returns, the
    response carries the caller's [client_id], the two parsed bounds, and
    one bucket per day bucket of the engine. *)
Theorem stats_daily_request_and_echo
        (es : engine) (client_id startDate endDate : string) (start end_ : datetime) :
  isoparse startDate = Some start ->
  isoparse endDate = Some end_ ->
  exists rq,
    fst (run (stats_daily es client_id startDate endDate)) = [rq] /\
    rq_index rq = ES_INDEX /\ rq_size rq = 0 /\ rq_from_ rq = None /\
    rq_sort rq = None /\ rq_aggs rq = Some daily_aggs /\
    forall resp,
      snd (run (stats_daily es client_id startDate endDate)) = Ok resp ->
      DailyTotalsResponse.clientId resp = client_id /\
      DailyTotalsResponse.startDate resp = start /\
      DailyTotalsResponse.endDate resp = end_ /\
      exists body per_day,
        es rq = Ok body /\ response_day_buckets body = Ok per_day /\
        length (DailyTotalsResponse.buckets resp) = length per_day.
Proof.
  intros Hs He. exists (daily_request client_id start end_).
  rewrite (stats_parsed es _ _ _ _ _ Hs He).
  repeat (split; [reflexivity |]).
  intros resp H. simpl in H.
  destruct (es (daily_request client_id start end_)) as [body | e]; [| discriminate].
  unfold daily_response in H.
  apply bind_Ok_inv in H as (per_day & Hpd & H).
  apply bind_Ok_inv in H as (bs & Hbs & H).
  injection H as <-. simpl.
  repeat (split; [reflexivity |]).
  exists body, per_day. repeat split; [exact Hpd |].
  symmetry. exact (Forall2_length (map_buckets_Forall2 _ _ Hbs)).
Qed.

(** X17.  A body without usable day buckets (["aggregations"] or
    ["per_day"] missing, ["buckets"] missing, null or empty) is answered
    with an empty list of buckets. *)
Theorem stats_without_buckets
        (es : engine) (client_id startDate endDate : string) (start end_ : datetime)
        (bd ad pd : list (string * pyval)) :
  isoparse startDate = Some start ->
  isoparse endDate = Some end_ ->
  es (daily_request client_id start end_) = Ok (PDict bd) ->
  dict_get bd "aggregations" (PDict []) = PDict ad ->
  dict_get ad "per_day" (PDict []) = PDict pd ->
  truthy (dict_get pd "buckets" (PList [])) = false ->
  run (stats_daily es client_id startDate endDate)
  = ([daily_request client_id start end_],
     Ok (DailyTotalsResponse.make client_id start end_ [])).
Proof.
  intros Hs He Hes Hag Hpd Hb.
  rewrite (stats_parsed es _ _ _ _ _ Hs He), Hes.
  unfold daily_response, response_day_buckets. simpl.
  rewrite Hag. simpl. rewrite Hpd. simpl. unfold py_or. rewrite Hb. reflexivity.
Qed.

(** X18.  A sub-bucket that is not a dictionary, or whose
    ["total_amount"] is present and not a dictionary (null, say), is not
    zero-filled: the day bucket, the sub-buckets before it being well
    formed, is not mapped and [AttributeError] is raised. *)
Theorem bucket_fails_on_bad_sub_bucket
        (bd : list (string * pyval)) (parsed : option datetime)
        (good rest : list pyval) (tb : pyval) :
  _parse_created_at (dict_get bd "key_as_string" PNone) = Ok parsed ->
  by_type_buckets (PDict bd) = Ok (app good (tb :: rest)) ->
  Forall well_formed_type_bucket good ->
  not_dict tb \/
  (exists d v, tb = PDict d /\ assoc "total_amount" d = Some v /\ not_dict v) ->
  map_bucket (PDict bd) = Raise AttributeError.
Proof.
  intros Hp Htbs Hgood Hbad.
  rewrite map_bucket_dict, Hp. unfold bucket_totals. rewrite Htbs. simpl.
  assert (Hl : forall acc, by_type_loop acc (app good (tb :: rest)) = Raise AttributeError).
  { clear Htbs. induction Hgood as [| g good (d & sd & -> & Hsd) _ IH]; simpl; intros acc.
    - now rewrite (by_type_step_bad acc tb Hbad).
    - unfold by_type_step. simpl. rewrite Hsd. simpl. apply IH. }
  rewrite Hl. reflexivity.
Qed.

(** X19.  [totalsByType] never lists a key twice. *)
Theorem totals_by_type_keys_unique (b : pyval) (x : DailyTotalsBucket.t) :
  map_bucket b = Ok x ->
  NoDup (map fst (DailyTotalsBucket.totalsByType x)).
Proof.
  intros Hx.
  apply map_bucket_inv in Hx as (acc & Hacc & -> & _).
  unfold bucket_totals in Hacc.
  apply bind_Ok_inv in Hacc as (tbs & _ & Hacc).
  apply by_type_loop_Ok in Hacc as [-> _]. simpl.
  assert (Hfold : forall (d : list (string * F64.float)),
             NoDup (map fst d) ->
             NoDup (map fst (fold_left
                               (fun d0 tb => dict_set (tb_key tb) (tb_value tb) d0)
                               tbs d))).
  { induction tbs as [| tb tbs IH]; simpl; intros d Hd; [exact Hd |].
    apply IH. now apply dict_set_keys_NoDup. }
  apply Hfold. constructor.
Qed.

(** X20.  [totalAllTypes] is the float sum, left to right from 0.0, of
    the value of every sub-bucket, a repeated key included. *)
Theorem total_all_types_is_running_sum
        (b : pyval) (tbs : list pyval) (x : DailyTotalsBucket.t) :
  by_type_buckets b = Ok tbs ->
  map_bucket b = Ok x ->
  DailyTotalsBucket.totalAllTypes x = fold_left F64.add (map tb_value tbs) F64.zero.
Proof.
  intros Htbs Hx. exact (proj2 (map_bucket_totals b tbs x Htbs Hx)).
Qed.

(** X21.  In [totalsByType] a key holds the value of the last sub-bucket
    that carries it. *)
Theorem totals_by_type_last_value_wins
        (b : pyval) (pre post : list pyval) (tb : pyval) (x : DailyTotalsBucket.t) :
  by_type_buckets b = Ok (app pre (tb :: post)) ->
  map_bucket b = Ok x ->
  ~ In (tb_key tb) (map tb_key post) ->
  lookup (tb_key tb) (DailyTotalsBucket.totalsByType x) = Some (tb_value tb).
Proof.
  intros Htbs Hx Hlast.
  rewrite (proj1 (map_bucket_totals b _ x Htbs Hx)).
  rewrite fold_left_app. simpl.
  assert (Haux : forall (l : list pyval) (d : list (string * F64.float)),
             ~ In (tb_key tb) (map tb_key l) ->
             lookup (tb_key tb) d = Some (tb_value tb) ->
             lookup (tb_key tb)
                    (fold_left (fun d0 t => dict_set (tb_key t) (tb_value t) d0) l d)
             = Some (tb_value tb)).
  { induction l as [| p l IH]; simpl; intros d Hout Hd; [exact Hd |].
    apply IH.
    - intros Hin. apply Hout. now right.
    - rewrite lookup_dict_set_other; [exact Hd |].
      intros Heq. apply Hout. left. now symmetry. }
  apply Haux; [exact Hlast | apply lookup_dict_set_same].
Qed.

(** X22.  A day without sub-buckets (["buckets"] of ["by_type"] missing,
    null or empty) gives an empty [totalsByType] and [totalAllTypes]
    0.0. *)
Theorem empty_day_bucket
        (bd btd : list (string * pyval)) (parsed : option datetime) :
  _parse_created_at (dict_get bd "key_as_string" PNone) = Ok parsed ->
  dict_get bd "by_type" (PDict []) = PDict btd ->
  truthy (dict_get btd "buckets" (PList [])) = false ->
  map_bucket (PDict bd)
  = Ok (DailyTotalsBucket.make (default_created parsed) [] F64.zero).
Proof.
  intros Hp Hbt Hb.
  rewrite map_bucket_dict, Hp. unfold bucket_totals, by_type_buckets. simpl.
  rewrite Hbt. simpl. unfold py_or. rewrite Hb. reflexivity.
Qed.

(** X23.  Zero-fill: a sub-bucket whose sum is missing, null, zero or
    something [float] refuses is filed under its key with 0.0 and adds
    0.0 to the running total. *)
Theorem sub_bucket_zero_fill
        (acc : list (string * F64.float) * F64.float)
        (d sd : list (string * pyval)) :
  dict_get d "total_amount" (PDict []) = PDict sd ->
  truthy (dict_get sd "value" (PFloat F64.zero)) = false \/
  (exists e, py_float (dict_get sd "value" (PFloat F64.zero)) = Raise e) ->
  by_type_step acc (PDict d)
  = Ok (dict_set (py_str (dict_get d "key" (PStr ""))) F64.zero (fst acc),
        F64.add (snd acc) F64.zero).
Proof.
  intros Hs Hv. unfold by_type_step. simpl. rewrite Hs. simpl.
  unfold py_or. destruct Hv as [Hf | (e & He)].
  - rewrite Hf. reflexivity.
  - destruct (truthy _); [rewrite He |]; reflexivity.
Qed.

End DailyFurther.

Section Statuses.

Context {R : Runtime}.

Lemma bind_not_http {A B} (c : result A) (k : A -> result B) :
  not_http c -> (forall a, not_http (k a)) -> not_http (bind c k).
Proof.
  destruct c as [a | e]; simpl; intros Hc Hk; [apply Hk | exact Hc].
Qed.

Ltac no_http_step :=
  first [ exact I
        | apply bind_not_http; [| intros ?]
        | match goal with
          | |- not_http (match ?x with _ => _ end) => destruct x
          | |- not_http (if ?b then _ else _) => destruct b
          end ].

Lemma py_get_not_http (o : pyval) (k : string) (v : pyval) : not_http (py_get o k v).
Proof. destruct o; exact I. Qed.

Lemma py_iter_not_http (v : pyval) : not_http (py_iter v).
Proof. destruct v; exact I. Qed.

Lemma validate_float_not_http (v : pyval) : not_http (validate_float v).
Proof. unfold validate_float. repeat no_http_step. Qed.

Lemma validate_int_not_http (v : pyval) : not_http (validate_int v).
Proof. unfold validate_int. repeat no_http_step. Qed.

Lemma validate_str_not_http (v : pyval) : not_http (validate_str v).
Proof. unfold validate_str. repeat no_http_step. Qed.

Lemma validate_datetime_not_http (v : pyval) : not_http (validate_datetime v).
Proof. unfold validate_datetime. repeat no_http_step. Qed.

Lemma py_float_not_http (v : pyval) : not_http (py_float v).
Proof. unfold py_float, float_of_int. repeat no_http_step. Qed.

Lemma from_timet_and_us_not_http (sec us : Z) : not_http (from_timet_and_us sec us).
Proof. unfold from_timet_and_us. repeat no_http_step. Qed.

Lemma utcfromtimestamp_not_http (t : pyval) : not_http (utcfromtimestamp t).
Proof.
  unfold utcfromtimestamp.
  destruct t; try exact I; try apply from_timet_and_us_not_http.
  repeat match goal with
         | |- not_http (if ?b then _ else _) => destruct b
         end; try exact I; apply from_timet_and_us_not_http.
Qed.

Lemma parse_created_at_not_http (v : pyval) : not_http (_parse_created_at v).
Proof.
  assert (Hnum : forall value,
             not_http (if above_ms_threshold value
                       then q <- div_1000 value ;;
                            d <- utcfromtimestamp (PFloat q) ;; Ok (Some d)
                       else d <- utcfromtimestamp value ;; Ok (Some d))).
  { intros value. destruct (above_ms_threshold value).
    - apply bind_not_http.
      + unfold div_1000. apply bind_not_http; [apply py_float_not_http | intros; exact I].
      + intros q. apply bind_not_http; [apply utcfromtimestamp_not_http | intros; exact I].
    - apply bind_not_http; [apply utcfromtimestamp_not_http | intros; exact I]. }
  destruct v as [| b | n | f | s | l | d | dt]; unfold _parse_created_at; try exact I.
  - exact (Hnum (PBool b)).
  - exact (Hnum (PInt n)).
  - exact (Hnum (PFloat f)).
Qed.

Lemma Transaction_new_not_http (a b c d e f : pyval) :
  not_http (Transaction.new a b c d e f).
Proof.
  unfold Transaction.new.
  repeat (apply bind_not_http;
          [first [apply validate_str_not_http | apply validate_datetime_not_http
                 | apply validate_float_not_http] | intros ?]).
  exact I.
Qed.

Lemma map_hit_not_http (h : pyval) : not_http (map_hit h).
Proof.
  unfold map_hit.
  apply bind_not_http; [apply py_get_not_http | intros src0].
  apply bind_not_http; [apply py_get_not_http | intros id0].
  apply bind_not_http; [destruct (truthy id0); [exact I | apply py_get_not_http] | intros id1].
  apply bind_not_http; [apply py_get_not_http | intros ty].
  apply bind_not_http; [apply py_get_not_http | intros cl].
  apply bind_not_http; [apply py_get_not_http | intros pa].
  apply bind_not_http; [apply py_get_not_http | intros raw].
  apply bind_not_http; [apply py_get_not_http | intros cr].
  apply bind_not_http; [apply parse_created_at_not_http | intros parsed].
  apply bind_not_http;
    [destruct parsed; [exact I | apply utcfromtimestamp_not_http] | intros created].
  match goal with
  | |- not_http (match ?t with _ => _ end) =>
      pose proof (Transaction_new_not_http
                    (PStr (py_str id1)) (PStr (py_str ty)) (PDatetime created)
                    (PStr (py_str cl)) (PStr (py_str pa))
                    (PFloat (try_except (py_float raw) F64.zero))) as Ht;
      destruct t as [tx | [| | | | | | |]]
  end; try exact I; try contradiction.
  apply bind_not_http; [apply py_get_not_http | intros sc].
  apply bind_not_http; [| intros; exact I].
  unfold TransactionSearchItem.new.
  apply bind_not_http; [apply validate_str_not_http | intros i].
  apply bind_not_http; [apply validate_float_not_http | intros; exact I].
Qed.

Lemma map_hits_not_http (hs : list pyval) : not_http (map_hits hs).
Proof.
  induction hs as [| h hs IH]; simpl; [exact I |].
  apply bind_not_http; [apply map_hit_not_http | intros r].
  apply bind_not_http; [exact IH | intros; exact I].
Qed.

Lemma search_response_not_http (body : pyval) (page size : Z) :
  not_http (search_response body page size).
Proof.
  unfold search_response, response_total, response_hits.
  apply bind_not_http.
  { repeat (apply bind_not_http; [apply py_get_not_http | intros ?]).
    apply py_get_not_http. }
  intros total. apply bind_not_http.
  { repeat (apply bind_not_http; [apply py_get_not_http | intros ?]).
    apply py_iter_not_http. }
  intros hs. apply bind_not_http; [apply map_hits_not_http | intros items].
  unfold TransactionSearchResponse.new.
  repeat (apply bind_not_http; [apply validate_int_not_http | intros ?]).
  exact I.
Qed.

Lemma by_type_loop_not_http (tbs : list pyval) :
  forall acc, not_http (by_type_loop acc tbs).
Proof.
  induction tbs as [| tb tbs IH]; simpl; intros acc; [exact I |].
  apply bind_not_http; [| intros; apply IH].
  unfold by_type_step.
  repeat (apply bind_not_http; [apply py_get_not_http | intros ?]).
  exact I.
Qed.

Lemma map_bucket_not_http (b : pyval) : not_http (map_bucket b).
Proof.
  unfold map_bucket.
  apply bind_not_http; [apply py_get_not_http | intros ks].
  apply bind_not_http; [apply parse_created_at_not_http | intros parsed].
  apply bind_not_http;
    [destruct parsed; [exact I | apply utcfromtimestamp_not_http] | intros day].
  apply bind_not_http; [apply py_get_not_http | intros bt].
  apply bind_not_http; [apply py_get_not_http | intros bl].
  apply bind_not_http; [apply py_iter_not_http | intros tbs].
  apply bind_not_http; [apply by_type_loop_not_http | intros acc].
  unfold DailyTotalsBucket.new.
  apply bind_not_http; [apply validate_datetime_not_http | intros d].
  apply bind_not_http; [apply validate_float_not_http | intros; exact I].
Qed.

Lemma map_buckets_not_http (bs : list pyval) : not_http (map_buckets bs).
Proof.
  induction bs as [| b bs IH]; simpl; [exact I |].
  apply bind_not_http; [apply map_bucket_not_http | intros x].
  apply bind_not_http; [exact IH | intros; exact I].
Qed.

Lemma daily_response_not_http (body : pyval) (client_id : string) (start end_ : datetime) :
  not_http (daily_response body client_id start end_).
Proof.
  unfold daily_response, response_day_buckets.
  apply bind_not_http.
  { repeat (apply bind_not_http; [apply py_get_not_http | intros ?]).
    apply py_iter_not_http. }
  intros per_day. apply bind_not_http; [apply map_buckets_not_http | intros; exact I].
Qed.

(** X24.  The only [HTTPException]s the two handlers raise are 400, for a
    rejected date and before any engine call, and 500, for a failed
    engine call; whatever goes wrong while the engine's answer is read
    leaves the handler as another exception. *)
Theorem http_exceptions_are_400_or_500
        (es : engine) (client_id startDate endDate : string) (page size : Z) :
  (forall tr c,
      run (search_transactions es client_id startDate endDate page size)
        = (tr, Raise (HTTPException c)) ->
      (c = 400 /\ tr = [] /\ (isoparse startDate = None \/ isoparse endDate = None)) \/
      (c = 500 /\ exists rq e, tr = [rq] /\ es rq = Raise e))
  /\
  (forall tr c,
      run (stats_daily es client_id startDate endDate) = (tr, Raise (HTTPException c)) ->
      (c = 400 /\ tr = [] /\ (isoparse startDate = None \/ isoparse endDate = None)) \/
      (c = 500 /\ exists rq e, tr = [rq] /\ es rq = Raise e)).
Proof.
  split; intros tr c H.
  - destruct (isoparse startDate) as [start |] eqn:Hs.
    2: { rewrite (search_bad_start es _ _ _ page size Hs) in H.
         injection H as <- <-. left. auto. }
    destruct (isoparse endDate) as [end_ |] eqn:He.
    2: { rewrite (search_bad_end es _ _ _ page size He) in H.
         injection H as <- <-. left. auto. }
    rewrite (search_parsed es _ _ _ page size _ _ Hs He) in H.
    injection H as <- H.
    destruct (es (search_request client_id start end_ page size)) as [body | e] eqn:Hes.
    + pose proof (search_response_not_http body page size) as Hn.
      rewrite H in Hn. contradiction.
    + injection H as <-. right. split; [reflexivity |].
      eexists _, e. split; [reflexivity | exact Hes].
  - destruct (isoparse startDate) as [start |] eqn:Hs.
    2: { rewrite (stats_bad_start es _ _ _ Hs) in H.
         injection H as <- <-. left. auto. }
    destruct (isoparse endDate) as [end_ |] eqn:He.
    2: { rewrite (stats_bad_end es _ _ _ He) in H.
         injection H as <- <-. left. auto. }
    rewrite (stats_parsed es _ _ _ _ _ Hs He) in H.
    injection H as <- H.
    destruct (es (daily_request client_id start end_)) as [body | e] eqn:Hes.
    + pose proof (daily_response_not_http body client_id start end_) as Hn.
      rewrite H in Hn. contradiction.
    + injection H as <-. right. split; [reflexivity |].
      eexists _, e. split; [reflexivity | exact Hes].
Qed.

(** X25.  The client of [es.py] authenticates exactly when both
    [ELASTIC_USER] and [ELASTIC_PASS] are set and not empty, with that
    very pair; it always has a 30 second request timeout, and its one
    host is [ELASTIC_URL], or the default when that is unset. *)
Theorem es_get_es_credentials :
  cc_request_timeout Es.get_es = Some 30 /\
  cc_hosts Es.get_es
    = [match getenv "ELASTIC_URL" with
       | Some v => v
       | None => "http://elasticsearch:9200"
       end] /\
  (forall u p,
      cc_basic_auth Es.get_es = Some (u, p) <->
      getenv "ELASTIC_USER" = Some u /\ getenv "ELASTIC_PASS" = Some p /\
      u <> "" /\ p <> "").
Proof.
  unfold Es.get_es.
  destruct (getenv "ELASTIC_USER") as [user |];
    destruct (getenv "ELASTIC_PASS") as [pwd |]; simpl.
  2-4: repeat split; try discriminate;
       intros (H1 & H2 & _); discriminate.
  destruct (String.eqb_spec user "") as [-> | Hu]; simpl.
  { repeat split; try discriminate. intros (H1 & _ & Hne & _).
    injection H1 as <-. now destruct Hne. }
  destruct (String.eqb_spec pwd "") as [-> | Hp]; simpl.
  { repeat split; try discriminate. intros (_ & H2 & _ & Hne).
    injection H2 as <-. now destruct Hne. }
  split; [reflexivity |]. split; [reflexivity |].
  intros u p. split.
  - intros Heq. injection Heq as <- <-. repeat split; assumption.
  - intros (H1 & H2 & _). injection H1 as <-. injection H2 as <-. reflexivity.
Qed.

End Statuses.

(** *** The further properties on concrete requests *)

(** X5 on page 3 of pages of 10: the engine is asked for hits 20 to 29. *)
Lemma search_request_paging_sample :
  exists rq,
    fst (run (search_transactions (R := Reference) failing_engine
                "c-1" "2024-01-01" "2024-01-31" 3 10)) = [rq] /\
    rq_from_ rq = Some 20 /\ rq_size rq = 10 /\
    rq_from_ (search_request (R := Reference) "c-1"
                (mk_datetime 2024 1 1 0 0 0 0 None)
                (mk_datetime 2024 1 31 0 0 0 0 None) 4 10) = Some 30.
Proof.
  destruct (@search_request_paging Reference failing_engine
              "c-1" "2024-01-01" "2024-01-31" 3 10
              (mk_datetime 2024 1 1 0 0 0 0 None) (mk_datetime 2024 1 31 0 0 0 0 None))
    as (rq & off & Htr & _ & Hfrom & Hoff & Hsize & _ & _ & Hnext).
  - vm_compute. reflexivity.
  - vm_compute. reflexivity.
  - exists rq. split; [exact Htr |]. subst off.
    split; [exact Hfrom |]. split; [exact Hsize |].
    apply Hnext. unfold declared_paging. lia.
Defined.

(** X6: a document dated 10^18 after a sound one fails the request. *)
Lemma search_fails_on_first_bad_hit_sample :
  run (search_transactions (R := Reference)
         (constant_engine
            (search_body 2 [plain_hit "tx-1";
                            PDict [("_id", PStr "doc-1");
                                   ("_source",
                                    PDict [("created_at", PInt (10 ^ 18))])]]))
         "c-1" "2024-01-01" "2024-01-31" 1 10)
  = ([search_request (R := Reference) "c-1" (mk_datetime 2024 1 1 0 0 0 0 None)
                     (mk_datetime 2024 1 31 0 0 0 0 None) 1 10],
     Raise ValueError).
Proof.
  pose (bad := PDict [("_id", PStr "doc-1");
                      ("_source", PDict [("created_at", PInt (10 ^ 18))])]).
  pose (body := search_body 2 [plain_hit "tx-1"; bad]).
  apply (@search_fails_on_first_bad_hit Reference (constant_engine body)
           "c-1" "2024-01-01" "2024-01-31" 1 10
           (mk_datetime 2024 1 1 0 0 0 0 None) (mk_datetime 2024 1 31 0 0 0 0 None)
           body (PInt 2) [plain_hit "tx-1"] [] bad ValueError).
  - vm_compute. reflexivity.
  - vm_compute. reflexivity.
  - reflexivity.
  - reflexivity.
  - reflexivity.
  - constructor; [| constructor].
    exists [("_id", PStr "tx-1"); ("_score", PFloat (F64.of_Z 1));
            ("_source", PDict [("id", PStr "tx-1"); ("type", PStr "pix");
                               ("client_id", PStr "c-1"); ("payer_id", PStr "p-1");
                               ("amount", PFloat (F64.of_Z 5))])],
           [("id", PStr "tx-1"); ("type", PStr "pix");
            ("client_id", PStr "c-1"); ("payer_id", PStr "p-1");
            ("amount", PFloat (F64.of_Z 5))],
           None, (F64.of_Z 1).
    repeat split; vm_compute; reflexivity.
  - vm_compute. reflexivity.
Defined.

(** X7 on an empty body. *)
Lemma search_without_hits_sample :
  run (search_transactions (R := Reference) (constant_engine (PDict []))
         "c-1" "2024-01-01" "2024-01-31" 2 10)
  = ([search_request (R := Reference) "c-1" (mk_datetime 2024 1 1 0 0 0 0 None)
                     (mk_datetime 2024 1 31 0 0 0 0 None) 2 10],
     Ok (TransactionSearchResponse.make 0 2 10 [])).
Proof.
  apply (@search_without_hits Reference (constant_engine (PDict []))
           "c-1" "2024-01-01" "2024-01-31" 2 10 _ _ [] []);
    vm_compute; reflexivity.
Defined.

(** X8 on a body that gives the match count as a bare 25. *)
Lemma search_total_must_be_object_sample :
  snd (run (search_transactions (R := Reference)
              (constant_engine
                 (PDict [("hits", PDict [("total", PInt 25); ("hits", PList [])])]))
              "c-1" "2024-01-01" "2024-01-31" 1 10))
  = Raise AttributeError.
Proof.
  rewrite (@search_total_must_be_object Reference
             (constant_engine
                (PDict [("hits", PDict [("total", PInt 25); ("hits", PList [])])]))
             "c-1" "2024-01-01" "2024-01-31" 1 10
             (mk_datetime 2024 1 1 0 0 0 0 None) (mk_datetime 2024 1 31 0 0 0 0 None)
             [("hits", PDict [("total", PInt 25); ("hits", PList [])])]
             [("total", PInt 25); ("hits", PList [])] (PInt 25)).
  - reflexivity.
  - vm_compute. reflexivity.
  - vm_compute. reflexivity.
  - reflexivity.
  - reflexivity.
  - reflexivity.
  - exact I.
Defined.

(** X9 on a hit whose engine id is "doc-8" and whose stored id is
    "tx-8". *)
Lemma item_id_is_transaction_id_sample :
  exists item,
    map_hit (R := Reference) infinite_amount_hit = Ok (Some item) /\
    dict_get [("_id", PStr "doc-8")] "_id" PNone = PStr "doc-8" /\
    TransactionSearchItem.id item = "tx-8" /\
    TransactionSearchItem.id item = Transaction.id (TransactionSearchItem.source item).
Proof.
  eexists. split; [vm_compute; reflexivity |].
  split; [reflexivity |]. split; [reflexivity |].
  apply (@item_id_is_transaction_id Reference infinite_amount_hit).
  vm_compute. reflexivity.
Defined.

(** X10 on a stored id that is the empty string. *)
Lemma hit_id_fallback_sample :
  exists item,
    map_hit (R := Reference)
      (PDict [("_id", PStr "doc-9"); ("_source", PDict [("id", PStr "")])])
    = Ok (Some item) /\
    Transaction.id (TransactionSearchItem.source item) = "doc-9".
Proof.
  eexists. split; [vm_compute; reflexivity |].
  rewrite (@hit_id_fallback Reference
             [("_id", PStr "doc-9"); ("_source", PDict [("id", PStr "")])]
             [("id", PStr "")] _).
  - reflexivity.
  - reflexivity.
  - vm_compute. reflexivity.
Defined.

(** X11 on a stored [type] that is null and a [client_id] that is the
    number 42. *)
Lemma hit_text_fields_are_str_sample :
  exists item,
    map_hit (R := Reference)
      (PDict [("_id", PStr "doc-2");
              ("_source", PDict [("type", PNone); ("client_id", PInt 42)])])
    = Ok (Some item) /\
    Transaction.type (TransactionSearchItem.source item) = "None" /\
    Transaction.client_id (TransactionSearchItem.source item) = "42".
Proof.
  eexists. split; [vm_compute; reflexivity |].
  destruct (@hit_text_fields_are_str Reference
              [("_id", PStr "doc-2");
               ("_source", PDict [("type", PNone); ("client_id", PInt 42)])]
              [("type", PNone); ("client_id", PInt 42)] _ eq_refl eq_refl)
    as (_ & Hcl & _ & Hty & _).
  split; [exact (Hty eq_refl) | exact (Hcl (PInt 42) eq_refl)].
Defined.

(** X12 on a hit whose stored document is null. *)
Lemma falsy_source_is_empty_document_sample :
  map_hit (R := Reference)
    (PDict [("_id", PStr "doc-3"); ("_score", PFloat (F64.of_Z 2)); ("_source", PNone)])
  = Ok (Some (TransactionSearchItem.make "doc-3" (F64.of_Z 2)
                (Transaction.make "doc-3" "" (mk_datetime 1970 1 1 0 0 0 0 None)
                                  "" "" F64.zero))).
Proof.
  apply (@falsy_source_is_empty_document Reference
           [("_id", PStr "doc-3"); ("_score", PFloat (F64.of_Z 2)); ("_source", PNone)]
           (F64.of_Z 2)); reflexivity.
Defined.

(** X13 on a hit without [_score]. *)
Lemma hit_score_default_sample :
  exists item,
    map_hit (R := Reference) (PDict [("_id", PStr "doc-4")]) = Ok (Some item) /\
    TransactionSearchItem.score item = F64.zero.
Proof.
  eexists. split; [vm_compute; reflexivity |].
  apply (proj1 (@hit_score_default Reference [("_id", PStr "doc-4")] [] _
                  eq_refl eq_refl)).
  reflexivity.
Defined.

(** X14 on a null hit and on a stored document that is a text. *)
Lemma map_hit_needs_dictionaries_sample :
  map_hit (R := Reference) PNone = Raise AttributeError /\
  map_hit (R := Reference) (PDict [("_id", PStr "doc-5"); ("_source", PStr "text")])
  = Raise AttributeError.
Proof.
  split.
  - apply (proj1 (@map_hit_needs_dictionaries Reference)). exact I.
  - apply (proj2 (@map_hit_needs_dictionaries Reference)
             [("_id", PStr "doc-5"); ("_source", PStr "text")]).
    + reflexivity.
    + exact I.
Defined.

(** X15 on a stored [amount] that is [true]. *)
Lemma hit_amount_by_kind_sample :
  exists item,
    map_hit (R := Reference)
      (PDict [("_id", PStr "doc-6"); ("_source", PDict [("amount", PBool true)])])
    = Ok (Some item) /\
    Transaction.amount (TransactionSearchItem.source item) = F64.of_Z 1.
Proof.
  eexists. split; [vm_compute; reflexivity |].
  destruct (@hit_amount_by_kind Reference
              [("_id", PStr "doc-6"); ("_source", PDict [("amount", PBool true)])]
              [("amount", PBool true)] _ eq_refl eq_refl)
    as (_ & Hb & _).
  exact (Hb true eq_refl).
Defined.

(** X16 on a request answered with two day buckets. *)
Lemma stats_daily_request_and_echo_sample :
  exists rq resp,
    run (stats_daily (R := Reference)
           (constant_engine (aggregation_body [regular_bucket; keyed_bucket]))
           "c-1" "2024-01-01" "2024-01-31") = ([rq], Ok resp) /\
    rq_size rq = 0 /\ rq_aggs rq = Some daily_aggs /\
    DailyTotalsResponse.clientId resp = "c-1" /\
    DailyTotalsResponse.startDate resp = mk_datetime 2024 1 1 0 0 0 0 None /\
    DailyTotalsResponse.endDate resp = mk_datetime 2024 1 31 0 0 0 0 None /\
    length (DailyTotalsResponse.buckets resp) = 2%nat.
Proof.
  destruct (@stats_daily_request_and_echo Reference
              (constant_engine (aggregation_body [regular_bucket; keyed_bucket]))
              "c-1" "2024-01-01" "2024-01-31"
              (mk_datetime 2024 1 1 0 0 0 0 None) (mk_datetime 2024 1 31 0 0 0 0 None))
    as (rq & Htr & _ & Hsize & _ & _ & Haggs & Hresp).
  - vm_compute. reflexivity.
  - vm_compute. reflexivity.
  - destruct (run (stats_daily (R := Reference)
                     (constant_engine (aggregation_body [regular_bucket; keyed_bucket]))
                     "c-1" "2024-01-01" "2024-01-31")) as [tr [resp | e]] eqn:Hrun;
      [| vm_compute in Hrun; discriminate].
    simpl in Htr. subst tr.
    destruct (Hresp resp eq_refl) as (Hc & Hs & He & body & per_day & Hes & Hpd & Hlen).
    exists rq, resp. split; [reflexivity |].
    split; [exact Hsize |]. split; [exact Haggs |].
    split; [exact Hc |]. split; [exact Hs |]. split; [exact He |].
    rewrite Hlen. injection Hes as <-. vm_compute in Hpd. now injection Hpd as <-.
Defined.

(** X17 on an empty body. *)
Lemma stats_without_buckets_sample :
  run (stats_daily (R := Reference) (constant_engine (PDict []))
         "c-1" "2024-01-01" "2024-01-31")
  = ([daily_request (R := Reference) "c-1" (mk_datetime 2024 1 1 0 0 0 0 None)
                    (mk_datetime 2024 1 31 0 0 0 0 None)],
     Ok (DailyTotalsResponse.make "c-1" (mk_datetime 2024 1 1 0 0 0 0 None)
                                  (mk_datetime 2024 1 31 0 0 0 0 None) [])).
Proof.
  apply (@stats_without_buckets Reference (constant_engine (PDict []))
           "c-1" "2024-01-01" "2024-01-31" _ _ [] [] []);
    vm_compute; reflexivity.
Defined.

(** X18 on a sub-bucket whose sum is null. *)
Lemma bucket_fails_on_bad_sub_bucket_sample :
  map_bucket (R := Reference)
    (PDict [("key_as_string", PStr "2024-01-01T00:00:00.000Z");
            ("by_type",
             PDict [("buckets",
                     PList [type_bucket "pix" 1;
                            PDict [("key", PStr "boleto"); ("total_amount", PNone)]])])])
  = Raise AttributeError.
Proof.
  apply (@bucket_fails_on_bad_sub_bucket Reference _
           (Some (mk_datetime 2024 1 1 0 0 0 0 (Some 0)))
           [type_bucket "pix" 1] []
           (PDict [("key", PStr "boleto"); ("total_amount", PNone)])).
  - vm_compute. reflexivity.
  - reflexivity.
  - constructor; [| constructor].
    exists [("key", PStr "pix"); ("doc_count", PInt 1);
            ("total_amount", PDict [("value", PFloat (F64.of_Z 1))])],
           [("value", PFloat (F64.of_Z 1))].
    split; reflexivity.
  - right. exists [("key", PStr "boleto"); ("total_amount", PNone)], PNone.
    repeat split.
Defined.

(** X19 on the day in which "pix" comes twice. *)
Lemma totals_by_type_keys_unique_sample :
  exists x,
    map_bucket (R := Reference) repeated_type_bucket = Ok x /\
    DailyTotalsBucket.totalsByType x = [("pix", F64.of_Z 2)] /\
    NoDup (map fst (DailyTotalsBucket.totalsByType x)).
Proof.
  eexists. split; [vm_compute; reflexivity |].
  split; [vm_compute; reflexivity |].
  apply (@totals_by_type_keys_unique Reference repeated_type_bucket).
  vm_compute. reflexivity.
Defined.

(** X20 on the same day: the total is 1.0 + 2.0. *)
Lemma total_all_types_is_running_sum_sample :
  exists x,
    map_bucket (R := Reference) repeated_type_bucket = Ok x /\
    DailyTotalsBucket.totalAllTypes x
    = F64.add (F64.add F64.zero (F64.of_Z 1)) (F64.of_Z 2).
Proof.
  eexists. split; [vm_compute; reflexivity |].
  rewrite (@total_all_types_is_running_sum Reference repeated_type_bucket
             [type_bucket "pix" 1; type_bucket "pix" 2] _).
  - vm_compute. reflexivity.
  - vm_compute. reflexivity.
  - vm_compute. reflexivity.
Defined.

(** X21 on the same day: "pix" holds 2.0, the later value. *)
Lemma totals_by_type_last_value_wins_sample :
  exists x,
    map_bucket (R := Reference) repeated_type_bucket = Ok x /\
    lookup "pix" (DailyTotalsBucket.totalsByType x) = Some (F64.of_Z 2).
Proof.
  eexists. split; [vm_compute; reflexivity |].
  apply (@totals_by_type_last_value_wins Reference repeated_type_bucket
           [type_bucket "pix" 1] [] (type_bucket "pix" 2)).
  - vm_compute. reflexivity.
  - vm_compute. reflexivity.
  - intros [].
Defined.

(** X22 on a day without transactions. *)
Lemma empty_day_bucket_sample :
  map_bucket (R := Reference)
    (PDict [("key_as_string", PStr "2024-01-02T00:00:00.000Z");
            ("key", PInt 1704153600000); ("doc_count", PInt 0);
            ("by_type", PDict [("doc_count_error_upper_bound", PInt 0);
                               ("sum_other_doc_count", PInt 0);
                               ("buckets", PList [])])])
  = Ok (DailyTotalsBucket.make (mk_datetime 2024 1 2 0 0 0 0 (Some 0)) [] F64.zero).
Proof.
  apply (@empty_day_bucket Reference _
           [("doc_count_error_upper_bound", PInt 0);
            ("sum_other_doc_count", PInt 0); ("buckets", PList [])]
           (Some (mk_datetime 2024 1 2 0 0 0 0 (Some 0)))).
  - vm_compute. reflexivity.
  - reflexivity.
  - reflexivity.
Defined.

(** X23 on a sub-bucket whose sum has a null value. *)
Lemma sub_bucket_zero_fill_sample :
  by_type_step (R := Reference) ([("pix", F64.of_Z 5)], F64.of_Z 5)
    (PDict [("key", PStr "boleto"); ("total_amount", PDict [("value", PNone)])])
  = Ok ([("pix", F64.of_Z 5); ("boleto", F64.zero)], F64.of_Z 5).
Proof.
  rewrite (@sub_bucket_zero_fill Reference ([("pix", F64.of_Z 5)], F64.of_Z 5)
             [("key", PStr "boleto"); ("total_amount", PDict [("value", PNone)])]
             [("value", PNone)]).
  - vm_compute. reflexivity.
  - reflexivity.
  - left. reflexivity.
Defined.

(** X24 on a rejected start date: the 400 comes with no engine call. *)
Lemma http_exceptions_are_400_or_500_sample :
  run (search_transactions (R := Reference) failing_engine
         "c-1" "not-a-date" "2024-01-31" 1 10) = ([], Raise (HTTPException 400)) /\
  (Dateutil.isoparse "not-a-date" = None \/ Dateutil.isoparse "2024-01-31" = None).
Proof.
  split; [vm_compute; reflexivity |].
  destruct (proj1 (@http_exceptions_are_400_or_500 Reference failing_engine
                     "c-1" "not-a-date" "2024-01-31" 1 10) [] 400 eq_refl)
    as [(_ & _ & H) | (H & _)].
  - exact H.
  - discriminate H.
Defined.

(** X25 in a process that sets the three variables. *)
Lemma es_get_es_credentials_sample :
  cc_basic_auth (Es.get_es (R := Reference_in sample_env))
    = Some ("elastic", "changeme") /\
  cc_hosts (Es.get_es (R := Reference_in sample_env)) = ["https://es.internal:9200"] /\
  cc_request_timeout (Es.get_es (R := Reference_in sample_env)) = Some 30.
Proof.
  destruct (@es_get_es_credentials (Reference_in sample_env)) as (Ht & Hh & Hauth).
  split; [| split; [exact Hh | exact Ht]].
  apply (proj2 (Hauth "elastic" "changeme")).
  repeat split; discriminate.
Defined.
